(** * Evernode client library: event classifier, moment arithmetic and
      fixed-layout payloads

    A shallow embedding of the parts of [BaseEvernodeClient] that decode and
    classify what the ledger recorded:

    - [getMoment] / [getMomentStartIndex] (moment windowing),
    - [extractEvernodeEvent], in its hook-parameter generation
      (module [Classifier]) and in its memo generation (module [Legacy]),
    - the parameter building of [_propose],
    - the contract-info decoding of [getReputationContractInfoByAddress].

    JavaScript values are modelled as follows.  A [Number] that holds an
    integer is a [Z]; a [Buffer] is a [list byte]; a string is a [string];
    [undefined]/[null] in a field that otherwise holds a string is [None];
    a thrown exception is the [Thrown] outcome; an awaited call is the call.
    Functions of the Node runtime, of third-party packages and of modules of
    the library that are not at hand (base64, UTF-8, [JSON.parse], the
    address codec, the decrypt capability, the candidate helpers) are fields
    of a [Runtime] record. *)

From Stdlib Require Import ZArith List String Ascii Bool Lia.
From Stdlib Require Import Strings.Byte.
Import ListNotations.

Open Scope string_scope.
Open Scope list_scope.
Open Scope Z_scope.

(** ** JavaScript substrate *)

Module Js.

(** Exceptions the modelled code can raise. *)
Inductive JsError : Type :=
| RangeError      (* Buffer read out of bounds *)
| TypeError       (* property access on undefined / null *)
| SyntaxError     (* JSON.parse *)
| CodecError      (* ripple-address-codec: unexpected payload length *)
| Rejected        (* a rejected promise of an external capability *)
| Message (s : string).   (* throw 'text' *)

(** Result of running a piece of code: a value, or a thrown exception. *)
Inductive Outcome (A : Type) : Type :=
| Returned (a : A)
| Thrown (e : JsError).
Arguments Returned {A} a.
Arguments Thrown {A} e.

Definition bind {A B} (m : Outcome A) (k : A -> Outcome B) : Outcome B :=
  match m with
  | Returned a => k a
  | Thrown e => Thrown e
  end.

(** Values stored in fields whose type is not fixed by the code. *)
#[warnings="-register-all"]
Inductive jsval : Type :=
| JUndefined
| JNull
| JBool (b : bool)
| JNum (z : Z)
| JStr (s : string)
| JBuf (b : list byte)
| JObj (fields : list (string * jsval)).

(** [Boolean(v)] for the values above. *)
Definition truthy (v : jsval) : bool :=
  match v with
  | JUndefined | JNull => false
  | JBool b => b
  | JNum z => negb (z =? 0)
  | JStr s => negb (String.eqb s "")
  | JBuf _ | JObj _ => true
  end.

(** Truthiness of a field that holds a string, [undefined] or [null]. *)
Definition truthy_str (s : option string) : bool :=
  match s with
  | Some s => negb (String.eqb s "")
  | None => false
  end.

(** [v === s] for a string constant [s]. *)
Definition strict_eq_str (v : jsval) (s : string) : bool :=
  match v with
  | JStr t => String.eqb t s
  | _ => false
  end.

(** [o === s] for a string-or-absent field. *)
Definition opt_eq_str (o : option string) (s : string) : bool :=
  match o with
  | Some t => String.eqb t s
  | None => false
  end.

Fixpoint lookup_field (k : string) (fs : list (string * jsval)) : jsval :=
  match fs with
  | [] => JUndefined
  | (k', v) :: fs' => if String.eqb k' k then v else lookup_field k fs'
  end.

(** [v.k]: a TypeError on [undefined] and [null], the field of an object,
    [undefined] on the other primitives (none of the keys read by the
    modelled code is a built-in property of a primitive). *)
Definition prop (v : jsval) (k : string) : Outcome jsval :=
  match v with
  | JUndefined | JNull => Thrown TypeError
  | JObj fs => Returned (lookup_field k fs)
  | _ => Returned JUndefined
  end.

(** [v?.k] *)
Definition opt_prop (v : jsval) (k : string) : jsval :=
  match v with
  | JUndefined | JNull => JUndefined
  | JObj fs => lookup_field k fs
  | _ => JUndefined
  end.

(** The 32 bits that [&] sees of a [Flags] field: a number, or absent. *)
Definition to_uint32 (v : jsval) : Z :=
  match v with
  | JNum z => z mod 2 ^ 32
  | JBool true => 1
  | _ => 0
  end.

End Js.

Export Js.

Notation "x <- m ;; k" := (Js.bind m (fun x => k))
  (at level 61, m at next level, right associativity).

(** ** Buffers *)

Module Buf.

Definition byteZ (b : byte) : Z := Z.of_N (Byte.to_N b).

(** [Buffer.alloc(n)] *)
Definition alloc (n : nat) : list byte := repeat x00 n.

(** [buf.slice(a, b)] for [0 <= a], [0 <= b]. *)
Definition slice (a b : nat) (l : list byte) : list byte :=
  firstn (b - a) (skipn a l).

(** [buf.slice(a)] *)
Definition slice_from (a : nat) (l : list byte) : list byte := skipn a l.

(** [src.copy(target, off)]: writes as many bytes of [src] as fit in
    [target] from [off] on; the length of [target] never changes. *)
Definition copy (src target : list byte) (off : nat) : list byte :=
  let n := Nat.min (List.length src) (List.length target - off) in
  firstn off target ++ firstn n src ++ skipn (off + n) target.

(** [buf.readUInt8(off)] *)
Definition readUInt8 (l : list byte) (off : nat) : Outcome Z :=
  match nth_error l off with
  | Some b => Returned (byteZ b)
  | None => Thrown RangeError
  end.

(** [buf.readInt8(off)] *)
Definition readInt8 (l : list byte) (off : nat) : Outcome Z :=
  match nth_error l off with
  | Some b => Returned (if byteZ b <? 128 then byteZ b else byteZ b - 256)
  | None => Thrown RangeError
  end.

(** Little-endian and big-endian values of a byte list. *)
Fixpoint le_value (l : list byte) : Z :=
  match l with
  | [] => 0
  | b :: l' => byteZ b + 256 * le_value l'
  end.

Definition be_value (l : list byte) : Z := le_value (rev l).

(** A read of [n] bytes at [off]: out of range unless all of them exist. *)
Definition read_bytes (l : list byte) (off n : nat) : Outcome (list byte) :=
  if (off + n <=? List.length l)%nat then Returned (firstn n (skipn off l))
  else Thrown RangeError.

(** [buf.readUInt16LE(off)] *)
Definition readUInt16LE (l : list byte) (off : nat) : Outcome Z :=
  bs <- read_bytes l off 2 ;; Returned (le_value bs).

(** [buf.readUInt32BE(off)] *)
Definition readUInt32BE (l : list byte) (off : nat) : Outcome Z :=
  bs <- read_bytes l off 4 ;; Returned (be_value bs).

(** [buf.readBigUInt64LE(off)] *)
Definition readBigUInt64LE (l : list byte) (off : nat) : Outcome Z :=
  bs <- read_bytes l off 8 ;; Returned (le_value bs).

(** [Number(n)] for a BigInt [0 <= n < 2^64]: exact below [2^53], above it
    rounded to the nearest double (53-bit significand, ties to even). *)
Definition Number_of_BigInt (n : Z) : Z :=
  if n <? 2 ^ 53 then n
  else
    let e := Z.log2 n - 52 in
    let q := Z.shiftr n e in
    let r := n mod 2 ^ e in
    let half := 2 ^ (e - 1) in
    let q' := if r <? half then q
              else if half <? r then q + 1
              else if Z.even q then q else q + 1 in
    q' * 2 ^ e.

(** *** Hex *)

Definition hex_digit_lower (n : N) : ascii :=
  match n with
  | 0 => "0" | 1 => "1" | 2 => "2" | 3 => "3" | 4 => "4" | 5 => "5"
  | 6 => "6" | 7 => "7" | 8 => "8" | 9 => "9" | 10 => "a" | 11 => "b"
  | 12 => "c" | 13 => "d" | 14 => "e" | _ => "f"
  end%N%char.

(** Value of a hex digit of either case, [None] for any other character. *)
Definition unhex (c : ascii) : option N :=
  let n := N_of_ascii c in
  if ((48 <=? n) && (n <=? 57))%N then Some (n - 48)%N
  else if ((65 <=? n) && (n <=? 70))%N then Some (n - 55)%N
  else if ((97 <=? n) && (n <=? 102))%N then Some (n - 87)%N
  else None.

Definition byte_of_nibbles (hi lo : N) : byte :=
  byte_of_ascii (ascii_of_N (16 * hi + lo)).

(** [buf.toString('hex')]: two lower-case digits per byte. *)
Fixpoint to_hex (l : list byte) : string :=
  match l with
  | [] => EmptyString
  | b :: l' =>
      let n := Byte.to_N b in
      String (hex_digit_lower (n / 16)) (String (hex_digit_lower (n mod 16)) (to_hex l'))
  end.

(** [Buffer.from(s, 'hex')]: decodes pairs of hex digits and stops at the
    first pair that is not two hex digits; a trailing single character is
    dropped. *)
Fixpoint from_hex (s : string) : list byte :=
  match s with
  | String c1 (String c2 s') =>
      match unhex c1, unhex c2 with
      | Some hi, Some lo => byte_of_nibbles hi lo :: from_hex s'
      | _, _ => []
      end
  | _ => []
  end.

(** [s.toUpperCase()] on the ASCII range. *)
Definition upper_char (c : ascii) : ascii :=
  let n := N_of_ascii c in
  if ((97 <=? n) && (n <=? 122))%N then ascii_of_N (n - 32) else c.

Fixpoint toUpperCase (s : string) : string :=
  match s with
  | EmptyString => EmptyString
  | String c s' => String (upper_char c) (toUpperCase s')
  end.

(** [s.substr(start, len)] for non-negative arguments. *)
Definition substr (start len : nat) (s : string) : string :=
  String.substring start len s.

End Buf.

(** ** Moment arithmetic *)

Module Moment.

Record MomentBaseInfo : Type := {
  baseIdx : Z;
  baseTransitionMoment : Z
}.

Record Config : Type := {
  momentBaseInfo : MomentBaseInfo;
  momentSize : Z
}.

(** [index || UtilHelpers.getCurrentUnixTime()]: the argument is [None]
    when it is absent or [null]; [now] is the reading of the clock. *)
Definition index_or_now (index : option Z) (now : Z) : Z :=
  match index with
  | Some i => if i =? 0 then now else i
  | None => now
  end.

(** [Math.floor(a / b)] on integers is [Z.div], which rounds toward
    negative infinity. *)
Definition getMoment (config : Config) (now : Z) (index : option Z) : Z :=
  let i := index_or_now index now in
  let m := baseTransitionMoment (momentBaseInfo config)
           + (i - baseIdx (momentBaseInfo config)) / momentSize config in
  m.

Definition getMomentStartIndex (config : Config) (now : Z) (index : option Z) : Z :=
  let i := index_or_now index now in
  let m := (i - baseIdx (momentBaseInfo config)) / momentSize config in
  baseIdx (momentBaseInfo config) + m * momentSize config.

End Moment.

(** ** Protocol constants (evernode-common) *)

Module EvernodeConstants.

Module CandidateTypes.
Definition NewHook : Z := 1.
Definition PilotedMode : Z := 2.
Definition DudHost : Z := 3.
End CandidateTypes.

Module CandidateStatuses.
Definition CANDIDATE_REJECTED : Z := 0.
Definition CANDIDATE_SUPPORTED : Z := 1.
Definition CANDIDATE_ELECTED : Z := 2.
Definition CANDIDATE_PURGED : Z := 3.
Definition CANDIDATE_WITHDRAWN : Z := 4.
End CandidateStatuses.

End EvernodeConstants.

Module EventTypes.
Definition ACQUIRE_LEASE := "evnAcquireLease".
Definition ACQUIRE_SUCCESS := "evnAcquireSuccess".
Definition ACQUIRE_ERROR := "evnAcquireError".
Definition HOST_REG := "evnHostReg".
Definition HOST_DEREG := "evnHostDereg".
Definition HOST_UPDATE_INFO := "evnHostUpdateReg".
Definition HEARTBEAT := "evnHeartbeat".
Definition HOST_TRANSFER := "evnTransfer".
Definition EXTEND_LEASE := "evnExtendLease".
Definition EXTEND_SUCCESS := "evnExtendSuccess".
Definition EXTEND_ERROR := "evnExtendError".
Definition TERMINATE_LEASE := "evnTerminateLease".
Definition INIT := "evnInitialize".
Definition DEAD_HOST_PRUNE := "evnDeadHostPrune".
Definition HOST_REBATE := "evnHostRebate".
Definition CANDIDATE_PROPOSE := "evnCandidatePropose".
Definition CANDIDATE_WITHDRAW := "evnCandidateWithdraw".
Definition CANDIDATE_VOTE := "evnCandidateVote".
Definition CANDIDATE_STATUS_CHANGE := "evnCandidateStatusChange".
Definition DUD_HOST_REPORT := "evnDudHostReport".
Definition HOOK_UPDATE_RES := "evnHookUpdateRes".
Definition GOVERNANCE_MODE_CHANGE := "evnGovernanceModeChange".
Definition LINKED_CANDIDATE_REMOVE := "evnRemoveLinkedCandidate".
Definition HOST_UPDATE_REPUTATION := "evnHostUpdateReputation".
End EventTypes.

Module MemoFormats.
Definition TEXT := "text/plain".
Definition JSON := "text/json".
Definition BASE64 := "base64".
Definition HEX := "hex".
End MemoFormats.

Module HookParamKeys.
Definition PARAM_EVENT_TYPE_KEY :=
  "4556520100000000000000000000000000000000000000000000000000000002".
Definition PARAM_EVENT_DATA_KEY :=
  "4556520100000000000000000000000000000000000000000000000000000003".
Definition PARAM_EVENT_DATA2_KEY :=
  "4556520100000000000000000000000000000000000000000000000000000004".
End HookParamKeys.

Module ReputationConstants.
Definition REP_INFO_BUFFER_SIZE : nat := 43.
Definition REP_INFO_PUBKEY_OFFSET : nat := 0.
Definition REP_INFO_PEER_PORT_OFFSET : nat := 33.
Definition REP_INFO_MOMENT_OFFSET : nat := 35.
End ReputationConstants.

(** Names of the events the classifier emits ([EvernodeEvents]). *)
Inductive EvernodeEvents : Type :=
| HostRegistered | HostDeregistered | HostTransfer
| AcquireLease | AcquireSuccess | AcquireError
| Heartbeat
| ExtendLease | ExtendSuccess | ExtendError
| TerminateLease
| HostRegUpdated | HostReRegistered
| Initialized | DeadHostPrune | HostRebate
| CandidateProposed | CandidateWithdrawn
| ChildHookUpdated | GovernanceModeChanged | FoundationVoted
| DudHostReported | DudHostRemoved | DudHostStatusChanged
| FallbackToPiloted | NewHookStatusChanged
| LinkedDudHostCandidateRemoved | HostReputationUpdated.

Definition EvernodeEvents_eq_dec (a b : EvernodeEvents) : {a = b} + {a <> b}.
Proof. decide equality. Defined.

Definition EvernodeEvents_eqb (a b : EvernodeEvents) : bool :=
  if EvernodeEvents_eq_dec a b then true else false.

(** ** Transactions, events and the external capabilities *)

Record HookParameter : Type := {
  hp_name : string;
  hp_value : option string          (* hex text, or absent *)
}.

Record Memo : Type := {
  memo_type : option string;
  memo_format : option string;
  memo_data : option string
}.

(** A transaction whose memo list and hook-parameter list have been
    deserialized. *)
Record Tx : Type := {
  TransactionType : string;
  HookParameters : list HookParameter;
  Memos : list Memo;
  Account : jsval;
  Destination : jsval;
  hash : jsval;
  Amount : jsval;
  DeliveredAmount : jsval;
  Flags : jsval;
  URITokenSellOffer : jsval
}.

Record EvernodeEvent : Type := {
  name : EvernodeEvents;
  transaction : Tx;
  data : list (string * jsval)
}.

(** What the classifier reads of the client object ([this]). *)
Record Client : Type := {
  address : string;                    (* this.xrplAcc.address *)
  messagePrivateKey : option string    (* null when the client has no key *)
}.

(** Functions and constants that live outside the sources at hand. *)
Record Runtime : Type := {
  (* Node: Buffer.from(s, 'base64'), buf.toString('base64'), buf.toString() *)
  base64_decode : string -> list byte;
  base64_encode : list byte -> string;
  utf8_decode : list byte -> string;
  (* Node: Buffer.from(s, 'utf-8') *)
  utf8_encode : string -> list byte;
  (* JSON.parse; throws SyntaxError on text that is not JSON *)
  JSON_parse : string -> Outcome jsval;
  (* parseFloat *)
  parseFloat : jsval -> jsval;
  (* await EncryptionHelper.decrypt(privateKey, payload) *)
  decrypt : string -> string -> Outcome jsval;
  (* ripple-address-codec: the address text of a 20-byte account id, and the
     decoding of an address text *)
  base58_account : list byte -> string;
  decodeAccountID : jsval -> Outcome (list byte);
  (* StateHelpers.getCandidateType and StateHelpers.getNewHookCandidateId *)
  getCandidateType : string -> Z;
  getNewHookCandidateId : list byte -> string;
  (* XrplTransactionTypes.URI_TOKEN_BUY_OFFER *)
  URI_TOKEN_BUY_OFFER : string
}.

(** [codec.encodeAccountID(bytes)]: the codec refuses a payload that is not
    20 bytes long. *)
Definition encodeAccountID (rt : Runtime) (bytes : list byte) : Outcome string :=
  if (List.length bytes =? 20)%nat then Returned (base58_account rt bytes)
  else Thrown CodecError.

(** [xrpl.PaymentFlags.tfPartialPayment] *)
Definition tfPartialPayment : Z := 131072.

(** ** The event classifier (hook-parameter generation) *)

Module Classifier.

Definition CANDIDATE_PROPOSE_HASHES_PARAM_OFFSET : nat := 0.
Definition CANDIDATE_PROPOSE_KEYLETS_PARAM_OFFSET : nat := 128.
Definition CANDIDATE_PROPOSE_UNIQUE_ID_PARAM_OFFSET : nat := 264.
Definition CANDIDATE_PROPOSE_SHORT_NAME_PARAM_OFFSET : nat := 296.
Definition CANDIDATE_PROPOSE_PARAM_SIZE : nat := 316.
Definition MAX_HOOK_PARAM_SIZE : nat := 256.
Definition DUD_HOST_CANDID_ADDRESS_OFFSET : nat := 12.
Definition REPUTATION_HOST_ADDRESS_PARAM_OFFSET : nat := 0.
Definition REPUTATION_VALUE_PARAM_OFFSET : nat := 20.
(* By reputation address <host_address(20)><token_id(32)><error(1)> *)
Definition HOST_DEREG_FROM_REP_PARAM_SIZE : nat := 53.

(** [tx.HookParameters.find(p => p.name === key)] *)
Definition find_param (key : string) (ps : list HookParameter) : option HookParameter :=
  find (fun p => String.eqb (hp_name p) key) ps.

(** [eventType]: stays [undefined] when there are no hook parameters. *)
Definition eventType_of (tx : Tx) : option string :=
  match HookParameters tx with
  | [] => None
  | ps =>
      match find_param HookParamKeys.PARAM_EVENT_TYPE_KEY ps with
      | Some p => hp_value p
      | None => None
      end
  end.

(** [eventData]: [?.value ?? ''] when there are hook parameters. *)
Definition eventData_of (tx : Tx) : option string :=
  match HookParameters tx with
  | [] => None
  | ps =>
      match find_param HookParamKeys.PARAM_EVENT_DATA_KEY ps with
      | Some p => match hp_value p with Some v => Some v | None => Some "" end
      | None => Some ""
      end
  end.

(** The text of [eventData] where the code uses it as a string. *)
Definition eventData_text (tx : Tx) : string :=
  match eventData_of tx with Some s => s | None => "" end.

(** [tx.Memos.length && tx.Memos[0].type === ty && tx.Memos[0].data] *)
Definition memo0_typed (tx : Tx) (ty : string) : bool :=
  match Memos tx with
  | m :: _ => opt_eq_str (memo_type m) ty && truthy_str (memo_data m)
  | [] => false
  end.

(** [tx.Memos.length && tx.Memos[0].type === ty &&
    tx.Memos[0].format === fmt && tx.Memos[0].data] *)
Definition memo0_typed_fmt (tx : Tx) (ty fmt : string) : bool :=
  match Memos tx with
  | m :: _ =>
      opt_eq_str (memo_type m) ty && opt_eq_str (memo_format m) fmt
      && truthy_str (memo_data m)
  | [] => false
  end.

Definition memo0_format (tx : Tx) : option string :=
  match Memos tx with m :: _ => memo_format m | [] => None end.

Definition memo0_data (tx : Tx) : string :=
  match Memos tx with
  | m :: _ => match memo_data m with Some d => d | None => "" end
  | [] => ""
  end.

(** [eventType === ty] *)
Definition is_type (tx : Tx) (ty : string) : bool :=
  opt_eq_str (eventType_of tx) ty.

(** [eventType === ty && eventData] *)
Definition is_type_with_data (tx : Tx) (ty : string) : bool :=
  is_type tx ty && truthy_str (eventData_of tx).

Section WithRuntime.

Variable rt : Runtime.
Variable self : Client.

(** *** The dispatch predicates, in the order of the if / else-if chain *)

Definition g_acquire_lease (tx : Tx) : bool :=
  String.eqb (TransactionType tx) (URI_TOKEN_BUY_OFFER rt)
  && is_type tx EventTypes.ACQUIRE_LEASE
  && memo0_typed_fmt tx EventTypes.ACQUIRE_LEASE MemoFormats.BASE64.

Definition g_acquire_success (tx : Tx) : bool :=
  is_type_with_data tx EventTypes.ACQUIRE_SUCCESS
  && memo0_typed tx EventTypes.ACQUIRE_SUCCESS.

Definition g_acquire_error (tx : Tx) : bool :=
  is_type_with_data tx EventTypes.ACQUIRE_ERROR
  && memo0_typed tx EventTypes.ACQUIRE_ERROR.

Definition g_host_reg (tx : Tx) : bool :=
  is_type_with_data tx EventTypes.HOST_REG.

Definition g_host_dereg (tx : Tx) : bool :=
  is_type_with_data tx EventTypes.HOST_DEREG.

Definition g_heartbeat (tx : Tx) : bool :=
  is_type tx EventTypes.HEARTBEAT.

Definition g_extend_lease (tx : Tx) : bool :=
  is_type_with_data tx EventTypes.EXTEND_LEASE.

Definition g_terminate_lease (tx : Tx) : bool :=
  is_type_with_data tx EventTypes.TERMINATE_LEASE.

Definition g_extend_success (tx : Tx) : bool :=
  is_type_with_data tx EventTypes.EXTEND_SUCCESS
  && memo0_typed_fmt tx EventTypes.EXTEND_SUCCESS MemoFormats.HEX.

Definition g_extend_error (tx : Tx) : bool :=
  is_type_with_data tx EventTypes.EXTEND_ERROR
  && memo0_typed tx EventTypes.EXTEND_ERROR.

Definition g_init (tx : Tx) : bool :=
  is_type_with_data tx EventTypes.INIT.

Definition g_host_update_info (tx : Tx) : bool :=
  is_type_with_data tx EventTypes.HOST_UPDATE_INFO.

Definition g_dead_host_prune (tx : Tx) : bool :=
  is_type_with_data tx EventTypes.DEAD_HOST_PRUNE.

Definition g_host_rebate (tx : Tx) : bool :=
  is_type tx EventTypes.HOST_REBATE.

Definition g_host_transfer (tx : Tx) : bool :=
  is_type_with_data tx EventTypes.HOST_TRANSFER.

Definition g_candidate_propose (tx : Tx) : bool :=
  is_type_with_data tx EventTypes.CANDIDATE_PROPOSE.

Definition g_candidate_withdraw (tx : Tx) : bool :=
  is_type_with_data tx EventTypes.CANDIDATE_WITHDRAW.

Definition g_candidate_status_change (tx : Tx) : bool :=
  is_type_with_data tx EventTypes.CANDIDATE_STATUS_CHANGE.

Definition g_linked_candidate_remove (tx : Tx) : bool :=
  is_type_with_data tx EventTypes.LINKED_CANDIDATE_REMOVE.

Definition g_hook_update_res (tx : Tx) : bool :=
  is_type_with_data tx EventTypes.HOOK_UPDATE_RES.

Definition g_governance_mode_change (tx : Tx) : bool :=
  is_type_with_data tx EventTypes.GOVERNANCE_MODE_CHANGE.

Definition g_candidate_vote (tx : Tx) : bool :=
  is_type_with_data tx EventTypes.CANDIDATE_VOTE.

Definition g_dud_host_report (tx : Tx) : bool :=
  is_type_with_data tx EventTypes.DUD_HOST_REPORT.

Definition g_host_update_reputation (tx : Tx) : bool :=
  is_type_with_data tx EventTypes.HOST_UPDATE_REPUTATION.

(** *** The branch bodies *)

Definition event (n : EvernodeEvents) (tx : Tx) (d : list (string * jsval))
  : Outcome (option EvernodeEvent) :=
  Returned (Some {| name := n; transaction := tx; data := d |}).

(** [this.messagePrivateKey && await EncryptionHelper.decrypt(key, payload)] *)
Definition try_decrypt (payload : string) : Outcome jsval :=
  match messagePrivateKey self with
  | None => Returned JNull
  | Some k =>
      if String.eqb k "" then Returned (JStr "") else decrypt rt k payload
  end.

(** The payload of a lease-acquisition memo once this account is known to
    be the destination: flag byte 1 announces an encrypted remainder,
    any other flag a JSON remainder. *)
Definition open_payload (payload : string) : Outcome jsval :=
  let prefixBuf := Buf.slice 0 1 (base64_decode rt payload) in
  flag <- Buf.readInt8 prefixBuf 0 ;;
  if flag =? 1 then
    let payload' :=
      base64_encode rt (Buf.slice_from 1 (base64_decode rt payload)) in
    decrypted <- try_decrypt payload' ;;
    if truthy decrypted then Returned decrypted
    else Returned (JStr payload')
  else
    JSON_parse rt (utf8_decode rt (Buf.slice_from 1 (base64_decode rt payload))).

Definition b_acquire_lease (tx : Tx) : Outcome (option EvernodeEvent) :=
  let payload := memo0_data tx in
  payload <-
    (if opt_eq_str (memo0_format tx) MemoFormats.BASE64
        && strict_eq_str (Destination tx) (address self)
     then open_payload payload
     else Returned (JStr payload)) ;;
  event AcquireLease tx
    [ ("host", Destination tx);
      ("uriTokenId", opt_prop (URITokenSellOffer tx) "index");
      ("leaseAmount", opt_prop (opt_prop (URITokenSellOffer tx) "Amount") "value");
      ("acquireRefId", hash tx);
      ("tenant", Account tx);
      ("payload", payload) ].

Definition b_acquire_success (tx : Tx) : Outcome (option EvernodeEvent) :=
  let payload := memo0_data tx in
  let acquireRefId := eventData_text tx in
  payload <-
    (if opt_eq_str (memo0_format tx) MemoFormats.BASE64
        && strict_eq_str (Destination tx) (address self)
     then open_payload payload
     else Returned (JStr payload)) ;;
  event AcquireSuccess tx
    [ ("acquireRefId", JStr acquireRefId); ("payload", payload) ].

(** [error = JSON.parse(error).reason] when the memo is JSON. *)
Definition error_reason (tx : Tx) : Outcome jsval :=
  let error := memo0_data tx in
  if opt_eq_str (memo0_format tx) MemoFormats.JSON
  then parsed <- JSON_parse rt error ;; prop parsed "reason"
  else Returned (JStr error).

Definition b_acquire_error (tx : Tx) : Outcome (option EvernodeEvent) :=
  let acquireRefId := eventData_text tx in
  error <- error_reason tx ;;
  event AcquireError tx
    [ ("acquireRefId", JStr acquireRefId); ("reason", error) ].

Definition b_host_reg (tx : Tx) : Outcome (option EvernodeEvent) :=
  event HostRegistered tx [ ("host", Account tx) ].

Definition b_host_dereg (tx : Tx) : Outcome (option EvernodeEvent) :=
  let eventData := eventData_text tx in
  host <-
    (if (String.length eventData =? HOST_DEREG_FROM_REP_PARAM_SIZE)%nat
     then a <- encodeAccountID rt (Buf.slice 0 20 (Buf.from_hex eventData)) ;;
          Returned (JStr a)
     else Returned (Account tx)) ;;
  event HostDeregistered tx [ ("host", host) ].

Definition b_heartbeat (tx : Tx) : Outcome (option EvernodeEvent) :=
  let eventData := eventData_text tx in
  voteInfo <-
    (if truthy_str (eventData_of tx) && negb (String.length eventData =? 0)%nat
     then vote <- Buf.readUInt8 (Buf.slice 32 33 (Buf.from_hex eventData)) 0 ;;
          Returned [ ("voteInfo",
                      JObj [ ("candidateId", JStr (Buf.substr 0 64 eventData));
                             ("vote", JNum vote) ]) ]
     else Returned []) ;;
  event Heartbeat tx (("host", Account tx) :: voteInfo).

Definition b_extend_lease (tx : Tx) : Outcome (option EvernodeEvent) :=
  let uriTokenId := eventData_text tx in
  currency <- prop (Amount tx) "currency" ;;
  payment <-
    (if negb (Z.land (to_uint32 (Flags tx)) tfPartialPayment =? 0)
     then v <- prop (DeliveredAmount tx) "value" ;; Returned (parseFloat rt v)
     else v <- prop (Amount tx) "value" ;; Returned (parseFloat rt v)) ;;
  event ExtendLease tx
    [ ("extendRefId", hash tx);
      ("tenant", Account tx);
      ("currency", currency);
      ("payment", payment);
      ("uriTokenId", JStr uriTokenId) ].

Definition b_terminate_lease (tx : Tx) : Outcome (option EvernodeEvent) :=
  let uriTokenId := eventData_text tx in
  event TerminateLease tx
    [ ("terminateRefId", hash tx);
      ("tenant", Account tx);
      ("uriTokenId", JStr uriTokenId) ].

Definition b_extend_success (tx : Tx) : Outcome (option EvernodeEvent) :=
  let extendResBuf := Buf.from_hex (memo0_data tx) in
  let extendRefId := eventData_text tx in
  expiryMoment <- Buf.readUInt32BE extendResBuf 0 ;;
  event ExtendSuccess tx
    [ ("extendRefId", JStr extendRefId); ("expiryMoment", JNum expiryMoment) ].

Definition b_extend_error (tx : Tx) : Outcome (option EvernodeEvent) :=
  let extendRefId := eventData_text tx in
  error <- error_reason tx ;;
  event ExtendError tx
    [ ("extendRefId", JStr extendRefId); ("reason", error) ].

Definition b_init (tx : Tx) : Outcome (option EvernodeEvent) :=
  event Initialized tx [].

Definition b_host_update_info (tx : Tx) : Outcome (option EvernodeEvent) :=
  event HostRegUpdated tx [ ("host", Account tx) ].

Definition b_dead_host_prune (tx : Tx) : Outcome (option EvernodeEvent) :=
  let addrsBuf := Buf.from_hex (eventData_text tx) in
  host <- encodeAccountID rt addrsBuf ;;
  event DeadHostPrune tx [ ("host", JStr host) ].

Definition b_host_rebate (tx : Tx) : Outcome (option EvernodeEvent) :=
  event HostRebate tx [ ("host", Account tx) ].

Definition b_host_transfer (tx : Tx) : Outcome (option EvernodeEvent) :=
  let addrsBuf := Buf.from_hex (eventData_text tx) in
  transferee <- encodeAccountID rt addrsBuf ;;
  event HostTransfer tx [ ("transferee", JStr transferee) ].

Definition b_candidate_propose (tx : Tx) : Outcome (option EvernodeEvent) :=
  event CandidateProposed tx
    [ ("owner", Account tx);
      ("candidateId",
       JStr (Buf.substr (CANDIDATE_PROPOSE_UNIQUE_ID_PARAM_OFFSET * 2) 64
               (eventData_text tx))) ].

Definition b_candidate_withdraw (tx : Tx) : Outcome (option EvernodeEvent) :=
  event CandidateWithdrawn tx
    [ ("owner", Account tx);
      ("candidateId", JStr (Buf.substr 0 64 (eventData_text tx))) ].

(** [codec.encodeAccountID(Buffer.from(candidateId, 'hex')
      .slice(DUD_HOST_CANDID_ADDRESS_OFFSET, 32))] *)
Definition dud_host_address (candidateId : string) : Outcome string :=
  encodeAccountID rt
    (Buf.slice DUD_HOST_CANDID_ADDRESS_OFFSET 32 (Buf.from_hex candidateId)).

Definition b_candidate_status_change (tx : Tx) : Outcome (option EvernodeEvent) :=
  let eventDataBuf := Buf.from_hex (eventData_text tx) in
  let candidateId := Buf.to_hex (Buf.slice 0 32 eventDataBuf) in
  let candidateType := getCandidateType rt candidateId in
  if candidateType =? EvernodeConstants.CandidateTypes.DudHost then
    status <- Buf.readUInt8 eventDataBuf 32 ;;
    host <- dud_host_address candidateId ;;
    event
      (if status =? EvernodeConstants.CandidateStatuses.CANDIDATE_ELECTED
       then DudHostRemoved else DudHostStatusChanged)
      tx
      [ ("candidateId", JStr candidateId); ("host", JStr host) ]
  else if candidateType =? EvernodeConstants.CandidateTypes.PilotedMode then
    event FallbackToPiloted tx [ ("candidateId", JStr candidateId) ]
  else if candidateType =? EvernodeConstants.CandidateTypes.NewHook then
    event NewHookStatusChanged tx [ ("candidateId", JStr candidateId) ]
  else
    Returned None.

Definition b_linked_candidate_remove (tx : Tx) : Outcome (option EvernodeEvent) :=
  let eventDataBuf := Buf.from_hex (eventData_text tx) in
  let candidateId := Buf.to_hex (Buf.slice 0 32 eventDataBuf) in
  let candidateType := getCandidateType rt candidateId in
  if candidateType =? EvernodeConstants.CandidateTypes.DudHost then
    host <- dud_host_address candidateId ;;
    event LinkedDudHostCandidateRemoved tx
      [ ("candidateId", JStr candidateId); ("host", JStr host) ]
  else
    Returned None.

Definition b_hook_update_res (tx : Tx) : Outcome (option EvernodeEvent) :=
  event ChildHookUpdated tx
    [ ("account", Account tx);
      ("candidateId", JStr (Buf.substr 0 64 (eventData_text tx))) ].

Definition b_governance_mode_change (tx : Tx) : Outcome (option EvernodeEvent) :=
  mode <- Buf.readUInt8 (Buf.slice 0 1 (Buf.from_hex (eventData_text tx))) 0 ;;
  event GovernanceModeChanged tx [ ("mode", JNum mode) ].

Definition b_candidate_vote (tx : Tx) : Outcome (option EvernodeEvent) :=
  vote <- Buf.readUInt8 (Buf.slice 32 33 (Buf.from_hex (eventData_text tx))) 0 ;;
  event FoundationVoted tx
    [ ("candidateId", JStr (Buf.substr 0 64 (eventData_text tx)));
      ("vote", JNum vote) ].

Definition b_dud_host_report (tx : Tx) : Outcome (option EvernodeEvent) :=
  let candidateId := Buf.substr 0 64 (eventData_text tx) in
  host <- dud_host_address candidateId ;;
  event DudHostReported tx
    [ ("candidateId", JStr candidateId); ("host", JStr host) ].

Definition b_host_update_reputation (tx : Tx) : Outcome (option EvernodeEvent) :=
  let dataBuf := Buf.from_hex (eventData_text tx) in
  host <- encodeAccountID rt
            (Buf.slice REPUTATION_HOST_ADDRESS_PARAM_OFFSET 20 dataBuf) ;;
  reputation <- Buf.readUInt8 dataBuf REPUTATION_VALUE_PARAM_OFFSET ;;
  event HostReputationUpdated tx
    [ ("host", JStr host); ("reputation", JNum reputation) ].

(** *** [extractEvernodeEvent] *)

Definition extractEvernodeEvent (tx : Tx) : Outcome (option EvernodeEvent) :=
  if g_acquire_lease tx then b_acquire_lease tx
  else if g_acquire_success tx then b_acquire_success tx
  else if g_acquire_error tx then b_acquire_error tx
  else if g_host_reg tx then b_host_reg tx
  else if g_host_dereg tx then b_host_dereg tx
  else if g_heartbeat tx then b_heartbeat tx
  else if g_extend_lease tx then b_extend_lease tx
  else if g_terminate_lease tx then b_terminate_lease tx
  else if g_extend_success tx then b_extend_success tx
  else if g_extend_error tx then b_extend_error tx
  else if g_init tx then b_init tx
  else if g_host_update_info tx then b_host_update_info tx
  else if g_dead_host_prune tx then b_dead_host_prune tx
  else if g_host_rebate tx then b_host_rebate tx
  else if g_host_transfer tx then b_host_transfer tx
  else if g_candidate_propose tx then b_candidate_propose tx
  else if g_candidate_withdraw tx then b_candidate_withdraw tx
  else if g_candidate_status_change tx then b_candidate_status_change tx
  else if g_linked_candidate_remove tx then b_linked_candidate_remove tx
  else if g_hook_update_res tx then b_hook_update_res tx
  else if g_governance_mode_change tx then b_governance_mode_change tx
  else if g_candidate_vote tx then b_candidate_vote tx
  else if g_dud_host_report tx then b_dud_host_report tx
  else if g_host_update_reputation tx then b_host_update_reputation tx
  else Returned None.

(** The same chain as a table: the event type a predicate asks for, the
    predicate, and the branch it guards. *)
Record Rule : Type := {
  rule_type : string;
  rule_guard : Tx -> bool;
  rule_body : Tx -> Outcome (option EvernodeEvent)
}.

Definition rules : list Rule :=
  [ {| rule_type := EventTypes.ACQUIRE_LEASE; rule_guard := g_acquire_lease; rule_body := b_acquire_lease |};
    {| rule_type := EventTypes.ACQUIRE_SUCCESS; rule_guard := g_acquire_success; rule_body := b_acquire_success |};
    {| rule_type := EventTypes.ACQUIRE_ERROR; rule_guard := g_acquire_error; rule_body := b_acquire_error |};
    {| rule_type := EventTypes.HOST_REG; rule_guard := g_host_reg; rule_body := b_host_reg |};
    {| rule_type := EventTypes.HOST_DEREG; rule_guard := g_host_dereg; rule_body := b_host_dereg |};
    {| rule_type := EventTypes.HEARTBEAT; rule_guard := g_heartbeat; rule_body := b_heartbeat |};
    {| rule_type := EventTypes.EXTEND_LEASE; rule_guard := g_extend_lease; rule_body := b_extend_lease |};
    {| rule_type := EventTypes.TERMINATE_LEASE; rule_guard := g_terminate_lease; rule_body := b_terminate_lease |};
    {| rule_type := EventTypes.EXTEND_SUCCESS; rule_guard := g_extend_success; rule_body := b_extend_success |};
    {| rule_type := EventTypes.EXTEND_ERROR; rule_guard := g_extend_error; rule_body := b_extend_error |};
    {| rule_type := EventTypes.INIT; rule_guard := g_init; rule_body := b_init |};
    {| rule_type := EventTypes.HOST_UPDATE_INFO; rule_guard := g_host_update_info; rule_body := b_host_update_info |};
    {| rule_type := EventTypes.DEAD_HOST_PRUNE; rule_guard := g_dead_host_prune; rule_body := b_dead_host_prune |};
    {| rule_type := EventTypes.HOST_REBATE; rule_guard := g_host_rebate; rule_body := b_host_rebate |};
    {| rule_type := EventTypes.HOST_TRANSFER; rule_guard := g_host_transfer; rule_body := b_host_transfer |};
    {| rule_type := EventTypes.CANDIDATE_PROPOSE; rule_guard := g_candidate_propose; rule_body := b_candidate_propose |};
    {| rule_type := EventTypes.CANDIDATE_WITHDRAW; rule_guard := g_candidate_withdraw; rule_body := b_candidate_withdraw |};
    {| rule_type := EventTypes.CANDIDATE_STATUS_CHANGE; rule_guard := g_candidate_status_change; rule_body := b_candidate_status_change |};
    {| rule_type := EventTypes.LINKED_CANDIDATE_REMOVE; rule_guard := g_linked_candidate_remove; rule_body := b_linked_candidate_remove |};
    {| rule_type := EventTypes.HOOK_UPDATE_RES; rule_guard := g_hook_update_res; rule_body := b_hook_update_res |};
    {| rule_type := EventTypes.GOVERNANCE_MODE_CHANGE; rule_guard := g_governance_mode_change; rule_body := b_governance_mode_change |};
    {| rule_type := EventTypes.CANDIDATE_VOTE; rule_guard := g_candidate_vote; rule_body := b_candidate_vote |};
    {| rule_type := EventTypes.DUD_HOST_REPORT; rule_guard := g_dud_host_report; rule_body := b_dud_host_report |};
    {| rule_type := EventTypes.HOST_UPDATE_REPUTATION; rule_guard := g_host_update_reputation; rule_body := b_host_update_reputation |} ].

(** The event types whose branch builds its event from fields of the
    transaction and from text alone, with no buffer read, no parser and no
    codec in it. *)
Definition plain_types : list string :=
  [ EventTypes.HOST_REG; EventTypes.TERMINATE_LEASE; EventTypes.INIT;
    EventTypes.HOST_UPDATE_INFO; EventTypes.HOST_REBATE;
    EventTypes.CANDIDATE_PROPOSE; EventTypes.CANDIDATE_WITHDRAW;
    EventTypes.HOOK_UPDATE_RES ].

(** Pairwise different texts, as a computation. *)
Fixpoint distinct (l : list string) : bool :=
  match l with
  | [] => true
  | s :: l' => negb (existsb (String.eqb s) l') && distinct l'
  end.

(** The rules whose predicate a transaction satisfies. *)
Definition matching (tx : Tx) : list Rule :=
  filter (fun r => rule_guard r tx) rules.

(** [#handleEvernodeEvent(tx, error)] for a transaction that is present
    and an absent error: what is emitted to the listeners.  An exception
    of the classifier is caught and logged, nothing is emitted. *)
Definition handleEvernodeEvent (watchEvents : list EvernodeEvents)
    (tx : Tx) : option EvernodeEvent :=
  match extractEvernodeEvent tx with
  | Returned (Some ev) =>
      if existsb (EvernodeEvents_eqb (name ev)) watchEvents then Some ev
      else None
  | Returned None => None
  | Thrown _ => None
  end.

End WithRuntime.

End Classifier.

(** ** Building the candidate-propose parameters ([_propose]) *)

Module Propose.

Import Classifier.

(** The parameter buffer: hashes, keylets, unique id and short name copied
    into a zeroed buffer of [CANDIDATE_PROPOSE_PARAM_SIZE] bytes, in this
    order. *)
Definition paramBuf (hashesBuf keyletsBuf uniqueIdBuf shortNameBuf : list byte)
  : list byte :=
  let paramBuf := Buf.alloc CANDIDATE_PROPOSE_PARAM_SIZE in
  let paramBuf := Buf.copy hashesBuf paramBuf CANDIDATE_PROPOSE_HASHES_PARAM_OFFSET in
  let paramBuf := Buf.copy keyletsBuf paramBuf CANDIDATE_PROPOSE_KEYLETS_PARAM_OFFSET in
  let paramBuf := Buf.copy uniqueIdBuf paramBuf CANDIDATE_PROPOSE_UNIQUE_ID_PARAM_OFFSET in
  Buf.copy shortNameBuf paramBuf CANDIDATE_PROPOSE_SHORT_NAME_PARAM_OFFSET.

(** The hook parameters of the payment: the event type, and the parameter
    buffer cut at [MAX_HOOK_PARAM_SIZE]. *)
Definition hookParams (paramBuf : list byte) : list HookParameter :=
  [ {| hp_name := HookParamKeys.PARAM_EVENT_TYPE_KEY;
       hp_value := Some EventTypes.CANDIDATE_PROPOSE |};
    {| hp_name := HookParamKeys.PARAM_EVENT_DATA_KEY;
       hp_value := Some (Buf.toUpperCase (Buf.to_hex (Buf.slice 0 MAX_HOOK_PARAM_SIZE paramBuf))) |};
    {| hp_name := HookParamKeys.PARAM_EVENT_DATA2_KEY;
       hp_value := Some (Buf.toUpperCase (Buf.to_hex (Buf.slice_from MAX_HOOK_PARAM_SIZE paramBuf))) |} ].

(** [_propose(hashes, shortName)] up to the payment: [keylets] are the
    keylets of the four hook definitions found on the ledger.  The result
    is the hook-parameter list handed to [makePayment] together with the
    returned unique id. *)
Definition _propose (rt : Runtime) (hashes : string) (keylets : list string)
    (shortName : string) : Outcome (list HookParameter * string) :=
  let hashesBuf := Buf.from_hex hashes in
  if negb (List.length hashesBuf =? 128)%nat then
    Thrown (Message "Invalid hashes: Hashes should contain all four Governor, Registry, Heartbeat, Reputation hook hashes.")
  else
    let uniqueId := getNewHookCandidateId rt hashesBuf in
    let buf :=
      paramBuf hashesBuf
        (Buf.from_hex (String.concat "" keylets))
        (Buf.from_hex uniqueId)
        (utf8_encode rt (Buf.substr 0 20 shortName)) in
    Returned (hookParams buf, uniqueId).

(** Reading the fields back from the two parameter values, concatenated. *)
Definition reassemble (data data2 : string) : list byte :=
  Buf.from_hex (data ++ data2)%string.

Definition decoded_hashes (buf : list byte) : list byte :=
  Buf.slice CANDIDATE_PROPOSE_HASHES_PARAM_OFFSET CANDIDATE_PROPOSE_KEYLETS_PARAM_OFFSET buf.
Definition decoded_keylets (buf : list byte) : list byte :=
  Buf.slice CANDIDATE_PROPOSE_KEYLETS_PARAM_OFFSET CANDIDATE_PROPOSE_UNIQUE_ID_PARAM_OFFSET buf.
Definition decoded_uniqueId (buf : list byte) : list byte :=
  Buf.slice CANDIDATE_PROPOSE_UNIQUE_ID_PARAM_OFFSET CANDIDATE_PROPOSE_SHORT_NAME_PARAM_OFFSET buf.
Definition decoded_shortName (buf : list byte) : list byte :=
  Buf.slice CANDIDATE_PROPOSE_SHORT_NAME_PARAM_OFFSET CANDIDATE_PROPOSE_PARAM_SIZE buf.

End Propose.

(** ** Reputation contract info *)

Module Reputation.

Import ReputationConstants.

Record ContractInfo : Type := {
  domain : jsval;
  pubkey : string;
  peerPort : Z
}.

(** [instanceMoment]: read only from a buffer longer than the moment
    offset, [null] otherwise. *)
Definition instanceMoment (repBuf : list byte) : Outcome (option Z) :=
  if (REP_INFO_MOMENT_OFFSET <? List.length repBuf)%nat then
    n <- Buf.readBigUInt64LE repBuf REP_INFO_MOMENT_OFFSET ;;
    Returned (Some (Buf.Number_of_BigInt n))
  else Returned None.

(** The [if (repBuf) { ... }] block of
    [getReputationContractInfoByAddress], for the buffer [repBuf] fetched
    from the ledger and the moment [repMoment] that is asked for; [None]
    is the fall-through to [return null].  The hex text of a buffer is
    already lower case, so [toLocaleLowerCase] keeps it. *)
Definition contractInfo (dom : jsval) (repBuf : list byte) (repMoment : Z)
  : Outcome (option ContractInfo) :=
  im <- instanceMoment repBuf ;;
  match im with
  | Some m =>
      if m =? repMoment then
        port <- Buf.readUInt16LE repBuf REP_INFO_PEER_PORT_OFFSET ;;
        Returned (Some {| domain := dom;
                          pubkey := Buf.to_hex (Buf.slice 0 REP_INFO_PEER_PORT_OFFSET repBuf);
                          peerPort := port |})
      else Returned None
  | None => Returned None
  end.

End Reputation.

(** ** The event classifier (memo generation) *)

Module Legacy.

(** The memo-type constants and the candidate kinds of the memo
    generation's [evernode-common], which is not among the sources at hand;
    [None] is a key the table of candidate kinds lacks. *)
Record Constants : Type := {
  ACQUIRE_LEASE : string;
  HOST_POST_DEREG : string;
  ACQUIRE_SUCCESS : string;
  ACQUIRE_REF : string;
  ACQUIRE_ERROR : string;
  HOST_REG : string;
  HOST_DEREG : string;
  HEARTBEAT : string;
  EXTEND_LEASE : string;
  EXTEND_SUCCESS : string;
  EXTEND_REF : string;
  EXTEND_ERROR : string;
  INIT : string;
  HOST_UPDATE_INFO : string;
  DEAD_HOST_PRUNE : string;
  HOST_REBATE : string;
  HOST_TRANSFER : string;
  CANDIDATE_PROPOSE : string;
  CANDIDATE_PROPOSE_REF : string;
  CANDIDATE_WITHDRAW : string;
  CANDIDATE_STATUS_CHANGE : string;
  HOOK_UPDATE_RES : string;
  GOVERNANCE_MODE_CHANGE : string;
  CANDIDATE_VOTE : string;
  DUD_HOST_REPORT : string;
  CandidateTypes_DudHost : option Z;
  CandidateTypes_GovernanceModeChanged : option Z;
  CandidateTypes_CandidateProposed : option Z
}.

Inductive Events : Type :=
| AcquireLease | HostPostDeregistered | AcquireSuccess | AcquireError
| HostRegistered | HostDeregistered | Heartbeat
| ExtendLease | ExtendSuccess | ExtendError
| Initialized | HostRegUpdated | DeadHostPrune | HostRebate | HostTransfer
| CandidateProposed | CandidateWithdrew
| DudHostRemoved | FallbackToPiloted | CandidateElected
| ChildHookUpdated | GovernanceModeChanged | FoundationVoted | DudHostReported.

(** A transaction of the memo generation, memos deserialized. *)
Record Tx : Type := {
  TransactionType : string;
  Memos : list Memo;
  Account : jsval;
  Destination : jsval;
  hash : jsval;
  Amount : jsval;
  Flags : jsval;
  NFTokenSellOffer : jsval;
  NFTokenBuyOffer : jsval
}.

Record Event : Type := {
  name : Events;
  transaction : Tx;
  data : list (string * jsval)
}.

Record Client : Type := {
  address : string;                 (* this.xrplAcc.address *)
  accKeyPair : option string        (* the private key of this.accKeyPair *)
}.

(** [tx.Memos[i].type === ty], [tx.Memos[i].format === fmt],
    [tx.Memos[i].data] as a condition and as a text; each is used behind
    the length test of its predicate only. *)
Definition memo_is (tx : Tx) (i : nat) (ty : string) : bool :=
  match nth_error (Memos tx) i with
  | Some m => opt_eq_str (memo_type m) ty
  | None => false
  end.

Definition memo_fmt (tx : Tx) (i : nat) (fmt : string) : bool :=
  match nth_error (Memos tx) i with
  | Some m => opt_eq_str (memo_format m) fmt
  | None => false
  end.

Definition memo_has_data (tx : Tx) (i : nat) : bool :=
  match nth_error (Memos tx) i with
  | Some m => truthy_str (memo_data m)
  | None => false
  end.

Definition memo_text (tx : Tx) (i : nat) : string :=
  match nth_error (Memos tx) i with
  | Some m => match memo_data m with Some d => d | None => "" end
  | None => ""
  end.

(** [tx.Memos.length >= n] *)
Definition memos_ge (tx : Tx) (n : nat) : bool := (n <=? List.length (Memos tx))%nat.

(** [tx.Memos.length >= 1 && tx.Memos[0].type === ty
     && tx.Memos[0].format === MemoFormats.HEX && tx.Memos[0].data] *)
Definition hex_memo (tx : Tx) (ty : string) : bool :=
  memos_ge tx 1 && memo_is tx 0 ty && memo_fmt tx 0 MemoFormats.HEX
  && memo_has_data tx 0.

Section WithRuntime.

Variable rt : Runtime.
Variable lc : Constants.
Variable self : Client.

(** *** The dispatch predicates, in the order of the chain *)

Definition g_acquire_lease (tx : Tx) : bool :=
  String.eqb (TransactionType tx) "NFTokenAcceptOffer"
  && truthy (NFTokenSellOffer tx) && memos_ge tx 1
  && memo_is tx 0 (ACQUIRE_LEASE lc) && memo_fmt tx 0 MemoFormats.BASE64
  && memo_has_data tx 0.

Definition g_host_post_dereg (tx : Tx) : bool :=
  String.eqb (TransactionType tx) "NFTokenAcceptOffer"
  && truthy (NFTokenBuyOffer tx) && memos_ge tx 1
  && memo_is tx 0 (HOST_POST_DEREG lc) && memo_fmt tx 0 MemoFormats.HEX
  && memo_has_data tx 0.

Definition g_acquire_success (tx : Tx) : bool :=
  memos_ge tx 2
  && memo_is tx 0 (ACQUIRE_SUCCESS lc) && memo_has_data tx 0
  && memo_is tx 1 (ACQUIRE_REF lc) && memo_has_data tx 1.

Definition g_acquire_error (tx : Tx) : bool :=
  memos_ge tx 2
  && memo_is tx 0 (ACQUIRE_ERROR lc) && memo_has_data tx 0
  && memo_is tx 1 (ACQUIRE_REF lc) && memo_has_data tx 1.

Definition g_host_reg (tx : Tx) : bool := hex_memo tx (HOST_REG lc).

Definition g_host_dereg (tx : Tx) : bool :=
  memos_ge tx 1 && memo_is tx 0 (HOST_DEREG lc).

Definition g_heartbeat (tx : Tx) : bool :=
  memos_ge tx 1 && memo_is tx 0 (HEARTBEAT lc).

Definition g_extend_lease (tx : Tx) : bool := hex_memo tx (EXTEND_LEASE lc).

Definition g_extend_success (tx : Tx) : bool :=
  memos_ge tx 2
  && memo_is tx 0 (EXTEND_SUCCESS lc) && memo_fmt tx 0 MemoFormats.HEX
  && memo_has_data tx 0
  && memo_is tx 1 (EXTEND_REF lc) && memo_fmt tx 1 MemoFormats.HEX
  && memo_has_data tx 1.

Definition g_extend_error (tx : Tx) : bool :=
  memos_ge tx 2
  && memo_is tx 0 (EXTEND_ERROR lc) && memo_has_data tx 0
  && memo_is tx 1 (EXTEND_REF lc) && memo_has_data tx 1.

Definition g_init (tx : Tx) : bool := hex_memo tx (INIT lc).

Definition g_host_update_info (tx : Tx) : bool := hex_memo tx (HOST_UPDATE_INFO lc).

Definition g_dead_host_prune (tx : Tx) : bool := hex_memo tx (DEAD_HOST_PRUNE lc).

Definition g_host_rebate (tx : Tx) : bool :=
  memos_ge tx 1 && memo_is tx 0 (HOST_REBATE lc).

Definition g_host_transfer (tx : Tx) : bool := hex_memo tx (HOST_TRANSFER lc).

Definition g_candidate_propose (tx : Tx) : bool :=
  memos_ge tx 2
  && memo_is tx 0 (CANDIDATE_PROPOSE lc) && memo_fmt tx 0 MemoFormats.HEX
  && memo_has_data tx 0
  && memo_is tx 1 (CANDIDATE_PROPOSE_REF lc) && memo_fmt tx 1 MemoFormats.HEX
  && memo_has_data tx 1.

Definition g_candidate_withdraw (tx : Tx) : bool := hex_memo tx (CANDIDATE_WITHDRAW lc).

Definition g_candidate_status_change (tx : Tx) : bool :=
  hex_memo tx (CANDIDATE_STATUS_CHANGE lc).

Definition g_hook_update_res (tx : Tx) : bool := hex_memo tx (HOOK_UPDATE_RES lc).

Definition g_governance_mode_change (tx : Tx) : bool :=
  hex_memo tx (GOVERNANCE_MODE_CHANGE lc).

Definition g_candidate_vote (tx : Tx) : bool := hex_memo tx (CANDIDATE_VOTE lc).

Definition g_dud_host_report (tx : Tx) : bool := hex_memo tx (DUD_HOST_REPORT lc).

(** *** The branch bodies *)

Definition event (n : Events) (tx : Tx) (d : list (string * jsval))
  : Outcome (option Event) :=
  Returned (Some {| name := n; transaction := tx; data := d |}).

(** [this.accKeyPair && await EncryptionHelper.decrypt(privateKey, payload)],
    then [if (decrypted) payload = decrypted]. *)
Definition decrypt_payload (payload : string) : Outcome jsval :=
  decrypted <-
    (match accKeyPair self with
     | None => Returned JNull
     | Some k => decrypt rt k payload
     end) ;;
  if truthy decrypted then Returned decrypted else Returned (JStr payload).

Definition b_acquire_lease (tx : Tx) : Outcome (option Event) :=
  let payload := memo_text tx 0 in
  payload <-
    (if strict_eq_str (Destination tx) (address self)
     then decrypt_payload payload
     else Returned (JStr payload)) ;;
  event AcquireLease tx
    [ ("host", Destination tx);
      ("nfTokenId", opt_prop (NFTokenSellOffer tx) "NFTokenID");
      ("leaseAmount", opt_prop (opt_prop (NFTokenSellOffer tx) "Amount") "value");
      ("acquireRefId", hash tx);
      ("tenant", Account tx);
      ("payload", payload) ].

Definition b_host_post_dereg (tx : Tx) : Outcome (option Event) :=
  nfTokenId <- prop (NFTokenBuyOffer tx) "NFTokenID" ;;
  event HostPostDeregistered tx
    [ ("nfTokenId", nfTokenId); ("flags", Flags tx); ("hash", hash tx) ].

Definition b_acquire_success (tx : Tx) : Outcome (option Event) :=
  let payload := memo_text tx 0 in
  let acquireRefId := memo_text tx 1 in
  payload <-
    (if memo_fmt tx 0 MemoFormats.BASE64
        && strict_eq_str (Destination tx) (address self)
     then decrypt_payload payload
     else Returned (JStr payload)) ;;
  event AcquireSuccess tx
    [ ("acquireRefId", JStr acquireRefId); ("payload", payload) ].

(** [error = JSON.parse(error).reason] when the first memo is JSON. *)
Definition error_reason (tx : Tx) : Outcome jsval :=
  let error := memo_text tx 0 in
  if memo_fmt tx 0 MemoFormats.JSON
  then parsed <- JSON_parse rt error ;; prop parsed "reason"
  else Returned (JStr error).

Definition b_acquire_error (tx : Tx) : Outcome (option Event) :=
  let acquireRefId := memo_text tx 1 in
  error <- error_reason tx ;;
  event AcquireError tx
    [ ("acquireRefId", JStr acquireRefId); ("reason", error) ].

Definition b_host_reg (tx : Tx) : Outcome (option Event) :=
  event HostRegistered tx [ ("host", Account tx) ].

Definition b_host_dereg (tx : Tx) : Outcome (option Event) :=
  event HostDeregistered tx [ ("host", Account tx) ].

(** [tx.Memos[1].data.substr(0, 64)]: a TypeError without a second memo or
    without its data. *)
Definition memo1_candidate (tx : Tx) : Outcome string :=
  match nth_error (Memos tx) 1 with
  | Some m =>
      match memo_data m with
      | Some d => Returned (Buf.substr 0 64 d)
      | None => Thrown TypeError
      end
  | None => Thrown TypeError
  end.

Definition b_heartbeat (tx : Tx) : Outcome (option Event) :=
  voteInfo <-
    (if memo_has_data tx 0 && negb (String.length (memo_text tx 0) =? 0)%nat
     then candidateId <- memo1_candidate tx ;;
          vote <- Buf.readUInt8 (Buf.slice 32 33 (Buf.from_hex (memo_text tx 0))) 0 ;;
          Returned [ ("voteInfo",
                      JObj [ ("candidateId", JStr candidateId);
                             ("vote", JNum vote) ]) ]
     else Returned []) ;;
  event Heartbeat tx (("host", Account tx) :: voteInfo).

Definition b_extend_lease (tx : Tx) : Outcome (option Event) :=
  let nfTokenId := memo_text tx 0 in
  currency <- prop (Amount tx) "currency" ;;
  value <- prop (Amount tx) "value" ;;
  event ExtendLease tx
    [ ("extendRefId", hash tx);
      ("tenant", Account tx);
      ("currency", currency);
      ("payment", parseFloat rt value);
      ("nfTokenId", JStr nfTokenId) ].

Definition b_extend_success (tx : Tx) : Outcome (option Event) :=
  let extendResBuf := Buf.from_hex (memo_text tx 0) in
  let extendRefId := memo_text tx 1 in
  expiryMoment <- Buf.readUInt32BE extendResBuf 0 ;;
  event ExtendSuccess tx
    [ ("extendRefId", JStr extendRefId); ("expiryMoment", JNum expiryMoment) ].

Definition b_extend_error (tx : Tx) : Outcome (option Event) :=
  let extendRefId := memo_text tx 1 in
  error <- error_reason tx ;;
  event ExtendError tx
    [ ("extendRefId", JStr extendRefId); ("reason", error) ].

Definition b_init (tx : Tx) : Outcome (option Event) :=
  event Initialized tx [].

Definition b_host_update_info (tx : Tx) : Outcome (option Event) :=
  event HostRegUpdated tx [ ("host", Account tx) ].

Definition b_dead_host_prune (tx : Tx) : Outcome (option Event) :=
  let addrsBuf := Buf.from_hex (memo_text tx 0) in
  host <- encodeAccountID rt addrsBuf ;;
  event DeadHostPrune tx [ ("host", JStr host) ].

Definition b_host_rebate (tx : Tx) : Outcome (option Event) :=
  event HostRebate tx [ ("host", Account tx) ].

Definition b_host_transfer (tx : Tx) : Outcome (option Event) :=
  let addrsBuf := Buf.from_hex (memo_text tx 0) in
  transferee <- encodeAccountID rt addrsBuf ;;
  event HostTransfer tx [ ("transferee", JStr transferee) ].

Definition b_candidate_propose (tx : Tx) : Outcome (option Event) :=
  event CandidateProposed tx
    [ ("owner", Account tx);
      ("candidateId", JStr (Buf.substr 0 64 (memo_text tx 1))) ].

Definition b_candidate_withdraw (tx : Tx) : Outcome (option Event) :=
  event CandidateWithdrew tx
    [ ("owner", Account tx);
      ("candidateId", JStr (Buf.substr 0 64 (memo_text tx 0))) ].

(** [candidateType === c] for a constant of the table of kinds. *)
Definition is_case (candidateType : Z) (c : option Z) : bool :=
  match c with Some v => candidateType =? v | None => false end.

Definition b_candidate_status_change (tx : Tx) : Outcome (option Event) :=
  let candidateId := Buf.substr 0 64 (memo_text tx 0) in
  let candidateType := getCandidateType rt candidateId in
  if is_case candidateType (CandidateTypes_DudHost lc) then
    host <- decodeAccountID rt (JBuf (Buf.slice 12 32 (Buf.from_hex candidateId))) ;;
    event DudHostRemoved tx
      [ ("candidateId", JStr candidateId); ("host", JBuf host) ]
  else if is_case candidateType (CandidateTypes_GovernanceModeChanged lc) then
    event FallbackToPiloted tx [ ("candidateId", JStr candidateId) ]
  else if is_case candidateType (CandidateTypes_CandidateProposed lc) then
    event CandidateElected tx [ ("candidateId", JStr candidateId) ]
  else Returned None.

Definition b_hook_update_res (tx : Tx) : Outcome (option Event) :=
  event ChildHookUpdated tx
    [ ("account", Account tx);
      ("candidateId", JStr (Buf.substr 0 64 (memo_text tx 0))) ].

Definition b_governance_mode_change (tx : Tx) : Outcome (option Event) :=
  mode <- Buf.readUInt8 (Buf.slice 0 1 (Buf.from_hex (memo_text tx 0))) 0 ;;
  event GovernanceModeChanged tx [ ("mode", JNum mode) ].

Definition b_candidate_vote (tx : Tx) : Outcome (option Event) :=
  vote <- Buf.readUInt8 (Buf.slice 32 33 (Buf.from_hex (memo_text tx 0))) 0 ;;
  event FoundationVoted tx
    [ ("candidateId", JStr (Buf.substr 0 64 (memo_text tx 0)));
      ("vote", JNum vote) ].

Definition b_dud_host_report (tx : Tx) : Outcome (option Event) :=
  let addrsBuf := Buf.from_hex (memo_text tx 0) in
  transferee <- encodeAccountID rt addrsBuf ;;
  event DudHostReported tx [ ("transferee", JStr transferee) ].

(** *** [extractEvernodeEvent] *)

Definition extractEvernodeEvent (tx : Tx) : Outcome (option Event) :=
  if g_acquire_lease tx then b_acquire_lease tx
  else if g_host_post_dereg tx then b_host_post_dereg tx
  else if g_acquire_success tx then b_acquire_success tx
  else if g_acquire_error tx then b_acquire_error tx
  else if g_host_reg tx then b_host_reg tx
  else if g_host_dereg tx then b_host_dereg tx
  else if g_heartbeat tx then b_heartbeat tx
  else if g_extend_lease tx then b_extend_lease tx
  else if g_extend_success tx then b_extend_success tx
  else if g_extend_error tx then b_extend_error tx
  else if g_init tx then b_init tx
  else if g_host_update_info tx then b_host_update_info tx
  else if g_dead_host_prune tx then b_dead_host_prune tx
  else if g_host_rebate tx then b_host_rebate tx
  else if g_host_transfer tx then b_host_transfer tx
  else if g_candidate_propose tx then b_candidate_propose tx
  else if g_candidate_withdraw tx then b_candidate_withdraw tx
  else if g_candidate_status_change tx then b_candidate_status_change tx
  else if g_hook_update_res tx then b_hook_update_res tx
  else if g_governance_mode_change tx then b_governance_mode_change tx
  else if g_candidate_vote tx then b_candidate_vote tx
  else if g_dud_host_report tx then b_dud_host_report tx
  else Returned None.

(** The memo types that the predicates ahead of the candidate status change
    ask of the first memo. *)
Definition types_ahead_of_status_change : list string :=
  [ ACQUIRE_LEASE lc; HOST_POST_DEREG lc; ACQUIRE_SUCCESS lc; ACQUIRE_ERROR lc;
    HOST_REG lc; HOST_DEREG lc; HEARTBEAT lc; EXTEND_LEASE lc; EXTEND_SUCCESS lc;
    EXTEND_ERROR lc; INIT lc; HOST_UPDATE_INFO lc; DEAD_HOST_PRUNE lc;
    HOST_REBATE lc; HOST_TRANSFER lc; CANDIDATE_PROPOSE lc; CANDIDATE_WITHDRAW lc ].

End WithRuntime.

End Legacy.

(** ** Candidate identity *)

(** Modelled from the spec: [StateHelpers.getCandidateType],
    [getDudHostCandidateId] and [getPilotedModeCandidateId] live in
    state-helpers, which is not among the sources at hand.  The spec says: a
    candidate id is 32 bytes; a DudHost id embeds the 20-byte account id at
    offset 12 and the remaining bytes are a fixed discriminant pattern; the
    PilotedMode id is one reserved constant; every other id is a NewHook id.
    The discriminant pattern and the reserved constant come from the
    deployed catalog and are variables here. *)
Module CandidateIdentity.

Inductive CandidateType : Type := NewHook | PilotedMode | DudHost.

Definition bytes_eqb (a b : list byte) : bool :=
  if list_eq_dec byte_eq_dec a b then true else false.

(** The number [EvernodeConstants.CandidateTypes] gives a kind. *)
Definition code (t : CandidateType) : Z :=
  match t with
  | NewHook => EvernodeConstants.CandidateTypes.NewHook
  | PilotedMode => EvernodeConstants.CandidateTypes.PilotedMode
  | DudHost => EvernodeConstants.CandidateTypes.DudHost
  end.

(** What the classifier relies on: the helper answers with one of the
    three kinds, whatever the id. *)
Definition total_on_kinds (rt : Runtime) : Prop :=
  forall candidateId : string,
    exists t : CandidateType, getCandidateType rt candidateId = code t.

Section Catalog.

Variable dudHostPattern : list byte.      (* bytes 0..12 of a DudHost id *)
Variable pilotedModeCandidateId : list byte.

Definition dudHostCandidateId (accountId : list byte) : list byte :=
  dudHostPattern ++ accountId.

Definition classify (candidateId : list byte) : CandidateType :=
  if bytes_eqb (firstn 12 candidateId) dudHostPattern then DudHost
  else if bytes_eqb candidateId pilotedModeCandidateId then PilotedMode
  else NewHook.

Definition dudHostAddressFromCandidateId (candidateId : list byte) : list byte :=
  Buf.slice 12 32 candidateId.

Definition getCandidateType (candidateId : string) : Z :=
  code (classify (Buf.from_hex candidateId)).

End Catalog.

End CandidateIdentity.

(** ** A reference runtime

    One concrete choice for every field of [Runtime], used to run the model
    on concrete transactions.  Base64 and UTF-8 follow Node on the inputs
    used here (standard and URL-safe alphabet, decoding ends at the first
    padding character, other characters are skipped; ASCII text).
    [JSON.parse] knows the literals only, the address codec renders the
    account id as ["r"] followed by its hex text (base58check needs
    SHA-256), the decrypt capability never produces a result, and the
    candidate helper is [CandidateIdentity.getCandidateType] with the
    pattern [00 00 00 00 03 00 .. 00] and an all-zero id tagged [02]. *)

Module Reference.

Definition byte_of_N (n : N) : byte := byte_of_ascii (ascii_of_N n).

Definition b64_value (c : ascii) : option N :=
  let n := N_of_ascii c in
  if ((65 <=? n) && (n <=? 90))%N then Some (n - 65)%N
  else if ((97 <=? n) && (n <=? 122))%N then Some (n - 71)%N
  else if ((48 <=? n) && (n <=? 57))%N then Some (n + 4)%N
  else if ((n =? 43) || (n =? 45))%N then Some 62%N
  else if ((n =? 47) || (n =? 95))%N then Some 63%N
  else None.

Fixpoint b64_sextets (s : string) : list N :=
  match s with
  | EmptyString => []
  | String c s' =>
      if Ascii.eqb c "="%char then []
      else match b64_value c with
           | Some v => v :: b64_sextets s'
           | None => b64_sextets s'
           end
  end.

Fixpoint b64_bytes (l : list N) : list byte :=
  match l with
  | a :: b :: c :: d :: l' =>
      byte_of_N (a * 4 + b / 16) :: byte_of_N ((b mod 16) * 16 + c / 4)
      :: byte_of_N ((c mod 4) * 64 + d) :: b64_bytes l'
  | [a; b; c] =>
      [byte_of_N (a * 4 + b / 16); byte_of_N ((b mod 16) * 16 + c / 4)]
  | [a; b] => [byte_of_N (a * 4 + b / 16)]
  | _ => []
  end%N.

Definition base64_decode (s : string) : list byte := b64_bytes (b64_sextets s).

Definition b64_char (n : N) : ascii :=
  if (n <? 26)%N then ascii_of_N (n + 65)
  else if (n <? 52)%N then ascii_of_N (n + 71)
  else if (n <? 62)%N then ascii_of_N (n - 4)
  else if (n =? 62)%N then "+"%char else "/"%char.

Fixpoint base64_encode (l : list byte) : string :=
  match l with
  | x :: y :: z :: l' =>
      let x := Byte.to_N x in let y := Byte.to_N y in let z := Byte.to_N z in
      String (b64_char (x / 4))
        (String (b64_char ((x mod 4) * 16 + y / 16))
           (String (b64_char ((y mod 16) * 4 + z / 64))
              (String (b64_char (z mod 64)) (base64_encode l'))))
  | [x; y] =>
      let x := Byte.to_N x in let y := Byte.to_N y in
      String (b64_char (x / 4))
        (String (b64_char ((x mod 4) * 16 + y / 16))
           (String (b64_char ((y mod 16) * 4)) "="))
  | [x] =>
      let x := Byte.to_N x in
      String (b64_char (x / 4)) (String (b64_char ((x mod 4) * 16)) "==")
  | [] => EmptyString
  end%N.

Definition utf8_decode (l : list byte) : string :=
  string_of_list_ascii (map ascii_of_byte l).

Definition utf8_encode (s : string) : list byte :=
  map byte_of_ascii (list_ascii_of_string s).

Definition JSON_parse (s : string) : Outcome jsval :=
  if String.eqb s "null" then Returned JNull
  else if String.eqb s "true" then Returned (JBool true)
  else if String.eqb s "false" then Returned (JBool false)
  else if String.eqb s "{}" then Returned (JObj [])
  else Thrown SyntaxError.

Fixpoint digits_value (acc : Z) (s : string) : option Z :=
  match s with
  | EmptyString => Some acc
  | String c s' =>
      let n := N_of_ascii c in
      if ((48 <=? n) && (n <=? 57))%N
      then digits_value (10 * acc + Z.of_N (n - 48)) s'
      else None
  end.

(** [parseFloat] on numbers and on non-empty digit strings; [undefined]
    stands for [NaN]. *)
Definition parseFloat (v : jsval) : jsval :=
  match v with
  | JNum z => JNum z
  | JStr (String c s) =>
      match digits_value 0 (String c s) with
      | Some z => JNum z
      | None => JUndefined
      end
  | _ => JUndefined
  end.

Definition decrypt (key payload : string) : Outcome jsval := Returned JNull.

Definition base58_account (bytes : list byte) : string :=
  String "r" (Buf.to_hex bytes).

Definition decodeAccountID (v : jsval) : Outcome (list byte) :=
  match v with
  | JStr (String c s) =>
      if Ascii.eqb c "r"%char && (List.length (Buf.from_hex s) =? 20)%nat
      then Returned (Buf.from_hex s)
      else Thrown CodecError
  | JStr EmptyString => Thrown CodecError
  | _ => Thrown TypeError
  end.

Definition dudHostPattern : list byte :=
  [x00; x00; x00; x00; x03; x00; x00; x00; x00; x00; x00; x00].

Definition pilotedModeCandidateId : list byte :=
  [x00; x00; x00; x00; x02] ++ repeat x00 27.

Definition getCandidateType : string -> Z :=
  CandidateIdentity.getCandidateType dudHostPattern pilotedModeCandidateId.

(** A stand-in for the content hash: the NewHook tag at byte 4, then the
    leading bytes of the hashes. *)
Definition getNewHookCandidateId (hashesBuf : list byte) : string :=
  Buf.toUpperCase
    (Buf.to_hex ([x00; x00; x00; x00; x01] ++ firstn 27 (hashesBuf ++ repeat x00 27))).

Definition runtime : Runtime :=
  Build_Runtime base64_decode base64_encode utf8_decode utf8_encode
    JSON_parse parseFloat decrypt base58_account decodeAccountID
    getCandidateType getNewHookCandidateId "URITokenBuy".

(** A client with a message key, and one without. *)
Definition host_client : Client :=
  {| address := "rHostAccount";
     messagePrivateKey :=
       Some "ED0123456789ABCDEF0123456789ABCDEF0123456789ABCDEF0123456789ABCDEF" |}.

(** A transaction with nothing in it but its type. *)
Definition empty_tx (ty : string) : Tx :=
  {| TransactionType := ty; HookParameters := []; Memos := [];
     Account := JStr "rSender"; Destination := JUndefined; hash := JStr "HASH";
     Amount := JUndefined; DeliveredAmount := JUndefined; Flags := JUndefined;
     URITokenSellOffer := JUndefined |}.

End Reference.

(** ** Concrete inputs *)

Module Examples.

(** Moments of ten seconds counted from timestamp 0. *)
Definition cfg10 : Moment.Config :=
  {| Moment.momentBaseInfo := {| Moment.baseIdx := 0; Moment.baseTransitionMoment := 0 |};
     Moment.momentSize := 10 |}.

(** Moments of an hour counted from a base in 2023. *)
Definition cfg3600 : Moment.Config :=
  {| Moment.momentBaseInfo :=
       {| Moment.baseIdx := 1700000000; Moment.baseTransitionMoment := 500 |};
     Moment.momentSize := 3600 |}.

(** [tx] with its hook-parameter list replaced. *)
Definition with_params (tx : Tx) (ps : list HookParameter) : Tx :=
  {| TransactionType := TransactionType tx; HookParameters := ps;
     Memos := Memos tx; Account := Account tx; Destination := Destination tx;
     hash := hash tx; Amount := Amount tx; DeliveredAmount := DeliveredAmount tx;
     Flags := Flags tx; URITokenSellOffer := URITokenSellOffer tx |}.

(** The event-type and event-data parameters of a hook transaction. *)
Definition event_params (eventType eventData : string) : list HookParameter :=
  [ {| hp_name := HookParamKeys.PARAM_EVENT_TYPE_KEY; hp_value := Some eventType |};
    {| hp_name := HookParamKeys.PARAM_EVENT_DATA_KEY; hp_value := Some eventData |} ].

(** A payment from [rSender] that carries one event. *)
Definition hook_tx (eventType eventData : string) : Tx :=
  with_params (Reference.empty_tx "Payment") (event_params eventType eventData).

(** A heartbeat whose event data is the single byte [AB]. *)
Definition heartbeat_one_byte : Tx := hook_tx EventTypes.HEARTBEAT "AB".

(** The 20-byte account id [01 02 .. 14]. *)
Definition account_id : list byte :=
  [x01; x02; x03; x04; x05; x06; x07; x08; x09; x0a;
   x0b; x0c; x0d; x0e; x0f; x10; x11; x12; x13; x14].

(** A DudHost candidate id of the reference catalog, as hex text. *)
Definition dud_host_id : string :=
  Buf.toUpperCase
    (Buf.to_hex (CandidateIdentity.dudHostCandidateId Reference.dudHostPattern account_id)).

(** A candidate status change that carries the 32-byte id and no status
    byte, and one that carries the status [CANDIDATE_ELECTED]. *)
Definition status_change_no_status : Tx :=
  hook_tx EventTypes.CANDIDATE_STATUS_CHANGE dud_host_id.
Definition status_change_elected : Tx :=
  hook_tx EventTypes.CANDIDATE_STATUS_CHANGE (dud_host_id ++ "02").

(** A host deregistration sent by a reputation account: host address,
    token id and error flag, 53 bytes. *)
Definition dereg_payload : list byte :=
  account_id ++ repeat xee 32 ++ [x01].
Definition host_dereg_from_reputation : Tx :=
  hook_tx EventTypes.HOST_DEREG (Buf.toUpperCase (Buf.to_hex dereg_payload)).

(** A lease acquisition sent to [rHostAccount]: the memo is the base64 text
    of the flag byte 1 followed by the bytes [61 62]. *)
Definition acquire_memo (ty : string) : Memo :=
  {| memo_type := Some ty; memo_format := Some MemoFormats.BASE64;
     memo_data := Some "AWFi" |}.

Definition acquire_lease_tx : Tx :=
  {| TransactionType := "URITokenBuy";
     HookParameters := event_params EventTypes.ACQUIRE_LEASE "";
     Memos := [acquire_memo EventTypes.ACQUIRE_LEASE];
     Account := JStr "rTenant"; Destination := JStr "rHostAccount";
     hash := JStr "HASH"; Amount := JUndefined; DeliveredAmount := JUndefined;
     Flags := JUndefined; URITokenSellOffer := JUndefined |}.

Definition acquire_success_tx : Tx :=
  {| TransactionType := "Payment";
     HookParameters := event_params EventTypes.ACQUIRE_SUCCESS "ABCD";
     Memos := [acquire_memo EventTypes.ACQUIRE_SUCCESS];
     Account := JStr "rHost"; Destination := JStr "rHostAccount";
     hash := JStr "HASH"; Amount := JUndefined; DeliveredAmount := JUndefined;
     Flags := JUndefined; URITokenSellOffer := JUndefined |}.

(** The contract-info buffer [pubkey(33 x AB) || 01 00 || 05 00 .. 00]. *)
Definition rep_info_buffer : list byte :=
  repeat xab 33 ++ [x01; x00] ++ [x05; x00; x00; x00; x00; x00; x00; x00].

(** Memo types and candidate kinds for the memo generation, and a status
    change of that generation for the DudHost id above. *)
Definition legacy_constants : Legacy.Constants :=
  {| Legacy.ACQUIRE_LEASE := "evnAcquireLease";
     Legacy.HOST_POST_DEREG := "evnHostPostDereg";
     Legacy.ACQUIRE_SUCCESS := "evnAcquireSuccess";
     Legacy.ACQUIRE_REF := "evnAcquireRef";
     Legacy.ACQUIRE_ERROR := "evnAcquireError";
     Legacy.HOST_REG := "evnHostReg";
     Legacy.HOST_DEREG := "evnHostDereg";
     Legacy.HEARTBEAT := "evnHeartbeat";
     Legacy.EXTEND_LEASE := "evnExtendLease";
     Legacy.EXTEND_SUCCESS := "evnExtendSuccess";
     Legacy.EXTEND_REF := "evnExtendRef";
     Legacy.EXTEND_ERROR := "evnExtendError";
     Legacy.INIT := "evnInitialize";
     Legacy.HOST_UPDATE_INFO := "evnHostUpdateReg";
     Legacy.DEAD_HOST_PRUNE := "evnDeadHostPrune";
     Legacy.HOST_REBATE := "evnHostRebate";
     Legacy.HOST_TRANSFER := "evnTransfer";
     Legacy.CANDIDATE_PROPOSE := "evnCandidatePropose";
     Legacy.CANDIDATE_PROPOSE_REF := "evnCandidateProposeRef";
     Legacy.CANDIDATE_WITHDRAW := "evnCandidateWithdraw";
     Legacy.CANDIDATE_STATUS_CHANGE := "evnCandidateStatusChange";
     Legacy.HOOK_UPDATE_RES := "evnHookUpdateRes";
     Legacy.GOVERNANCE_MODE_CHANGE := "evnGovernanceModeChange";
     Legacy.CANDIDATE_VOTE := "evnCandidateVote";
     Legacy.DUD_HOST_REPORT := "evnDudHostReport";
     Legacy.CandidateTypes_DudHost := Some 3;
     Legacy.CandidateTypes_GovernanceModeChanged := None;
     Legacy.CandidateTypes_CandidateProposed := None |}.

Definition legacy_client : Legacy.Client :=
  {| Legacy.address := "rGovernor"; Legacy.accKeyPair := None |}.

Definition legacy_status_change : Legacy.Tx :=
  {| Legacy.TransactionType := "Payment";
     Legacy.Memos := [ {| memo_type := Some "evnCandidateStatusChange";
                          memo_format := Some MemoFormats.HEX;
                          memo_data := Some dud_host_id |} ];
     Legacy.Account := JStr "rGovernor"; Legacy.Destination := JUndefined;
     Legacy.hash := JStr "HASH"; Legacy.Amount := JUndefined;
     Legacy.Flags := JUndefined; Legacy.NFTokenSellOffer := JUndefined;
     Legacy.NFTokenBuyOffer := JUndefined |}.

End Examples.

(** ** Host activity *)

Module HostActivity.

(** The [active] flag that [getHostInfo] and [getAllHostsFromLedger] (and
    [getHosts] of the memo generation) attach to a host record:
    [lastHeartbeatIndex] is the decoded timestamp of the last heartbeat,
    [hostHeartbeatFreq] the configured number of moments. *)
Definition active (config : Moment.Config) (hostHeartbeatFreq : Z)
    (curMomentStartIdx lastHeartbeatIndex : Z) : bool :=
  if lastHeartbeatIndex >? hostHeartbeatFreq * Moment.momentSize config
  then lastHeartbeatIndex >=? curMomentStartIdx - hostHeartbeatFreq * Moment.momentSize config
  else lastHeartbeatIndex >? 0.

(** [curMomentStartIdx = await this.getMomentStartIndex()], then the flag. *)
Definition host_active (config : Moment.Config) (hostHeartbeatFreq : Z)
    (now lastHeartbeatIndex : Z) : bool :=
  let curMomentStartIdx := Moment.getMomentStartIndex config now None in
  active config hostHeartbeatFreq curMomentStartIdx lastHeartbeatIndex.

End HostActivity.

(** ** Event names by event type *)

Module ClassifierTables.

(** The event names that the branch for an event type can return, read off
    the [name:] fields of [extractEvernodeEvent]. *)
Definition names_by_type : list (string * list EvernodeEvents) :=
  [ (EventTypes.ACQUIRE_LEASE, [AcquireLease]);
    (EventTypes.ACQUIRE_SUCCESS, [AcquireSuccess]);
    (EventTypes.ACQUIRE_ERROR, [AcquireError]);
    (EventTypes.HOST_REG, [HostRegistered]);
    (EventTypes.HOST_DEREG, [HostDeregistered]);
    (EventTypes.HEARTBEAT, [Heartbeat]);
    (EventTypes.EXTEND_LEASE, [ExtendLease]);
    (EventTypes.TERMINATE_LEASE, [TerminateLease]);
    (EventTypes.EXTEND_SUCCESS, [ExtendSuccess]);
    (EventTypes.EXTEND_ERROR, [ExtendError]);
    (EventTypes.INIT, [Initialized]);
    (EventTypes.HOST_UPDATE_INFO, [HostRegUpdated]);
    (EventTypes.DEAD_HOST_PRUNE, [DeadHostPrune]);
    (EventTypes.HOST_REBATE, [HostRebate]);
    (EventTypes.HOST_TRANSFER, [HostTransfer]);
    (EventTypes.CANDIDATE_PROPOSE, [CandidateProposed]);
    (EventTypes.CANDIDATE_WITHDRAW, [CandidateWithdrawn]);
    (EventTypes.CANDIDATE_STATUS_CHANGE,
     [DudHostRemoved; DudHostStatusChanged; FallbackToPiloted; NewHookStatusChanged]);
    (EventTypes.LINKED_CANDIDATE_REMOVE, [LinkedDudHostCandidateRemoved]);
    (EventTypes.HOOK_UPDATE_RES, [ChildHookUpdated]);
    (EventTypes.GOVERNANCE_MODE_CHANGE, [GovernanceModeChanged]);
    (EventTypes.CANDIDATE_VOTE, [FoundationVoted]);
    (EventTypes.DUD_HOST_REPORT, [DudHostReported]);
    (EventTypes.HOST_UPDATE_REPUTATION, [HostReputationUpdated]) ].

(** The names for an event type, none for a type without a branch. *)
Fixpoint names_of (ty : string) (table : list (string * list EvernodeEvents))
  : list EvernodeEvents :=
  match table with
  | [] => []
  | (ty', names) :: table' =>
      if String.eqb ty' ty then names else names_of ty table'
  end.

End ClassifierTables.

(** ** More concrete inputs *)

Module MoreExamples.

(** A lease-extension success with reference [ABCD] and expiry moment 300. *)
Definition extend_success_tx : Tx :=
  {| TransactionType := "Payment";
     HookParameters := Examples.event_params EventTypes.EXTEND_SUCCESS "ABCD";
     Memos := [ {| memo_type := Some EventTypes.EXTEND_SUCCESS;
                   memo_format := Some MemoFormats.HEX;
                   memo_data := Some "0000012C" |} ];
     Account := JStr "rHost"; Destination := JStr "rTenant"; hash := JStr "HASH";
     Amount := JUndefined; DeliveredAmount := JUndefined; Flags := JUndefined;
     URITokenSellOffer := JUndefined |}.

(** The removal of a linked candidate: a DudHost id, and a NewHook id. *)
Definition linked_remove_dud_host : Tx :=
  Examples.hook_tx EventTypes.LINKED_CANDIDATE_REMOVE Examples.dud_host_id.

Definition new_hook_id : string :=
  "0000000001AAAAAAAAAAAAAAAAAAAAAAAAAAAAAAAAAAAAAAAAAAAAAAAAAAAAAA".

Definition linked_remove_new_hook : Tx :=
  Examples.hook_tx EventTypes.LINKED_CANDIDATE_REMOVE new_hook_id.

(** A reputation update: the account id and the reputation 100. *)
Definition reputation_update_tx : Tx :=
  Examples.hook_tx EventTypes.HOST_UPDATE_REPUTATION
    (Buf.toUpperCase (Buf.to_hex (Examples.account_id ++ [x64]))).

(** A dead-host prune and a host transfer that carry the account id. *)
Definition dead_host_prune_tx : Tx :=
  Examples.hook_tx EventTypes.DEAD_HOST_PRUNE (Buf.to_hex Examples.account_id).

Definition host_transfer_tx : Tx :=
  Examples.hook_tx EventTypes.HOST_TRANSFER (Buf.to_hex Examples.account_id).

(** The address text of the account id for the reference codec, and the
    host info of a host that transferred its registration. *)
Definition account_address : string := Reference.base58_account Examples.account_id.

Definition transferer_info : jsval := JObj [ ("isATransferer", JNum 1) ].

(** A payment of the memo generation with nothing in it yet. *)
Definition legacy_payment : Legacy.Tx :=
  {| Legacy.TransactionType := "Payment";
     Legacy.Memos := [];
     Legacy.Account := JStr "rSender"; Legacy.Destination := JStr "rGovernor";
     Legacy.hash := JStr "HASH"; Legacy.Amount := JUndefined;
     Legacy.Flags := JUndefined; Legacy.NFTokenSellOffer := JUndefined;
     Legacy.NFTokenBuyOffer := JUndefined |}.

(** Three hook hashes of 32 bytes each, as hex text. *)
Definition three_hashes : string :=
  Buf.to_hex (repeat x11 32 ++ repeat x22 32 ++ repeat x33 32).

(** The reference runtime with a candidate helper that answers 7, none of
    the three kinds, for every id. *)
Definition unknown_kind_runtime : Runtime :=
  Build_Runtime Reference.base64_decode Reference.base64_encode
    Reference.utf8_decode Reference.utf8_encode Reference.JSON_parse
    Reference.parseFloat Reference.decrypt Reference.base58_account
    Reference.decodeAccountID (fun _ => 7) Reference.getNewHookCandidateId
    "URITokenBuy".

End MoreExamples.

(** ** Senders of the hook-parameter generation *)

Module Senders.

(** [EvernodeConstants.TOKEN_PREFIX_HEX] *)
Definition TOKEN_PREFIX_HEX : string := "657672686F7374".

(** [_withdraw(candidateId)]: the hook parameters of the payment. *)
Definition _withdraw (candidateId : string) : list HookParameter :=
  let candidateIdBuf := Buf.from_hex candidateId in
  [ {| hp_name := HookParamKeys.PARAM_EVENT_TYPE_KEY;
       hp_value := Some EventTypes.CANDIDATE_WITHDRAW |};
    {| hp_name := HookParamKeys.PARAM_EVENT_DATA_KEY;
       hp_value := Some (Buf.toUpperCase (Buf.to_hex candidateIdBuf)) |} ].

(** What [pruneDeadHost] reads of a URI token of the host account. *)
Record URIToken : Type := {
  URI : string;
  Issuer : string
}.

(** [pruneDeadHost(hostAddress)] up to the payment: [address] is
    [this.xrplAcc.address], [registryAddress] the configured registry,
    [hostInfo] what [getHostInfo(hostAddress)] gave (null for a host that is
    not registered) and [uriTokens] the URI tokens of the host account.  The
    result is the hook-parameter list handed to [makePayment]. *)
Definition pruneDeadHost (rt : Runtime) (address registryAddress hostAddress : string)
    (hostInfo : jsval) (uriTokens : list URIToken) : Outcome (list HookParameter) :=
  if String.eqb address registryAddress then Thrown (Message "Invalid function call")
  else
    decoded <- decodeAccountID rt (JStr hostAddress) ;;
    let paramData := Buf.copy decoded (Buf.alloc 20) 0 in
    isATransferer <- prop hostInfo "isATransferer" ;;
    let validPrune :=
      if negb (truthy isATransferer) then
        match find (fun n => String.prefix TOKEN_PREFIX_HEX (URI n)
                             && String.eqb (Issuer n) registryAddress) uriTokens with
        | Some _ => true
        | None => false
        end
      else true in
    if validPrune then
      Returned
        [ {| hp_name := HookParamKeys.PARAM_EVENT_TYPE_KEY;
             hp_value := Some EventTypes.DEAD_HOST_PRUNE |};
          {| hp_name := HookParamKeys.PARAM_EVENT_DATA_KEY;
             hp_value := Some (Buf.to_hex paramData) |} ]
    else Thrown (Message "No Registration URI token was found for the Host account.").

(** [_reportDudHost(hostAddress)]: the hook parameters of the payment, for
    the candidate id that [StateHelpers.getDudHostCandidateId(hostAddress)]
    returned. *)
Definition _reportDudHost (candidateId : string) : list HookParameter :=
  [ {| hp_name := HookParamKeys.PARAM_EVENT_TYPE_KEY;
       hp_value := Some EventTypes.DUD_HOST_REPORT |};
    {| hp_name := HookParamKeys.PARAM_EVENT_DATA_KEY;
       hp_value := Some candidateId |} ].

End Senders.

(** ** The chain of the memo generation as a table, and its senders *)

Module LegacyTable.

Import Legacy.

(** One branch of the chain: the type its predicate asks of the first memo,
    the predicate and the body. *)
Record Rule : Type := {
  rule_type : string;
  rule_guard : Tx -> bool;
  rule_body : Tx -> Outcome (option Event)
}.

Definition rules (rt : Runtime) (lc : Constants) (self : Client) : list Rule :=
  [ {| rule_type := ACQUIRE_LEASE lc; rule_guard := g_acquire_lease lc;
       rule_body := b_acquire_lease rt self |};
    {| rule_type := HOST_POST_DEREG lc; rule_guard := g_host_post_dereg lc;
       rule_body := b_host_post_dereg |};
    {| rule_type := ACQUIRE_SUCCESS lc; rule_guard := g_acquire_success lc;
       rule_body := b_acquire_success rt self |};
    {| rule_type := ACQUIRE_ERROR lc; rule_guard := g_acquire_error lc;
       rule_body := b_acquire_error rt |};
    {| rule_type := HOST_REG lc; rule_guard := g_host_reg lc;
       rule_body := b_host_reg |};
    {| rule_type := HOST_DEREG lc; rule_guard := g_host_dereg lc;
       rule_body := b_host_dereg |};
    {| rule_type := HEARTBEAT lc; rule_guard := g_heartbeat lc;
       rule_body := b_heartbeat |};
    {| rule_type := EXTEND_LEASE lc; rule_guard := g_extend_lease lc;
       rule_body := b_extend_lease rt |};
    {| rule_type := EXTEND_SUCCESS lc; rule_guard := g_extend_success lc;
       rule_body := b_extend_success |};
    {| rule_type := EXTEND_ERROR lc; rule_guard := g_extend_error lc;
       rule_body := b_extend_error rt |};
    {| rule_type := INIT lc; rule_guard := g_init lc;
       rule_body := b_init |};
    {| rule_type := HOST_UPDATE_INFO lc; rule_guard := g_host_update_info lc;
       rule_body := b_host_update_info |};
    {| rule_type := DEAD_HOST_PRUNE lc; rule_guard := g_dead_host_prune lc;
       rule_body := b_dead_host_prune rt |};
    {| rule_type := HOST_REBATE lc; rule_guard := g_host_rebate lc;
       rule_body := b_host_rebate |};
    {| rule_type := HOST_TRANSFER lc; rule_guard := g_host_transfer lc;
       rule_body := b_host_transfer rt |};
    {| rule_type := CANDIDATE_PROPOSE lc; rule_guard := g_candidate_propose lc;
       rule_body := b_candidate_propose |};
    {| rule_type := CANDIDATE_WITHDRAW lc; rule_guard := g_candidate_withdraw lc;
       rule_body := b_candidate_withdraw |};
    {| rule_type := CANDIDATE_STATUS_CHANGE lc; rule_guard := g_candidate_status_change lc;
       rule_body := b_candidate_status_change rt lc |};
    {| rule_type := HOOK_UPDATE_RES lc; rule_guard := g_hook_update_res lc;
       rule_body := b_hook_update_res |};
    {| rule_type := GOVERNANCE_MODE_CHANGE lc; rule_guard := g_governance_mode_change lc;
       rule_body := b_governance_mode_change |};
    {| rule_type := CANDIDATE_VOTE lc; rule_guard := g_candidate_vote lc;
       rule_body := b_candidate_vote |};
    {| rule_type := DUD_HOST_REPORT lc; rule_guard := g_dud_host_report lc;
       rule_body := b_dud_host_report rt |} ].

(** The memo types the 22 predicates ask of the first memo. *)
Definition memo_types (lc : Constants) : list string :=
  [ ACQUIRE_LEASE lc; HOST_POST_DEREG lc; ACQUIRE_SUCCESS lc; ACQUIRE_ERROR lc;
    HOST_REG lc; HOST_DEREG lc; HEARTBEAT lc; EXTEND_LEASE lc; EXTEND_SUCCESS lc;
    EXTEND_ERROR lc; INIT lc; HOST_UPDATE_INFO lc; DEAD_HOST_PRUNE lc;
    HOST_REBATE lc; HOST_TRANSFER lc; CANDIDATE_PROPOSE lc; CANDIDATE_WITHDRAW lc;
    CANDIDATE_STATUS_CHANGE lc; HOOK_UPDATE_RES lc; GOVERNANCE_MODE_CHANGE lc;
    CANDIDATE_VOTE lc; DUD_HOST_REPORT lc ].

Definition matching (rt : Runtime) (lc : Constants) (self : Client) (tx : Tx)
  : list Rule :=
  filter (fun r => rule_guard r tx) (rules rt lc self).

End LegacyTable.

Module LegacySenders.

Import Legacy.

Definition CANDIDATE_VOTE_UNIQUE_ID_MEMO_OFFSET : nat := 0.
Definition CANDIDATE_VOTE_VALUE_MEMO_OFFSET : nat := 32.
Definition CANDIDATE_VOTE_MEMO_SIZE : nat := 33.

Definition CANDIDATE_PROPOSE_UNIQUE_ID_MEMO_OFFSET : nat := 0.
Definition CANDIDATE_PROPOSE_SHORT_NAME_MEMO_OFFSET : nat := 32.
Definition CANDIDATE_PROPOSE_KEYLETS_MEMO_OFFSET : nat := 52.
Definition CANDIDATE_PROPOSE_MEMO_SIZE : nat := 154.

(** [buf.writeUInt8(value, off)] for an integer [value]: a RangeError for a
    value outside 0..255 and for an offset outside the buffer. *)
Definition writeUInt8 (l : list byte) (value : Z) (off : nat) : Outcome (list byte) :=
  if (value <? 0) || (255 <? value) then Thrown RangeError
  else
    match Byte.of_N (Z.to_N value) with
    | None => Thrown RangeError
    | Some b =>
        if (List.length l <=? off)%nat then Thrown RangeError
        else Returned (firstn off l ++ b :: skipn (S off) l)
    end.

(** The memo buffer of [propose]. *)
Definition memoBuf (uniqueIdBuf shortNameBuf keyletsBuf : list byte) : list byte :=
  let memoBuf := Buf.alloc CANDIDATE_PROPOSE_MEMO_SIZE in
  let memoBuf := Buf.copy uniqueIdBuf memoBuf CANDIDATE_PROPOSE_UNIQUE_ID_MEMO_OFFSET in
  let memoBuf := Buf.copy shortNameBuf memoBuf CANDIDATE_PROPOSE_SHORT_NAME_MEMO_OFFSET in
  Buf.copy keyletsBuf memoBuf CANDIDATE_PROPOSE_KEYLETS_MEMO_OFFSET.

(** [propose(hashes, shortName)] up to the payment: [keylets] are the
    keylets of the three hook definitions found on the ledger.  The result
    is the memo list handed to [makePayment]. *)
Definition propose (rt : Runtime) (lc : Constants) (hashes : string)
    (keylets : list string) (shortName : string) : Outcome (list Memo) :=
  let hashesBuf := Buf.from_hex hashes in
  if negb (List.length hashesBuf =? 96)%nat then
    Thrown (Message "Invalid hashes: Hashes should contain all three Governor, Registry, Heartbeat hook hashes.")
  else
    let uniqueId := getNewHookCandidateId rt hashesBuf in
    let buf :=
      memoBuf (Buf.from_hex uniqueId)
        (utf8_encode rt (Buf.substr 0 20 shortName))
        (Buf.from_hex (String.concat "" keylets)) in
    Returned
      [ {| memo_type := Some (CANDIDATE_PROPOSE lc);
           memo_format := Some MemoFormats.HEX;
           memo_data := Some (Buf.toUpperCase (Buf.to_hex hashesBuf)) |};
        {| memo_type := Some (CANDIDATE_PROPOSE_REF lc);
           memo_format := Some MemoFormats.HEX;
           memo_data := Some (Buf.toUpperCase (Buf.to_hex buf)) |} ].

(** [vote(candidateId, vote)] up to the payment. *)
Definition vote (lc : Constants) (candidateId : string) (vote : Z)
  : Outcome (list Memo) :=
  let voteBuf := Buf.alloc CANDIDATE_VOTE_MEMO_SIZE in
  let voteBuf :=
    Buf.copy (Buf.from_hex candidateId) voteBuf CANDIDATE_VOTE_UNIQUE_ID_MEMO_OFFSET in
  voteBuf <- writeUInt8 voteBuf vote CANDIDATE_VOTE_VALUE_MEMO_OFFSET ;;
  Returned
    [ {| memo_type := Some (CANDIDATE_VOTE lc);
         memo_format := Some MemoFormats.HEX;
         memo_data := Some (Buf.toUpperCase (Buf.to_hex voteBuf)) |} ].

(** [reportDudHost(hostAddress)] up to the payment, for the candidate id
    that [StateHelpers.getDudHostCandidateId(hostAddress)] returned. *)
Definition reportDudHost (lc : Constants) (candidateId : string) : list Memo :=
  [ {| memo_type := Some (DUD_HOST_REPORT lc);
       memo_format := Some MemoFormats.HEX;
       memo_data := Some candidateId |} ].

(** The transaction of a payment that carries [memos]. *)
Definition with_memos (tx : Tx) (memos : list Memo) : Tx :=
  {| TransactionType := TransactionType tx;
     Memos := memos;
     Account := Account tx;
     Destination := Destination tx;
     hash := hash tx;
     Amount := Amount tx;
     Flags := Flags tx;
     NFTokenSellOffer := NFTokenSellOffer tx;
     NFTokenBuyOffer := NFTokenBuyOffer tx |}.

End LegacySenders.

(** ** Concrete inputs of the memo generation *)

Module LegacyExamples.

(** The memos that [propose] sends for the three example hashes. *)
Definition proposal_memos : list Memo :=
  match LegacySenders.propose Reference.runtime Examples.legacy_constants
          MoreExamples.three_hashes [] "name" with
  | Returned memos => memos
  | Thrown _ => []
  end.

End LegacyExamples.

Module ConstructionExamples.

(** Stand-ins for the XRPL library: an API object for a server, an account
    object for an address, and a key pair with a private key of 66 hex
    digits. *)
Definition newXrplApi (rippledServer : jsval) : Outcome jsval :=
  Returned (JObj [ ("server", rippledServer) ]).

Definition newXrplAccount (address secret xrplApi : jsval) : Outcome jsval :=
  Returned (JObj [ ("address", address) ]).

Definition derived_key : string :=
  "ED0123456789ABCDEF0123456789ABCDEF0123456789ABCDEF0123456789ABCDEF".

Definition deriveKeypair (xrplAcc : jsval) : Outcome jsval :=
  Returned (JObj [ ("privateKey", JStr derived_key) ]).

(** Defaults of a network, complete. *)
Definition network_defaults : list (string * jsval) :=
  [ ("governorAddress", JStr "rGovernor");
    ("rippledServer", JStr "wss://example");
    ("stateIndexId", JStr "index");
    ("networkID", JNum 21337) ].

End ConstructionExamples.

(** ** The defaults and the constructor of the client *)

Module Defaults.

(** An object as its own enumerable properties, in insertion order. *)
Definition Object : Type := list (string * jsval).

(** [DefaultValues] as the module is loaded. *)
Definition DefaultValues : Object := [ ("xrplApi", JNull) ].

Definition RequiredInfoKeys : list string :=
  [ "governorAddress"; "rippledServer"; "stateIndexId"; "networkID" ].

(** [o[k] = v] *)
Fixpoint put (k : string) (v : jsval) (o : Object) : Object :=
  match o with
  | [] => [ (k, v) ]
  | (k', v') :: o' =>
      if String.eqb k' k then (k', v) :: o' else (k', v') :: put k v o'
  end.

(** [Object.assign(target, source)] *)
Definition assign (target source : Object) : Object :=
  fold_left (fun t kv => put (fst kv) (snd kv) t) source target.

(** [Defaults.set(newDefaults)]: the defaults afterwards. *)
Definition set (values newDefaults : Object) : Object := assign values newDefaults.

(** [Defaults.values] *)
Definition values (defaults : Object) : Outcome Object :=
  match find (fun k => negb (truthy (lookup_field k defaults))) RequiredInfoKeys with
  | Some notFound =>
      Thrown (Message ("Value for " ++ notFound ++ " is not set."))
  | None => Returned defaults
  end.

(** The names that every object inherits from [Object.prototype]. *)
Definition ObjectPrototypeNames : list string :=
  [ "constructor"; "__defineGetter__"; "__defineSetter__"; "hasOwnProperty";
    "__lookupGetter__"; "__lookupSetter__"; "isPrototypeOf";
    "propertyIsEnumerable"; "toString"; "valueOf"; "__proto__";
    "toLocaleString" ].

(** [Defaults.useNetwork(network)] for the table [Definitions] of the
    definitions file, network name to defaults: the defaults afterwards.
    For a name the table lacks, [Definitions[network]] still finds what the
    table inherits from [Object.prototype], a function or the prototype
    itself: it is truthy and has no enumerable property of its own, so the
    call returns and [Object.assign] changes nothing. *)
Definition useNetwork (Definitions : list (string * Object)) (network : string)
    (defaults : Object) : Outcome Object :=
  match find (fun d => String.eqb (fst d) network) Definitions with
  | Some d => Returned (set defaults (snd d))
  | None =>
      if existsb (String.eqb network) ObjectPrototypeNames
      then Returned (set defaults [])
      else Thrown (Message "Invalid network")
  end.

End Defaults.

Module Construction.

(** [RegExp.PublicPrivateKey], [/^[0-9A-Fa-f]{66}$/], on a text. *)
Definition is_hex_digit (c : ascii) : bool :=
  match Buf.unhex c with Some _ => true | None => false end.

Definition PublicPrivateKey (s : string) : bool :=
  (String.length s =? 66)%nat && forallb is_hex_digit (list_ascii_of_string s).

Section WithEnvironment.

Variable rt : Runtime.

(** [new XrplApi(rippledServer)], [new XrplAccount(address, secret,
    { xrplApi })] and [xrplAcc.deriveKeypair()], which are not among the
    sources at hand. *)
Variable newXrplApi : jsval -> Outcome jsval.
Variable newXrplAccount : jsval -> jsval -> jsval -> Outcome jsval.
Variable deriveKeypair : jsval -> Outcome jsval.

(** [RegExp.PublicPrivateKey.test(v)]: the pattern is tried on the text of
    [v]; the text of a number, a boolean or a plain object never has 66
    hex digits, the text of a buffer is its content. *)
Definition test_key (v : jsval) : bool :=
  match v with
  | JStr s => PublicPrivateKey s
  | JBuf b => PublicPrivateKey (utf8_decode rt b)
  | _ => false
  end.

(** What the constructor leaves in the fields of the client. *)
Record Built : Type := {
  governorAddress : jsval;
  xrplApi : jsval;
  ownsXrplApi : bool;
  config : jsval;
  xrplAcc : jsval;
  accKeyPair : jsval;
  messagePrivateKey : jsval
}.

(** [new BaseEvernodeClient(xrpAddress, xrpSecret, watchEvents,
    autoSubscribe, options)] up to the registration of the listeners, for
    the defaults [defaults] at the time of the call. *)
Definition construct (defaults : Defaults.Object) (xrpAddress xrpSecret : jsval)
    (options : Defaults.Object) : Outcome Built :=
  governorAddress <-
    (if truthy (lookup_field "governorAddress" options)
     then Returned (lookup_field "governorAddress" options)
     else v <- Defaults.values defaults ;;
          Returned (lookup_field "governorAddress" v)) ;;
  xrplApi <-
    (if truthy (lookup_field "xrplApi" options)
     then Returned (lookup_field "xrplApi" options)
     else v <- Defaults.values defaults ;;
          if truthy (lookup_field "xrplApi" v)
          then Returned (lookup_field "xrplApi" v)
          else newXrplApi (lookup_field "rippledServer" options)) ;;
  ownsXrplApi <-
    (if negb (truthy (lookup_field "xrplApi" options))
     then v <- Defaults.values defaults ;;
          Returned (negb (truthy (lookup_field "xrplApi" v)))
     else Returned false) ;;
  let config :=
    if truthy (lookup_field "config" options)
    then lookup_field "config" options else JUndefined in
  xrplAcc <- newXrplAccount xrpAddress xrpSecret xrplApi ;;
  accKeyPair <-
    (if truthy xrpSecret then deriveKeypair xrplAcc else Returned xrpSecret) ;;
  messagePrivateKey <-
    (if truthy (lookup_field "messagePrivateKey" options)
     then Returned (lookup_field "messagePrivateKey" options)
     else if truthy accKeyPair then prop accKeyPair "privateKey"
          else Returned JNull) ;;
  if truthy messagePrivateKey && negb (test_key messagePrivateKey)
  then Thrown (Message "Message private key is not valid.")
  else
    Returned {| governorAddress := governorAddress;
                xrplApi := xrplApi;
                ownsXrplApi := ownsXrplApi;
                config := config;
                xrplAcc := xrplAcc;
                accKeyPair := accKeyPair;
                messagePrivateKey := messagePrivateKey |}.

End WithEnvironment.

End Construction.

(** ** Reading all pages (memo generation) *)

Module Paging.

Section WithRows.

Variable A : Type.

(** What the store handler answers: the rows alone when there are no more
    pages, otherwise an object with the rows of the page and the token of
    the next one. *)
Inductive Answer : Type :=
| Rows (rows : list A)
| Page (data : list A) (nextPageToken : jsval).

(** An element of the list that is returned: a row, or a whole answer
    object that [concat] took as one element. *)
Inductive Item : Type :=
| Row (a : A)
| Whole (data : list A) (nextPageToken : jsval).

(** [this.#firestoreHandler.getHosts(filters, pageSize, nextPageToken)],
    and likewise [getConfigs] and [getCandidates]. *)
Variable handler : jsval -> jsval -> jsval -> Outcome Answer.

(** [full.concat(next.nextPageToken ? next.data : next)] *)
Definition concat_answer (full : list Item) (next : Answer) : list Item :=
  match next with
  | Rows rows => full ++ map Row rows
  | Page data tok =>
      if truthy tok then full ++ map Row data else full ++ [ Whole data tok ]
  end.

(** [next.nextPageToken] *)
Definition token_of (next : Answer) : jsval :=
  match next with
  | Rows _ => JUndefined
  | Page _ tok => tok
  end.

(** The [while (currentPageToken)] loop; [None] when [fuel] rounds were not
    enough for it to end. *)
Fixpoint drain (fuel : nat) (currentPageToken : jsval) (full : list Item)
  : option (Outcome (list Item)) :=
  if negb (truthy currentPageToken) then Some (Returned full)
  else
    match fuel with
    | O => None
    | S fuel' =>
        match handler JNull (JNum 50) currentPageToken with
        | Thrown e => Some (Thrown e)
        | Returned next => drain fuel' (token_of next) (concat_answer full next)
        end
    end.

(** [getAllHosts()], and likewise [getAllConfigs()] and
    [getAllCandidates()]. *)
Definition getAll (fuel : nat) : option (Outcome (list Item)) :=
  match handler JUndefined JUndefined JUndefined with
  | Thrown e => Some (Thrown e)
  | Returned (Page data tok) =>
      if truthy tok then drain fuel tok ([] ++ map Row data)
      else Some (Returned (concat_answer [] (Page data tok)))
  | Returned (Rows rows) => Some (Returned (concat_answer [] (Rows rows)))
  end.

(** The pages that follow a token: each answer but the last names the next
    token, the last answer is the rows alone. *)
Inductive Chain : jsval -> list (list A) -> Prop :=
| chain_last (tok : jsval) (rows : list A) :
    handler JNull (JNum 50) tok = Returned (Rows rows) ->
    Chain tok [ rows ]
| chain_more (tok tok' : jsval) (data : list A) (rest : list (list A)) :
    handler JNull (JNum 50) tok = Returned (Page data tok') ->
    truthy tok' = true ->
    Chain tok' rest ->
    Chain tok (data :: rest).

End WithRows.

Arguments Rows {A}.
Arguments Page {A}.
Arguments Row {A}.
Arguments Whole {A}.
Arguments concat_answer {A}.
Arguments token_of {A}.
Arguments drain {A}.
Arguments getAll {A}.
Arguments Chain {A}.

End Paging.

Module PagingExamples.

(** A store of three pages of host names. *)
Definition three_pages (filters pageSize nextPageToken : jsval)
  : Outcome (Paging.Answer string) :=
  match nextPageToken with
  | JStr "p2" => Returned (Paging.Page [ "c"; "d" ] (JStr "p3"))
  | JStr "p3" => Returned (Paging.Rows [ "e" ])
  | _ => Returned (Paging.Page [ "a"; "b" ] (JStr "p2"))
  end.

(** A store that names the token of the same page again and again. *)
Definition same_page (filters pageSize nextPageToken : jsval)
  : Outcome (Paging.Answer string) :=
  Returned (Paging.Page [ "a" ] (JStr "p1")).

End PagingExamples.

(** ** The hook client of the first generation *)

Module OldHook.

(** [buf.readUInt16BE(off)], [buf.readUInt32LE(off)],
    [buf.readBigUInt64BE(off)] and [buf.readBigInt64BE(off)] *)
Definition readUInt16BE (l : list byte) (off : nat) : Outcome Z :=
  bs <- Buf.read_bytes l off 2 ;; Returned (Buf.be_value bs).

Definition readUInt32LE (l : list byte) (off : nat) : Outcome Z :=
  bs <- Buf.read_bytes l off 4 ;; Returned (Buf.le_value bs).

Definition readBigUInt64BE (l : list byte) (off : nat) : Outcome Z :=
  bs <- Buf.read_bytes l off 8 ;; Returned (Buf.be_value bs).

Definition readBigInt64BE (l : list byte) (off : nat) : Outcome Z :=
  bs <- Buf.read_bytes l off 8 ;;
  let u := Buf.be_value bs in
  Returned (if u <? 2 ^ 63 then u else u - 2 ^ 64).

(** [readUInt(buf, base, isBE)] *)
Definition readUInt (buf : list byte) (base : Z) (isBE : bool) : Outcome Z :=
  if base =? 8 then Buf.readUInt8 buf 0
  else if base =? 16 then
    (if isBE then readUInt16BE buf 0 else Buf.readUInt16LE buf 0)
  else if base =? 32 then
    (if isBE then Buf.readUInt32BE buf 0 else readUInt32LE buf 0)
  else if base =? 64 then
    n <- (if isBE then readBigUInt64BE buf 0 else Buf.readBigUInt64LE buf 0) ;;
    Returned (Buf.Number_of_BigInt n)
  else Thrown (Message "Invalid base value").

(** A hook state as [getHookStates] returns it: key and data as hex text,
    [None] for a field the ledger entry lacks. *)
Record HookState : Type := {
  key : option string;
  data : option string
}.

(** The keys of the hook states and the defaults of [evernode-common],
    which is not among the sources at hand, and [XflHelpers.toString]. *)
Record HookStateKeys : Type := {
  HOST_REG_FEE : string;
  MOMENT_SIZE : string;
  REDEEM_WINDOW : string;
  MOMENT_BASE_IDX : string
}.

Record Config : Type := {
  hostRegFee : jsval;
  momentSize : jsval;
  redeemWindow : jsval;
  momentBaseIdx : jsval
}.

(** [states.map(s => ({ key: s.key, data: Buffer.from(s.data, 'hex') }))]:
    a TypeError for a state without data. *)
Fixpoint decode_states (states : list HookState)
  : Outcome (list (option string * list byte)) :=
  match states with
  | [] => Returned []
  | s :: states' =>
      match data s with
      | None => Thrown TypeError
      | Some d =>
          rest <- decode_states states' ;;
          Returned ((key s, Buf.from_hex d) :: rest)
      end
  end.

(** [getStateData(states, key)] on the decoded states: the data of the
    first state with the key, [None] for [undefined]. *)
Definition getStateData (states : list (option string * list byte)) (k : string)
  : option (list byte) :=
  match find (fun s => opt_eq_str (fst s) k) states with
  | Some s => Some (snd s)
  | None => None
  end.

(** [buf ? readUInt(buf, base) : dflt] *)
Definition read_or_default (buf : option (list byte)) (base : Z) (dflt : jsval)
  : Outcome jsval :=
  match buf with
  | Some b => v <- readUInt b base true ;; Returned (JNum v)
  | None => Returned dflt
  end.

(** [getConfig()] for the states that [getHookStates] returned; [defaults]
    is [HookStateDefaults] with the defaults in the fields of a config. *)
Definition getConfig (keys : HookStateKeys) (defaults : Config)
    (XflHelpers_toString : Z -> jsval) (states : list HookState) : Outcome Config :=
  states <- decode_states states ;;
  hostRegFee <-
    (match getStateData states (HOST_REG_FEE keys) with
     | Some buf =>
         xfl <- readBigInt64BE buf 0 ;;
         Returned (XflHelpers_toString xfl)
     | None => Returned (hostRegFee defaults)
     end) ;;
  momentSize <-
    read_or_default (getStateData states (MOMENT_SIZE keys)) 16 (momentSize defaults) ;;
  redeemWindow <-
    read_or_default (getStateData states (REDEEM_WINDOW keys)) 16 (redeemWindow defaults) ;;
  momentBaseIdx <-
    read_or_default (getStateData states (MOMENT_BASE_IDX keys)) 64
      (momentBaseIdx defaults) ;;
  Returned {| hostRegFee := hostRegFee;
              momentSize := momentSize;
              redeemWindow := redeemWindow;
              momentBaseIdx := momentBaseIdx |}.

End OldHook.

Module OldHookExamples.

Definition keys : OldHook.HookStateKeys :=
  {| OldHook.HOST_REG_FEE := "45565201";
     OldHook.MOMENT_SIZE := "45565202";
     OldHook.REDEEM_WINDOW := "45565203";
     OldHook.MOMENT_BASE_IDX := "45565204" |}.

Definition defaults : OldHook.Config :=
  {| OldHook.hostRegFee := JNum 5;
     OldHook.momentSize := JNum 72;
     OldHook.redeemWindow := JNum 12;
     OldHook.momentBaseIdx := JNum 0 |}.

Definition XflHelpers_toString (xfl : Z) : jsval := JNum xfl.

(** A moment size of 0x0104 on the ledger, and one cut to a single byte. *)
Definition moment_size_state : OldHook.HookState :=
  {| OldHook.key := Some "45565202"; OldHook.data := Some "0104" |}.

Definition short_moment_size_state : OldHook.HookState :=
  {| OldHook.key := Some "45565202"; OldHook.data := Some "01" |}.

End OldHookExamples.

(** * Properties *)

(** ** Moment arithmetic *)

Module MomentFacts.

Import Moment.

Lemma index_or_now_given (t now : Z) :
  t <> 0 -> index_or_now (Some t) now = t.
Proof.
  intros Ht. unfold index_or_now.
  destruct (Z.eqb_spec t 0) as [E | _]; [contradiction | reflexivity].
Qed.

Lemma index_or_now_zero (now : Z) :
  index_or_now (Some 0) now = index_or_now None now.
Proof. reflexivity. Qed.

(** Floor division against truncating division below zero. *)
Lemma floor_below_quot (a b : Z) :
  0 < b -> a < 0 -> a mod b <> 0 -> a / b = Z.quot a b - 1.
Proof.
  intros Hb Ha Hr.
  pose proof (Z.div_mod a b ltac:(lia)) as Hd.
  pose proof (Z.mod_pos_bound a b Hb) as Hm.
  pose proof (Z.quot_rem a b ltac:(lia)) as Hq.
  pose proof (Z.rem_bound_pos_neg a b Hb ltac:(lia)) as Hrem.
  assert (Hrem0 : Z.rem a b <> 0).
  { intros E. apply Hr. apply Z.rem_divide in E; [|lia].
    apply Z.mod_divide; [lia | exact E]. }
  nia.
Qed.

(** A start index is a whole number of moments away from the base. *)
Lemma start_of_start (b m q : Z) :
  0 < m -> (b + q * m - b) / m = q.
Proof.
  intros Hm. replace (b + q * m - b) with (q * m) by ring.
  apply Z.div_mul. lia.
Qed.

(** C4 (amended): with [momentSize > 0] and an explicitly supplied timestamp
    [t] other than 0, [getMoment(t)] is
    [baseTransitionMoment + floor((t - baseIdx) / momentSize)] and
    [getMomentStartIndex(t)] is
    [baseIdx + floor((t - baseIdx) / momentSize) * momentSize]; the quotient
    [q] is the floor (it satisfies [q * momentSize <= t - baseIdx <
    (q + 1) * momentSize], also for [t < baseIdx]), and below the base it is
    one less than the quotient truncated toward zero whenever the division
    is not exact. *)
Theorem C4_moment_floor_formula (config : Config) (now t : Z) :
  0 < momentSize config ->
  t <> 0 ->
  let b := baseIdx (momentBaseInfo config) in
  let q := (t - b) / momentSize config in
  getMoment config now (Some t) = baseTransitionMoment (momentBaseInfo config) + q
  /\ getMomentStartIndex config now (Some t) = b + q * momentSize config
  /\ q * momentSize config <= t - b < (q + 1) * momentSize config
  /\ (t < b -> (t - b) mod momentSize config <> 0 ->
      q = Z.quot (t - b) (momentSize config) - 1).
Proof.
  intros Hm Ht b q. unfold getMoment, getMomentStartIndex.
  rewrite (index_or_now_given t now Ht). fold b. fold q.
  repeat split.
  - subst q. pose proof (Z.mul_div_le (t - b) (momentSize config) Hm). lia.
  - subst q. pose proof (Z.mul_succ_div_gt (t - b) (momentSize config) Hm). lia.
  - intros Hlt Hr. subst q. apply floor_below_quot; lia.
Qed.

Lemma C4_moment_floor_formula_witness :
  0 < momentSize Examples.cfg3600 /\ 1699999999 <> 0
  /\ getMoment Examples.cfg3600 1700003600 (Some 1699999999) = 499
  /\ getMomentStartIndex Examples.cfg3600 1700003600 (Some 1699999999) = 1699996400.
Proof.
  split; [reflexivity|]. split; [discriminate|].
  pose proof (C4_moment_floor_formula Examples.cfg3600 1700003600 1699999999
                ltac:(reflexivity) ltac:(discriminate)) as [H1 [H2 _]].
  split; [exact H1 | exact H2].
Defined.

(** C4 as stated fails for the explicitly supplied timestamp 0: the clock
    reading is used instead (here 1000, moment 100), while the formula gives
    moment 0 and start index 0. *)
Lemma C4_counterexample_timestamp_zero :
  getMoment Examples.cfg10 1000 (Some 0) = 100
  /\ baseTransitionMoment (momentBaseInfo Examples.cfg10)
     + (0 - baseIdx (momentBaseInfo Examples.cfg10)) / momentSize Examples.cfg10 = 0
  /\ getMomentStartIndex Examples.cfg10 1000 (Some 0) = 1000
  /\ baseIdx (momentBaseInfo Examples.cfg10)
     + (0 - baseIdx (momentBaseInfo Examples.cfg10)) / momentSize Examples.cfg10
       * momentSize Examples.cfg10 = 0.
Proof. repeat split. Qed.

(** C5 (amended): with [momentSize > 0] and supplied timestamps [t <= t']
    that are both other than 0, [getMoment(t) <= getMoment(t')], and
    [getMomentStartIndex(getMomentStartIndex(t)) = getMomentStartIndex(t)]
    whenever the start index of [t] is itself other than 0; the clock may
    differ between the calls. *)
Theorem C5_moment_idempotent_monotone (config : Config) (now now' t t' : Z) :
  0 < momentSize config ->
  t <> 0 -> t' <> 0 -> t <= t' ->
  (getMomentStartIndex config now (Some t) <> 0 ->
   getMomentStartIndex config now' (Some (getMomentStartIndex config now (Some t)))
   = getMomentStartIndex config now (Some t))
  /\ getMoment config now (Some t) <= getMoment config now' (Some t').
Proof.
  intros Hm Ht Ht' Hle. split.
  - intros Hs.
    unfold getMomentStartIndex at 1.
    rewrite (index_or_now_given _ now' Hs).
    unfold getMomentStartIndex. rewrite (index_or_now_given t now Ht).
    rewrite start_of_start by exact Hm. reflexivity.
  - unfold getMoment.
    rewrite (index_or_now_given t now Ht), (index_or_now_given t' now' Ht').
    apply Z.add_le_mono_l. apply Z.div_le_mono; lia.
Qed.

Lemma C5_moment_idempotent_monotone_witness :
  getMomentStartIndex Examples.cfg3600 1 (Some (getMomentStartIndex Examples.cfg3600 2 (Some 1700005000)))
  = getMomentStartIndex Examples.cfg3600 2 (Some 1700005000)
  /\ getMoment Examples.cfg3600 2 (Some 1700005000) <= getMoment Examples.cfg3600 1 (Some 1700009000).
Proof.
  pose proof (C5_moment_idempotent_monotone Examples.cfg3600 2 1 1700005000 1700009000
                ltac:(reflexivity) ltac:(discriminate) ltac:(discriminate)
                ltac:(discriminate)) as [H1 H2].
  split; [apply H1; discriminate | exact H2].
Defined.

(** C5 as stated fails where a 0 comes in: timestamp 5 starts its moment at
    index 0, and the start index of 0 is that of the clock reading; and for
    [0 <= 5] the moment of 0 (that of the clock, 100) is above the moment
    of 5. *)
Lemma C5_counterexample_start_zero :
  getMomentStartIndex Examples.cfg10 1000 (Some 5) = 0
  /\ getMomentStartIndex Examples.cfg10 1000
       (Some (getMomentStartIndex Examples.cfg10 1000 (Some 5))) = 1000
  /\ 0 <= 5
  /\ getMoment Examples.cfg10 1000 (Some 0) = 100
  /\ getMoment Examples.cfg10 1000 (Some 5) = 0.
Proof. repeat split; discriminate. Qed.

(** C10: a supplied timestamp 0 is replaced by the clock reading exactly as
    an absent one is, in [getMoment] and in [getMomentStartIndex]; so with a
    clock that reads [now <> 0] the answer for timestamp 0 is the answer for
    [now]. *)
Theorem C10_zero_timestamp_is_absent (config : Config) (now : Z) :
  getMoment config now (Some 0) = getMoment config now None
  /\ getMomentStartIndex config now (Some 0) = getMomentStartIndex config now None
  /\ getMoment config now (Some 0)
     = baseTransitionMoment (momentBaseInfo config)
       + (now - baseIdx (momentBaseInfo config)) / momentSize config
  /\ getMomentStartIndex config now (Some 0)
     = baseIdx (momentBaseInfo config)
       + (now - baseIdx (momentBaseInfo config)) / momentSize config * momentSize config.
Proof. repeat split. Qed.

End MomentFacts.

(** ** Buffers and hex text *)

Module BufFacts.

Import Buf.

Lemma to_hex_length (l : list byte) :
  String.length (to_hex l) = (2 * List.length l)%nat.
Proof.
  induction l as [| b l IH]; simpl; [reflexivity | rewrite IH; lia].
Qed.

Lemma toUpperCase_length (s : string) :
  String.length (toUpperCase s) = String.length s.
Proof.
  induction s as [| c s IH]; simpl; [reflexivity | now rewrite IH].
Qed.

Lemma to_hex_app (a b : list byte) :
  to_hex (a ++ b) = (to_hex a ++ to_hex b)%string.
Proof.
  induction a as [| x a IH]; simpl; [reflexivity | now rewrite IH].
Qed.

Lemma toUpperCase_app (s t : string) :
  toUpperCase (s ++ t)%string = (toUpperCase s ++ toUpperCase t)%string.
Proof.
  induction s as [| c s IH]; simpl; [reflexivity | now rewrite IH].
Qed.

(** One byte read back from its two lower-case digits. *)
Lemma from_hex_lower_byte (b : byte) (s : string) :
  from_hex (String (hex_digit_lower (Byte.to_N b / 16))
              (String (hex_digit_lower (Byte.to_N b mod 16)) s))
  = b :: from_hex s.
Proof. destruct b; reflexivity. Qed.

(** ... and from the upper-case form of the digits. *)
Lemma from_hex_upper_byte (b : byte) (s : string) :
  from_hex (String (upper_char (hex_digit_lower (Byte.to_N b / 16)))
              (String (upper_char (hex_digit_lower (Byte.to_N b mod 16))) s))
  = b :: from_hex s.
Proof. destruct b; reflexivity. Qed.

Lemma from_hex_to_hex_app (l : list byte) (s : string) :
  from_hex (to_hex l ++ s)%string = l ++ from_hex s.
Proof.
  induction l as [| b l IH]; [reflexivity |].
  cbn [to_hex String.append]. rewrite from_hex_lower_byte, IH. reflexivity.
Qed.

Lemma from_hex_upper_app (l : list byte) (s : string) :
  from_hex (toUpperCase (to_hex l) ++ s)%string = l ++ from_hex s.
Proof.
  induction l as [| b l IH]; [reflexivity |].
  cbn [to_hex toUpperCase String.append]. rewrite from_hex_upper_byte, IH.
  reflexivity.
Qed.

Lemma string_app_empty (s : string) : (s ++ "")%string = s.
Proof. induction s as [| c s IH]; simpl; [reflexivity | now rewrite IH]. Qed.

(** [Buffer.from(buf.toString('hex'), 'hex')] is [buf]. *)
Lemma from_hex_to_hex (l : list byte) : from_hex (to_hex l) = l.
Proof.
  rewrite <- (string_app_empty (to_hex l)), from_hex_to_hex_app.
  apply app_nil_r.
Qed.

(** The same through [toUpperCase]. *)
Lemma from_hex_to_hex_upper (l : list byte) :
  from_hex (toUpperCase (to_hex l)) = l.
Proof.
  rewrite <- (string_app_empty (toUpperCase (to_hex l))), from_hex_upper_app.
  apply app_nil_r.
Qed.

(** [s.substr(start, len)] is empty from the end of the text on. *)
Lemma substr_past_end (s : string) (start len : nat) :
  (String.length s <= start)%nat -> substr start len s = "".
Proof.
  unfold substr. revert start len.
  induction s as [| c s IH]; intros start len Hle.
  - destruct start, len; reflexivity.
  - destruct start as [| start]; [simpl in Hle; lia |].
    simpl. apply IH. simpl in Hle. lia.
Qed.

Lemma nonempty_text (s : string) :
  (0 < String.length s)%nat -> String.eqb s "" = false.
Proof. destruct s; simpl; [lia | reflexivity]. Qed.

Lemma alloc_length (n : nat) : List.length (alloc n) = n.
Proof. apply repeat_length. Qed.

Lemma copy_length (src target : list byte) (off : nat) :
  List.length (copy src target off) = List.length target.
Proof.
  unfold copy. rewrite !length_app, !length_firstn, length_skipn. lia.
Qed.

Lemma slice_length (a b : nat) (l : list byte) :
  (b <= List.length l)%nat -> List.length (slice a b l) = (b - a)%nat.
Proof.
  intros H. unfold slice. rewrite length_firstn, length_skipn. lia.
Qed.

(** A copy that lands just behind a prefix [pre] and fits. *)
Lemma copy_behind (src pre rest : list byte) :
  (List.length src <= List.length rest)%nat ->
  copy src (pre ++ rest) (List.length pre)
  = pre ++ src ++ skipn (List.length src) rest.
Proof.
  intros Hfit. unfold copy.
  rewrite length_app.
  replace (Nat.min (List.length src) (List.length pre + List.length rest - List.length pre))
    with (List.length src) by lia.
  rewrite firstn_app, firstn_all, Nat.sub_diag, firstn_O, app_nil_r.
  rewrite firstn_all.
  rewrite skipn_app, skipn_all2 by lia.
  replace (List.length pre + List.length src - List.length pre)%nat
    with (List.length src) by lia.
  reflexivity.
Qed.

Lemma copy_at (src pre rest : list byte) (off : nat) :
  off = List.length pre ->
  (List.length src <= List.length rest)%nat ->
  copy src (pre ++ rest) off = pre ++ src ++ skipn (List.length src) rest.
Proof. intros ->. apply copy_behind. Qed.

Lemma skipn_repeat (n k : nat) (x : byte) :
  skipn k (repeat x n) = repeat x (n - k).
Proof.
  revert k. induction n as [| n IH]; intros [| k]; simpl; try reflexivity.
  apply IH.
Qed.

Lemma slice_prefix (a rest : list byte) :
  slice 0 (List.length a) (a ++ rest) = a.
Proof.
  unfold slice. rewrite Nat.sub_0_r. simpl.
  rewrite firstn_app, firstn_all, Nat.sub_diag, firstn_O. apply app_nil_r.
Qed.

Lemma slice_behind (pre a rest : list byte) (n m : nat) :
  n = List.length pre -> m = (List.length pre + List.length a)%nat ->
  slice n m (pre ++ a ++ rest) = a.
Proof.
  intros -> ->. unfold slice.
  rewrite skipn_app, skipn_all, Nat.sub_diag. simpl.
  replace (List.length pre + List.length a - List.length pre)%nat
    with (List.length a) by lia.
  rewrite firstn_app, firstn_all, Nat.sub_diag, firstn_O. apply app_nil_r.
Qed.

End BufFacts.

(** ** The dispatch of the classifier *)

Module DispatchFacts.

Import Classifier.

Lemma opt_eq_str_inj (o : option string) (a b : string) :
  opt_eq_str o a = true -> opt_eq_str o b = true -> a = b.
Proof.
  destruct o as [t |]; simpl; [| discriminate].
  intros Ha Hb. apply String.eqb_eq in Ha, Hb. congruence.
Qed.

Lemma is_type_with_data_type (tx : Tx) (ty : string) :
  is_type_with_data tx ty = true -> is_type tx ty = true.
Proof.
  unfold is_type_with_data. intros H.
  apply andb_true_iff in H. tauto.
Qed.

Lemma distinct_NoDup (l : list string) : distinct l = true -> NoDup l.
Proof.
  induction l as [| s l IH]; simpl; intros H; constructor.
  - apply andb_true_iff in H as [H _]. intros Hin.
    apply negb_true_iff in H.
    assert (existsb (String.eqb s) l = true) as E.
    { apply existsb_exists. exists s. split; [exact Hin | apply String.eqb_refl]. }
    congruence.
  - apply IH. apply andb_true_iff in H. tauto.
Qed.

Lemma NoDup_map_eq {A B} (f : A -> B) (l : list A) (x y : A) :
  NoDup (map f l) -> In x l -> In y l -> f x = f y -> x = y.
Proof.
  induction l as [| a l IH]; simpl; intros Hnd Hx Hy E; [contradiction |].
  inversion Hnd as [| ? ? Hnot Hnd']; subst.
  destruct Hx as [-> | Hx], Hy as [-> | Hy]; try reflexivity.
  - exfalso. apply Hnot. rewrite E. now apply in_map.
  - exfalso. apply Hnot. rewrite <- E. now apply in_map.
  - now apply IH.
Qed.

Section WithRuntime.

Variable rt : Runtime.
Variable self : Client.

Ltac guard_type :=
  repeat match goal with
         | H : (_ && _)%bool = true |- _ => apply andb_true_iff in H; destruct H
         | H : is_type_with_data _ _ = true |- _ => apply is_type_with_data_type in H
         end;
  assumption.

(** Every predicate of the chain asks for its own event type. *)
Lemma guard_asks_type (tx : Tx) :
  Forall (fun r => rule_guard r tx = true -> is_type tx (rule_type r) = true)
         (rules rt self).
Proof.
  unfold rules.
  repeat (apply Forall_cons;
          [ cbn [rule_guard rule_type];
            unfold g_acquire_lease, g_acquire_success, g_acquire_error, g_host_reg,
              g_host_dereg, g_heartbeat, g_extend_lease, g_terminate_lease,
              g_extend_success, g_extend_error, g_init, g_host_update_info,
              g_dead_host_prune, g_host_rebate, g_host_transfer, g_candidate_propose,
              g_candidate_withdraw, g_candidate_status_change,
              g_linked_candidate_remove, g_hook_update_res, g_governance_mode_change,
              g_candidate_vote, g_dud_host_report, g_host_update_reputation;
            intros H; guard_type
          | ]).
  apply Forall_nil.
Qed.

Lemma rule_types_distinct : NoDup (map rule_type (rules rt self)).
Proof. apply distinct_NoDup. vm_compute. reflexivity. Qed.

(** No transaction satisfies two predicates of the chain. *)
Lemma rules_exclusive (tx : Tx) (r1 r2 : Rule) :
  In r1 (rules rt self) -> In r2 (rules rt self) ->
  rule_guard r1 tx = true -> rule_guard r2 tx = true -> r1 = r2.
Proof.
  intros In1 In2 G1 G2.
  pose proof (guard_asks_type tx) as HF. rewrite Forall_forall in HF.
  pose proof (HF r1 In1 G1) as T1. pose proof (HF r2 In2 G2) as T2.
  apply (NoDup_map_eq rule_type (rules rt self)); auto.
  - apply rule_types_distinct.
  - unfold is_type in T1, T2. eapply opt_eq_str_inj; eassumption.
Qed.

(** The if / else-if chain runs the branch of the first rule of the table
    whose predicate holds, and returns null when there is none. *)
Lemma extract_dispatch (tx : Tx) :
  extractEvernodeEvent rt self tx
  = match find (fun r => rule_guard r tx) (rules rt self) with
    | Some r => rule_body r tx
    | None => Returned None
    end.
Proof.
  unfold extractEvernodeEvent, rules. cbn [find rule_guard rule_body].
  repeat match goal with
         | |- context [if ?g tx then _ else _] => destruct (g tx); [reflexivity |]
         end.
  reflexivity.
Qed.

Lemma find_exclusive {A} (p : A -> bool) (l : list A) (r : A) :
  (forall a b, In a l -> In b l -> p a = true -> p b = true -> a = b) ->
  In r l -> p r = true -> find p l = Some r.
Proof.
  induction l as [| a l IH]; simpl; intros Hex Hin Hp; [contradiction |].
  destruct (p a) eqn:Ea.
  - f_equal. destruct Hin as [-> | Hin]; [reflexivity |].
    apply Hex; [now left | now right | assumption | assumption].
  - destruct Hin as [-> | Hin]; [congruence |].
    apply IH; auto.
Qed.

(** The branch of the one rule whose predicate holds decides the outcome. *)
Lemma extract_of_rule (tx : Tx) (r : Rule) :
  In r (rules rt self) -> rule_guard r tx = true ->
  extractEvernodeEvent rt self tx = rule_body r tx.
Proof.
  intros Hin Hg. rewrite extract_dispatch.
  rewrite (find_exclusive (fun r => rule_guard r tx) (rules rt self) r); auto.
  intros a b. apply rules_exclusive.
Qed.

Lemma extract_no_rule (tx : Tx) :
  (forall r, In r (rules rt self) -> rule_guard r tx = false) ->
  extractEvernodeEvent rt self tx = Returned None.
Proof.
  intros Hno. rewrite extract_dispatch.
  destruct (find _ _) as [r |] eqn:E; [| reflexivity].
  apply find_some in E as [Hin Hg]. rewrite (Hno r Hin) in Hg. discriminate.
Qed.

Lemma matching_at_most_one (tx : Tx) :
  (List.length (matching rt self tx) <= 1)%nat.
Proof.
  unfold matching.
  destruct (filter _ _) as [| a [| b l]] eqn:E; simpl; try lia.
  assert (Ha : In a (filter (fun r => rule_guard r tx) (rules rt self)))
    by (rewrite E; now left).
  assert (Hb : In b (filter (fun r => rule_guard r tx) (rules rt self)))
    by (rewrite E; right; now left).
  apply filter_In in Ha as [Ina Ga], Hb as [Inb Gb].
  pose proof (rules_exclusive tx a b Ina Inb Ga Gb) as ->.
  assert (Hnd : NoDup (filter (fun r => rule_guard r tx) (rules rt self))).
  { apply NoDup_filter. eapply NoDup_map_inv. apply rule_types_distinct. }
  rewrite E in Hnd. inversion Hnd as [| ? ? Hnot _]; subst.
  exfalso. apply Hnot. now left.
Qed.

(** A branch that decodes nothing returns its event. *)
Lemma plain_branch_returns (tx : Tx) (r : Rule) :
  In r (rules rt self) -> In (rule_type r) plain_types ->
  exists ev, rule_body r tx = Returned (Some ev).
Proof.
  intros Hin Hty. unfold rules in Hin.
  repeat (destruct Hin as [<- | Hin];
          [ cbn [rule_type rule_body] in *;
            first [ eexists; reflexivity
                  | exfalso; cbn in Hty;
                    repeat (destruct Hty as [Hty | Hty]; [discriminate Hty |]);
                    exact Hty ]
          | ]).
  contradiction.
Qed.

End WithRuntime.

(** C1 (amended): for every transaction whose memo list and hook-parameter
    list are deserialized, at most one dispatch predicate of
    [extractEvernodeEvent] holds; when none holds the result is null and
    nothing is thrown; when one holds, the outcome is the outcome of that
    branch alone: one typed event, null, or an exception raised while a
    payload is decoded; the branches that decode nothing (host registration
    and its update, rebate, initialization, lease termination, candidate
    proposal and withdrawal, child hook update) always return their event.
    An exception of the classifier is caught by [#handleEvernodeEvent],
    which then emits nothing. *)
Theorem C1_classifier_single_outcome (rt : Runtime) (self : Client) (tx : Tx) :
  (List.length (matching rt self tx) <= 1)%nat
  /\ (forall r1 r2, In r1 (rules rt self) -> In r2 (rules rt self) ->
        rule_guard r1 tx = true -> rule_guard r2 tx = true -> r1 = r2)
  /\ ((forall r, In r (rules rt self) -> rule_guard r tx = false) ->
      extractEvernodeEvent rt self tx = Returned None)
  /\ (forall r, In r (rules rt self) -> rule_guard r tx = true ->
        extractEvernodeEvent rt self tx = rule_body r tx)
  /\ (forall r, In r (rules rt self) -> rule_guard r tx = true ->
        In (rule_type r) plain_types ->
        exists ev, extractEvernodeEvent rt self tx = Returned (Some ev))
  /\ (forall e watchEvents, extractEvernodeEvent rt self tx = Thrown e ->
        handleEvernodeEvent rt self watchEvents tx = None).
Proof.
  split; [apply matching_at_most_one |].
  split; [apply rules_exclusive |].
  split; [apply extract_no_rule |].
  split; [intros r; apply extract_of_rule |].
  split.
  { intros r Hin Hg Hty. rewrite (extract_of_rule rt self tx r Hin Hg).
    apply (plain_branch_returns rt self); assumption. }
  intros e ws H. unfold handleEvernodeEvent. rewrite H. reflexivity.
Qed.

(** C1 as stated fails: a heartbeat whose event data is one byte long makes
    the classifier read the vote byte at offset 32 of a one-byte buffer, and
    the read throws. *)
Lemma C1_counterexample_heartbeat_throws :
  extractEvernodeEvent Reference.runtime Reference.host_client Examples.heartbeat_one_byte
  = Thrown RangeError.
Proof. vm_compute. reflexivity. Qed.

End DispatchFacts.

(** ** Branches of the classifier *)

Module EventFacts.

Import Classifier.
Import DispatchFacts.

(** Membership in the rule table, by position. *)
Ltac in_rules := unfold rules; repeat first [left; reflexivity | right].

Lemma readUInt8_in_range (l : list byte) (off : nat) :
  (off < List.length l)%nat -> Buf.readUInt8 l off = Returned (Buf.byteZ (nth off l x00)).
Proof.
  intros H. unfold Buf.readUInt8.
  rewrite (nth_error_nth' l x00 H). reflexivity.
Qed.

Lemma readInt8_flag_one (l : list byte) :
  hd_error l = Some x01 -> Buf.readInt8 (Buf.slice 0 1 l) 0 = Returned 1.
Proof. destruct l as [| b l]; simpl; [discriminate | intros [= ->]; reflexivity]. Qed.

Lemma paramBuf_length (h k u s : list byte) :
  List.length (Propose.paramBuf h k u s) = CANDIDATE_PROPOSE_PARAM_SIZE.
Proof.
  unfold Propose.paramBuf. rewrite !BufFacts.copy_length. apply BufFacts.alloc_length.
Qed.

(** With fields of the advertised sizes the parameter buffer is their
    concatenation, a shorter short name being padded with zero bytes. *)
Lemma paramBuf_layout (h k u s : list byte) :
  List.length h = 128%nat -> List.length k = 136%nat -> List.length u = 32%nat ->
  (List.length s <= 20)%nat ->
  Propose.paramBuf h k u s = h ++ k ++ u ++ s ++ repeat x00 (20 - List.length s).
Proof.
  intros Hh Hk Hu Hs. unfold Propose.paramBuf.
  unfold CANDIDATE_PROPOSE_HASHES_PARAM_OFFSET, CANDIDATE_PROPOSE_KEYLETS_PARAM_OFFSET,
    CANDIDATE_PROPOSE_UNIQUE_ID_PARAM_OFFSET, CANDIDATE_PROPOSE_SHORT_NAME_PARAM_OFFSET,
    CANDIDATE_PROPOSE_PARAM_SIZE, Buf.alloc.
  change (repeat x00 316) with ([] ++ repeat x00 316).
  rewrite (BufFacts.copy_at h [] (repeat x00 316) 0)
    by (rewrite ?repeat_length; simpl; lia).
  rewrite BufFacts.skipn_repeat, Hh. rewrite app_nil_l.
  rewrite (BufFacts.copy_at k h (repeat x00 (316 - 128)) 128)
    by (rewrite ?repeat_length; simpl; lia).
  rewrite BufFacts.skipn_repeat, Hk.
  rewrite (app_assoc h k).
  rewrite (BufFacts.copy_at u (h ++ k) (repeat x00 (316 - 128 - 136)) 264)
    by (rewrite ?length_app, ?repeat_length; simpl; lia).
  rewrite BufFacts.skipn_repeat, Hu.
  rewrite (app_assoc (h ++ k) u).
  rewrite (BufFacts.copy_at s ((h ++ k) ++ u) (repeat x00 (316 - 128 - 136 - 32)) 296)
    by (rewrite ?length_app, ?repeat_length; simpl; lia).
  rewrite <- !app_assoc.
  rewrite BufFacts.skipn_repeat. reflexivity.
Qed.

(** The two parameter values, concatenated and decoded, are the parameter
    buffer again. *)
Lemma reassemble_hookParams (buf : list byte) :
  Propose.reassemble
    (Buf.toUpperCase (Buf.to_hex (Buf.slice 0 MAX_HOOK_PARAM_SIZE buf)))
    (Buf.toUpperCase (Buf.to_hex (Buf.slice_from MAX_HOOK_PARAM_SIZE buf)))
  = buf.
Proof.
  unfold Propose.reassemble.
  rewrite BufFacts.from_hex_upper_app, BufFacts.from_hex_to_hex_upper.
  unfold Buf.slice, Buf.slice_from. rewrite Nat.sub_0_r. simpl skipn at 1.
  apply firstn_skipn.
Qed.

(** Round trip of the parameter buffer: built from fields of 128, 136, 32
    and 20 bytes, cut at byte 256, put together and decoded, it gives the
    four fields back. *)
Lemma propose_round_trip (h k u s : list byte) :
  List.length h = 128%nat -> List.length k = 136%nat -> List.length u = 32%nat ->
  List.length s = 20%nat ->
  let buf := Propose.paramBuf h k u s in
  let back :=
    Propose.reassemble
      (Buf.toUpperCase (Buf.to_hex (Buf.slice 0 MAX_HOOK_PARAM_SIZE buf)))
      (Buf.toUpperCase (Buf.to_hex (Buf.slice_from MAX_HOOK_PARAM_SIZE buf))) in
  Propose.decoded_hashes back = h /\ Propose.decoded_keylets back = k
  /\ Propose.decoded_uniqueId back = u /\ Propose.decoded_shortName back = s.
Proof.
  intros Hh Hk Hu Hs buf back. subst back. rewrite reassemble_hookParams.
  subst buf. rewrite paramBuf_layout by lia.
  rewrite Hs. simpl repeat. rewrite app_nil_r.
  unfold Propose.decoded_hashes, Propose.decoded_keylets, Propose.decoded_uniqueId,
    Propose.decoded_shortName.
  unfold CANDIDATE_PROPOSE_HASHES_PARAM_OFFSET, CANDIDATE_PROPOSE_KEYLETS_PARAM_OFFSET,
    CANDIDATE_PROPOSE_UNIQUE_ID_PARAM_OFFSET, CANDIDATE_PROPOSE_SHORT_NAME_PARAM_OFFSET,
    CANDIDATE_PROPOSE_PARAM_SIZE.
  repeat split.
  - rewrite <- Hh. apply BufFacts.slice_prefix.
  - apply (BufFacts.slice_behind h k (u ++ s)); lia.
  - rewrite (app_assoc h k).
    apply (BufFacts.slice_behind (h ++ k) u s); rewrite ?length_app; lia.
  - replace (h ++ k ++ u ++ s) with ((h ++ k ++ u) ++ s ++ [])
      by (rewrite app_nil_r, <- !app_assoc; reflexivity).
    apply (BufFacts.slice_behind (h ++ k ++ u) s []); rewrite ?length_app; lia.
Qed.

Lemma with_params_type (tx : Tx) (ty d : string) :
  eventType_of (Examples.with_params tx (Examples.event_params ty d)) = Some ty.
Proof. reflexivity. Qed.

Lemma with_params_data (tx : Tx) (ty d : string) :
  eventData_of (Examples.with_params tx (Examples.event_params ty d)) = Some d.
Proof. reflexivity. Qed.

Lemma is_type_refl (tx : Tx) (ty : string) :
  eventType_of tx = Some ty -> is_type tx ty = true.
Proof. intros H. unfold is_type. rewrite H. simpl. apply String.eqb_refl. Qed.

Lemma is_type_with_data_intro (tx : Tx) (ty d : string) :
  eventType_of tx = Some ty -> eventData_of tx = Some d ->
  (0 < String.length d)%nat -> is_type_with_data tx ty = true.
Proof.
  intros Ht Hd Hlen. unfold is_type_with_data.
  rewrite (is_type_refl tx ty Ht), Hd. simpl.
  now rewrite BufFacts.nonempty_text.
Qed.

(** *** Host deregistration *)

(** Whatever the event data, its hex text has an even number of
    characters, so its length is never 53 and the host is the sender. *)
Lemma host_dereg_of_payload (rt : Runtime) (self : Client) (b : byte) (rest : list byte) :
  let tx := Examples.hook_tx EventTypes.HOST_DEREG
              (Buf.toUpperCase (Buf.to_hex (b :: rest))) in
  extractEvernodeEvent rt self tx = event HostDeregistered tx [ ("host", Account tx) ].
Proof.
  intros tx.
  assert (Hlen : String.length (Buf.toUpperCase (Buf.to_hex (b :: rest)))
                 = (2 * List.length (b :: rest))%nat)
    by (rewrite BufFacts.toUpperCase_length; apply BufFacts.to_hex_length).
  rewrite (extract_of_rule rt self tx
             {| rule_type := EventTypes.HOST_DEREG; rule_guard := g_host_dereg;
                rule_body := b_host_dereg rt |}); [| in_rules |].
  - cbn [rule_body]. unfold b_host_dereg.
    change (eventData_text tx) with (Buf.toUpperCase (Buf.to_hex (b :: rest))).
    rewrite Hlen.
    replace (2 * List.length (b :: rest) =? HOST_DEREG_FROM_REP_PARAM_SIZE)%nat
      with false; [reflexivity |].
    symmetry. apply Nat.eqb_neq. unfold HOST_DEREG_FROM_REP_PARAM_SIZE. lia.
  - cbn [rule_guard]. unfold g_host_dereg.
    apply (is_type_with_data_intro tx _ (Buf.toUpperCase (Buf.to_hex (b :: rest))));
      [reflexivity | reflexivity |].
    rewrite Hlen. simpl. lia.
Qed.

(** C2 (the code at the failing input): for a host deregistration whose
    event payload is 53 bytes long, host address first, the reported host is
    the sending account of the transaction, not the address in the payload.
    The classifier compares the length of the hex text of the payload, 106
    characters, with 53.  The same holds for a payload of any length. *)
Theorem C2_host_dereg_53_bytes_reports_sender (rt : Runtime) (self : Client) :
  List.length Examples.dereg_payload = HOST_DEREG_FROM_REP_PARAM_SIZE
  /\ extractEvernodeEvent rt self Examples.host_dereg_from_reputation
     = event HostDeregistered Examples.host_dereg_from_reputation
         [ ("host", JStr "rSender") ]
  /\ (forall (b : byte) (rest : list byte),
        let tx := Examples.hook_tx EventTypes.HOST_DEREG
                    (Buf.toUpperCase (Buf.to_hex (b :: rest))) in
        extractEvernodeEvent rt self tx
        = event HostDeregistered tx [ ("host", Account tx) ]).
Proof.
  split; [reflexivity |]. split.
  - exact (host_dereg_of_payload rt self x01 (skipn 1 Examples.dereg_payload)).
  - apply host_dereg_of_payload.
Qed.

(** The branch does decode the first 20 bytes once the text is 53
    characters long, which is 26 bytes and a dangling digit. *)
Lemma host_dereg_53_characters :
  extractEvernodeEvent Reference.runtime Reference.host_client
    (Examples.hook_tx EventTypes.HOST_DEREG
       (Buf.toUpperCase (Buf.to_hex (Examples.account_id ++ repeat xee 6)) ++ "E"))
  = event HostDeregistered
      (Examples.hook_tx EventTypes.HOST_DEREG
         (Buf.toUpperCase (Buf.to_hex (Examples.account_id ++ repeat xee 6)) ++ "E"))
      [ ("host", JStr (Reference.base58_account Examples.account_id)) ].
Proof. vm_compute. reflexivity. Qed.

(** *** Candidate proposal *)

(** C3 (the code at the failing input): for the hook parameters that
    [_propose] builds, whatever the hashes, keylets and short name, the
    CandidateProposed event of the classifier carries the empty text as
    [candidateId].  The classifier reads the first parameter value only,
    256 bytes or 512 characters, and the unique id starts at character 528. *)
Theorem C3_proposed_candidate_id_is_empty (rt : Runtime) (self : Client)
    (hashes : string) (keylets : list string) (shortName : string) (tx : Tx) :
  match Propose._propose rt hashes keylets shortName with
  | Returned (params, uniqueId) =>
      extractEvernodeEvent rt self (Examples.with_params tx params)
      = event CandidateProposed (Examples.with_params tx params)
          [ ("owner", Account tx); ("candidateId", JStr "") ]
  | Thrown _ => True
  end.
Proof.
  unfold Propose._propose.
  destruct (negb _); [exact I |].
  set (buf := Propose.paramBuf _ _ _ _).
  set (tx' := Examples.with_params tx (Propose.hookParams buf)).
  set (data := Buf.toUpperCase (Buf.to_hex (Buf.slice 0 MAX_HOOK_PARAM_SIZE buf))).
  assert (Hlen : String.length data = 512%nat).
  { subst data. rewrite BufFacts.toUpperCase_length, BufFacts.to_hex_length.
    rewrite BufFacts.slice_length; [reflexivity |].
    subst buf. rewrite paramBuf_length. unfold MAX_HOOK_PARAM_SIZE, CANDIDATE_PROPOSE_PARAM_SIZE. lia. }
  assert (Hty : eventType_of tx' = Some EventTypes.CANDIDATE_PROPOSE) by reflexivity.
  assert (Hdata : eventData_of tx' = Some data) by reflexivity.
  rewrite (extract_of_rule rt self tx'
             {| rule_type := EventTypes.CANDIDATE_PROPOSE;
                rule_guard := g_candidate_propose;
                rule_body := b_candidate_propose |}); [| in_rules |].
  - cbn [rule_body]. unfold b_candidate_propose, eventData_text. rewrite Hdata.
    rewrite BufFacts.substr_past_end; [reflexivity |].
    rewrite Hlen. unfold CANDIDATE_PROPOSE_UNIQUE_ID_PARAM_OFFSET. lia.
  - cbn [rule_guard]. unfold g_candidate_propose.
    apply (is_type_with_data_intro tx' _ data Hty Hdata). lia.
Qed.

(** *** Candidate status change *)

Lemma readUInt8_out_of_range (l : list byte) (off : nat) :
  (List.length l <= off)%nat -> Buf.readUInt8 l off = Thrown RangeError.
Proof.
  intros H. unfold Buf.readUInt8.
  apply nth_error_None in H. rewrite H. reflexivity.
Qed.

(** C6 (amended): for every CandidateStatusChange transaction the outcome
    is decided by what the candidate helper answers for the 32-byte
    candidate id at the start of the event data.  A DudHost id whose event
    data holds the status byte at offset 32 gives DudHostRemoved when that
    byte is CANDIDATE_ELECTED and DudHostStatusChanged otherwise, both with
    the address encoded from bytes 12..32 of the id; a DudHost id without a
    status byte makes the read of it throw; a PilotedMode id gives
    FallbackToPiloted; a NewHook id gives NewHookStatusChanged; an answer
    that is none of the three kinds gives null, the default of the switch.
    When the helper answers one of the three kinds for every id, every id
    that is neither DudHost nor PilotedMode gives NewHookStatusChanged. *)
Theorem C6_candidate_status_change (rt : Runtime) (self : Client) (tx : Tx) :
  g_candidate_status_change tx = true ->
  let eventDataBuf := Buf.from_hex (eventData_text tx) in
  let candidate := Buf.slice 0 32 eventDataBuf in
  let candidateId := Buf.to_hex candidate in
  let kind := getCandidateType rt candidateId in
  (kind = EvernodeConstants.CandidateTypes.DudHost ->
   (33 <= List.length eventDataBuf)%nat ->
   extractEvernodeEvent rt self tx
   = event
       (if Buf.byteZ (nth 32 eventDataBuf x00)
           =? EvernodeConstants.CandidateStatuses.CANDIDATE_ELECTED
        then DudHostRemoved else DudHostStatusChanged)
       tx
       [ ("candidateId", JStr candidateId);
         ("host", JStr (base58_account rt
                          (Buf.slice DUD_HOST_CANDID_ADDRESS_OFFSET 32 candidate))) ])
  /\ (kind = EvernodeConstants.CandidateTypes.DudHost ->
      (List.length eventDataBuf < 33)%nat ->
      extractEvernodeEvent rt self tx = Thrown RangeError)
  /\ (kind = EvernodeConstants.CandidateTypes.PilotedMode ->
      extractEvernodeEvent rt self tx
      = event FallbackToPiloted tx [ ("candidateId", JStr candidateId) ])
  /\ (kind = EvernodeConstants.CandidateTypes.NewHook ->
      extractEvernodeEvent rt self tx
      = event NewHookStatusChanged tx [ ("candidateId", JStr candidateId) ])
  /\ (kind <> EvernodeConstants.CandidateTypes.DudHost ->
      kind <> EvernodeConstants.CandidateTypes.PilotedMode ->
      kind <> EvernodeConstants.CandidateTypes.NewHook ->
      extractEvernodeEvent rt self tx = Returned None)
  /\ (CandidateIdentity.total_on_kinds rt ->
      kind <> EvernodeConstants.CandidateTypes.DudHost ->
      kind <> EvernodeConstants.CandidateTypes.PilotedMode ->
      extractEvernodeEvent rt self tx
      = event NewHookStatusChanged tx [ ("candidateId", JStr candidateId) ]).
Proof.
  intros Hg eventDataBuf candidate candidateId kind.
  rewrite (extract_of_rule rt self tx
             {| rule_type := EventTypes.CANDIDATE_STATUS_CHANGE;
                rule_guard := g_candidate_status_change;
                rule_body := b_candidate_status_change rt |}); [| in_rules | exact Hg].
  cbn [rule_body]. unfold b_candidate_status_change.
  fold eventDataBuf. fold candidate. fold candidateId. fold kind.
  repeat split.
  - intros Hk Hlen. rewrite Hk.
    change (EvernodeConstants.CandidateTypes.DudHost =? EvernodeConstants.CandidateTypes.DudHost)
      with true. cbn iota.
    rewrite readUInt8_in_range by lia. cbn [bind].
    unfold dud_host_address, candidateId. rewrite BufFacts.from_hex_to_hex.
    unfold encodeAccountID.
    rewrite BufFacts.slice_length
      by (unfold candidate; rewrite BufFacts.slice_length; lia).
    reflexivity.
  - intros Hk Hlen. rewrite Hk.
    change (EvernodeConstants.CandidateTypes.DudHost =? EvernodeConstants.CandidateTypes.DudHost)
      with true. cbn iota.
    rewrite readUInt8_out_of_range by lia. reflexivity.
  - intros Hk. rewrite Hk. reflexivity.
  - intros Hk. rewrite Hk. reflexivity.
  - intros Hnd Hnp Hnn.
    destruct (Z.eqb_spec kind EvernodeConstants.CandidateTypes.DudHost); [contradiction |].
    destruct (Z.eqb_spec kind EvernodeConstants.CandidateTypes.PilotedMode); [contradiction |].
    destruct (Z.eqb_spec kind EvernodeConstants.CandidateTypes.NewHook); [contradiction |].
    reflexivity.
  - intros Htotal Hnd Hnp.
    destruct (Htotal candidateId) as [t Ht]. fold kind in Ht.
    destruct t; cbn [CandidateIdentity.code] in Ht.
    + rewrite Ht. reflexivity.
    + contradiction.
    + contradiction.
Qed.

Lemma reference_total_on_kinds : CandidateIdentity.total_on_kinds Reference.runtime.
Proof.
  intros candidateId.
  exists (CandidateIdentity.classify Reference.dudHostPattern
            Reference.pilotedModeCandidateId (Buf.from_hex candidateId)).
  reflexivity.
Qed.

Lemma C6_candidate_status_change_witness :
  extractEvernodeEvent Reference.runtime Reference.host_client Examples.status_change_elected
  = event DudHostRemoved Examples.status_change_elected
      [ ("candidateId", JStr "0000000003000000000000000102030405060708090a0b0c0d0e0f1011121314");
        ("host", JStr (Reference.base58_account Examples.account_id)) ]
  /\ extractEvernodeEvent MoreExamples.unknown_kind_runtime Reference.host_client
       Examples.status_change_elected
     = Returned None.
Proof.
  split.
  - rewrite (proj1 (C6_candidate_status_change Reference.runtime Reference.host_client
                      Examples.status_change_elected
                      ltac:(vm_compute; reflexivity))
                   ltac:(vm_compute; reflexivity)
                   ltac:(apply Nat.leb_le; vm_compute; reflexivity)).
    vm_compute. reflexivity.
  - apply (proj1 (proj2 (proj2 (proj2 (proj2
             (C6_candidate_status_change MoreExamples.unknown_kind_runtime
                Reference.host_client Examples.status_change_elected
                ltac:(vm_compute; reflexivity)))))));
      vm_compute; discriminate.
Defined.

(** C6 as stated fails: a status change whose event data is a 32-byte
    DudHost id and nothing else makes the classifier read the status byte
    past the end of the buffer, and the read throws. *)
Lemma C6_counterexample_missing_status_byte :
  g_candidate_status_change Examples.status_change_no_status = true
  /\ getCandidateType Reference.runtime
       (Buf.to_hex (Buf.slice 0 32 (Buf.from_hex (eventData_text Examples.status_change_no_status))))
     = EvernodeConstants.CandidateTypes.DudHost
  /\ extractEvernodeEvent Reference.runtime Reference.host_client
       Examples.status_change_no_status
     = Thrown RangeError.
Proof. vm_compute. repeat split. Qed.

End EventFacts.

(** ** Lease-acquisition payloads *)

Module PayloadFacts.

Import Classifier.
Import DispatchFacts.

(** What [open_payload] leaves of an encrypted payload when no decryption
    result comes back: the base64 text of the bytes behind the flag. *)
Lemma open_payload_undecrypted (rt : Runtime) (self : Client) (payload : string)
    (decrypted : jsval) :
  hd_error (base64_decode rt payload) = Some x01 ->
  try_decrypt rt self
    (base64_encode rt (Buf.slice_from 1 (base64_decode rt payload)))
  = Returned decrypted ->
  truthy decrypted = false ->
  open_payload rt self payload
  = Returned (JStr (base64_encode rt (Buf.slice_from 1 (base64_decode rt payload)))).
Proof.
  intros Hflag Hdec Hfalsy. unfold open_payload.
  rewrite (EventFacts.readInt8_flag_one _ Hflag). cbn [bind].
  change (1 =? 1) with true. cbn iota.
  rewrite Hdec. cbn [bind]. rewrite Hfalsy. reflexivity.
Qed.

(** A client without a message key never calls the capability, and the
    result counts as no result. *)
Lemma try_decrypt_without_key (rt : Runtime) (self : Client) (payload : string) :
  messagePrivateKey self = None ->
  try_decrypt rt self payload = Returned JNull.
Proof. intros H. unfold try_decrypt. rewrite H. reflexivity. Qed.

(** C7: for a lease-acquisition memo whose decoded payload starts with the
    flag byte 1, in a transaction whose Destination is this account, when
    the decrypt capability gives no result (or the client has no key), the
    classifier returns the AcquireLease event, respectively the
    AcquireSuccess event of a base64 memo, and the payload of the event is
    the still encrypted content: the base64 text of the bytes behind the
    flag, as it was handed to the capability. *)
Theorem C7_decrypt_failure_keeps_event (rt : Runtime) (self : Client) (tx : Tx)
    (decrypted : jsval) :
  strict_eq_str (Destination tx) (address self) = true ->
  hd_error (base64_decode rt (memo0_data tx)) = Some x01 ->
  let encrypted :=
    base64_encode rt (Buf.slice_from 1 (base64_decode rt (memo0_data tx))) in
  try_decrypt rt self encrypted = Returned decrypted ->
  truthy decrypted = false ->
  (g_acquire_lease rt tx = true ->
   extractEvernodeEvent rt self tx
   = event AcquireLease tx
       [ ("host", Destination tx);
         ("uriTokenId", opt_prop (URITokenSellOffer tx) "index");
         ("leaseAmount", opt_prop (opt_prop (URITokenSellOffer tx) "Amount") "value");
         ("acquireRefId", hash tx);
         ("tenant", Account tx);
         ("payload", JStr encrypted) ])
  /\ (g_acquire_success tx = true ->
      memo0_format tx = Some MemoFormats.BASE64 ->
      extractEvernodeEvent rt self tx
      = event AcquireSuccess tx
          [ ("acquireRefId", JStr (eventData_text tx));
            ("payload", JStr encrypted) ]).
Proof.
  intros Hdest Hflag encrypted Hdec Hfalsy.
  pose proof (open_payload_undecrypted rt self (memo0_data tx) decrypted
                Hflag Hdec Hfalsy) as Hopen.
  split.
  - intros Hg.
    rewrite (extract_of_rule rt self tx
               {| rule_type := EventTypes.ACQUIRE_LEASE;
                  rule_guard := g_acquire_lease rt;
                  rule_body := b_acquire_lease rt self |});
      [| EventFacts.in_rules | exact Hg].
    cbn [rule_body]. unfold b_acquire_lease.
    assert (Hfmt : opt_eq_str (memo0_format tx) MemoFormats.BASE64 = true).
    { unfold g_acquire_lease, memo0_typed_fmt in Hg. unfold memo0_format.
      destruct (Memos tx) as [| m ms].
      - rewrite andb_false_r in Hg. discriminate.
      - apply andb_true_iff in Hg as [_ Hm]. apply andb_true_iff in Hm as [Hm _].
        apply andb_true_iff in Hm as [_ Hm]. exact Hm. }
    rewrite Hfmt, Hdest. cbn [andb]. rewrite Hopen. reflexivity.
  - intros Hg Hfmt.
    rewrite (extract_of_rule rt self tx
               {| rule_type := EventTypes.ACQUIRE_SUCCESS;
                  rule_guard := g_acquire_success;
                  rule_body := b_acquire_success rt self |});
      [| EventFacts.in_rules | exact Hg].
    cbn [rule_body]. unfold b_acquire_success.
    rewrite Hfmt, Hdest. cbn [opt_eq_str]. rewrite String.eqb_refl. cbn [andb].
    rewrite Hopen. reflexivity.
Qed.

Lemma C7_decrypt_failure_keeps_event_witness :
  extractEvernodeEvent Reference.runtime Reference.host_client Examples.acquire_lease_tx
  = event AcquireLease Examples.acquire_lease_tx
      [ ("host", JStr "rHostAccount"); ("uriTokenId", JUndefined);
        ("leaseAmount", JUndefined); ("acquireRefId", JStr "HASH");
        ("tenant", JStr "rTenant"); ("payload", JStr "YWI=") ]
  /\ extractEvernodeEvent Reference.runtime Reference.host_client Examples.acquire_success_tx
     = event AcquireSuccess Examples.acquire_success_tx
         [ ("acquireRefId", JStr "ABCD"); ("payload", JStr "YWI=") ].
Proof.
  split.
  - exact (proj1 (C7_decrypt_failure_keeps_event Reference.runtime Reference.host_client
                    Examples.acquire_lease_tx JNull eq_refl eq_refl eq_refl eq_refl)
                 eq_refl).
  - exact (proj2 (C7_decrypt_failure_keeps_event Reference.runtime Reference.host_client
                    Examples.acquire_success_tx JNull eq_refl eq_refl eq_refl eq_refl)
                 eq_refl eq_refl).
Defined.

End PayloadFacts.

(** ** Reputation contract info *)

Module ReputationFacts.

Import Reputation.
Import ReputationConstants.

Lemma read_bytes_in_range (l : list byte) (off n : nat) :
  (off + n <= List.length l)%nat ->
  Buf.read_bytes l off n = Returned (Buf.slice off (off + n) l).
Proof.
  intros H. unfold Buf.read_bytes, Buf.slice.
  destruct (Nat.leb_spec (off + n) (List.length l)); [| lia].
  replace (off + n - off)%nat with n by lia. reflexivity.
Qed.

Lemma read_bytes_out_of_range (l : list byte) (off n : nat) :
  (List.length l < off + n)%nat -> Buf.read_bytes l off n = Thrown RangeError.
Proof.
  intros H. unfold Buf.read_bytes.
  destruct (Nat.leb_spec (off + n) (List.length l)); [lia | reflexivity].
Qed.

(** The little-endian value of two and of eight bytes, written out. *)
Lemma le_value_2 (b0 b1 : byte) :
  Buf.le_value [b0; b1] = Buf.byteZ b0 + 256 * Buf.byteZ b1.
Proof. cbn [Buf.le_value]. lia. Qed.

Lemma le_value_8 (b0 b1 b2 b3 b4 b5 b6 b7 : byte) :
  Buf.le_value [b0; b1; b2; b3; b4; b5; b6; b7]
  = Buf.byteZ b0 + 2 ^ 8 * Buf.byteZ b1 + 2 ^ 16 * Buf.byteZ b2
    + 2 ^ 24 * Buf.byteZ b3 + 2 ^ 32 * Buf.byteZ b4 + 2 ^ 40 * Buf.byteZ b5
    + 2 ^ 48 * Buf.byteZ b6 + 2 ^ 56 * Buf.byteZ b7.
Proof. cbn [Buf.le_value]. lia. Qed.

(** C8: the contract-info block reads [pubkey] as the hex text of bytes
    [0, 33), [peerPort] as the little-endian 16-bit integer at offset 33 and
    [instanceMoment] as the little-endian 64-bit integer at offset 35 (as a
    Number); the moment is read only from a buffer longer than 35 bytes (a
    buffer of at most 35 bytes decodes to null, one of 36 to 42 bytes makes
    the 8-byte read throw), and the decoded record is returned only when
    [instanceMoment] is the moment asked for.  The 43-byte buffer
    [33 x AB || 01 00 || 05 00 00 00 00 00 00 00] decodes to peerPort 1 and
    instanceMoment 5. *)
Theorem C8_reputation_contract_info (dom : jsval) (repBuf : list byte) (repMoment : Z) :
  ((List.length repBuf <= REP_INFO_MOMENT_OFFSET)%nat ->
   instanceMoment repBuf = Returned None
   /\ contractInfo dom repBuf repMoment = Returned None)
  /\ ((REP_INFO_MOMENT_OFFSET < List.length repBuf < REP_INFO_BUFFER_SIZE)%nat ->
      contractInfo dom repBuf repMoment = Thrown RangeError)
  /\ ((REP_INFO_BUFFER_SIZE <= List.length repBuf)%nat ->
      let moment :=
        Buf.Number_of_BigInt (Buf.le_value (Buf.slice 35 43 repBuf)) in
      instanceMoment repBuf = Returned (Some moment)
      /\ contractInfo dom repBuf repMoment
         = if moment =? repMoment then
             Returned (Some {| domain := dom;
                               pubkey := Buf.to_hex (Buf.slice 0 33 repBuf);
                               peerPort := Buf.le_value (Buf.slice 33 35 repBuf) |})
           else Returned None)
  /\ List.length Examples.rep_info_buffer = REP_INFO_BUFFER_SIZE
  /\ instanceMoment Examples.rep_info_buffer = Returned (Some 5)
  /\ contractInfo dom Examples.rep_info_buffer 5
     = Returned (Some {| domain := dom;
                         pubkey := "ababababababababababababababababababababababababababababababababab";
                         peerPort := 1 |})
  /\ contractInfo dom Examples.rep_info_buffer 6 = Returned None.
Proof.
  split; [| split; [| split]].
  - unfold REP_INFO_MOMENT_OFFSET. intros Hlen. unfold contractInfo, instanceMoment, REP_INFO_MOMENT_OFFSET.
    destruct (Nat.ltb_spec 35 (List.length repBuf)); [lia |]. split; reflexivity.
  - unfold REP_INFO_MOMENT_OFFSET, REP_INFO_BUFFER_SIZE. intros Hlen.
    unfold contractInfo, instanceMoment, REP_INFO_MOMENT_OFFSET.
    destruct (Nat.ltb_spec 35 (List.length repBuf)); [| lia].
    unfold Buf.readBigUInt64LE. rewrite read_bytes_out_of_range by lia.
    reflexivity.
  - intros Hlen moment. unfold REP_INFO_BUFFER_SIZE in Hlen.
    assert (Him : instanceMoment repBuf = Returned (Some moment)).
    { unfold instanceMoment, REP_INFO_MOMENT_OFFSET.
      destruct (Nat.ltb_spec 35 (List.length repBuf)); [| lia].
      unfold Buf.readBigUInt64LE. rewrite read_bytes_in_range by lia.
      reflexivity. }
    split; [exact Him |].
    unfold contractInfo. rewrite Him. cbn [bind].
    destruct (moment =? repMoment); [| reflexivity].
    unfold Buf.readUInt16LE, REP_INFO_PEER_PORT_OFFSET.
    rewrite read_bytes_in_range by lia. reflexivity.
  - split; [reflexivity |]. split; [vm_compute; reflexivity |].
    split; vm_compute; reflexivity.
Qed.

End ReputationFacts.

(** ** The memo generation: candidate status change *)

Module LegacyFacts.

Import Legacy.

Lemma memo_is_unique (tx : Tx) (i : nat) (a b : string) :
  memo_is tx i a = true -> memo_is tx i b = true -> a = b.
Proof.
  unfold memo_is. destruct (nth_error (Memos tx) i) as [m |]; [| discriminate].
  apply DispatchFacts.opt_eq_str_inj.
Qed.

Lemma hex_memo_type (tx : Tx) (ty : string) :
  hex_memo tx ty = true -> memo_is tx 0 ty = true.
Proof.
  unfold hex_memo. intros H.
  repeat (apply andb_true_iff in H; destruct H as [H ?]). assumption.
Qed.

Section Chain.

Variable rt : Runtime.
Variable lc : Constants.
Variable self : Client.
Variable tx : Tx.

Hypothesis status_change : g_candidate_status_change lc tx = true.
Hypothesis nothing_ahead :
  ~ In (CANDIDATE_STATUS_CHANGE lc) (types_ahead_of_status_change lc).

(** A predicate that asks the first memo for another type is off. *)
Lemma other_type_off (ty : string) :
  In ty (types_ahead_of_status_change lc) -> memo_is tx 0 ty = false.
Proof.
  intros Hin. destruct (memo_is tx 0 ty) eqn:E; [| reflexivity].
  exfalso. apply nothing_ahead.
  rewrite (memo_is_unique tx 0 _ _ (hex_memo_type _ _ status_change) E).
  exact Hin.
Qed.

Ltac ahead := unfold types_ahead_of_status_change; repeat first [left; reflexivity | right].

Ltac off g ty :=
  replace g with false;
  [ | symmetry; unfold g_acquire_lease, g_host_post_dereg, g_acquire_success,
        g_acquire_error, g_host_reg, g_host_dereg, g_heartbeat, g_extend_lease,
        g_extend_success, g_extend_error, g_init, g_host_update_info,
        g_dead_host_prune, g_host_rebate, g_host_transfer, g_candidate_propose,
        g_candidate_withdraw, hex_memo;
      rewrite (other_type_off ty) by ahead;
      rewrite ?andb_false_r; reflexivity ].

(** The chain reaches the candidate-status-change branch. *)
Lemma chain_reaches_status_change :
  extractEvernodeEvent rt lc self tx = b_candidate_status_change rt lc tx.
Proof.
  unfold extractEvernodeEvent.
  off (g_acquire_lease lc tx) (ACQUIRE_LEASE lc).
  off (g_host_post_dereg lc tx) (HOST_POST_DEREG lc).
  off (g_acquire_success lc tx) (ACQUIRE_SUCCESS lc).
  off (g_acquire_error lc tx) (ACQUIRE_ERROR lc).
  off (g_host_reg lc tx) (HOST_REG lc).
  off (g_host_dereg lc tx) (HOST_DEREG lc).
  off (g_heartbeat lc tx) (HEARTBEAT lc).
  off (g_extend_lease lc tx) (EXTEND_LEASE lc).
  off (g_extend_success lc tx) (EXTEND_SUCCESS lc).
  off (g_extend_error lc tx) (EXTEND_ERROR lc).
  off (g_init lc tx) (INIT lc).
  off (g_host_update_info lc tx) (HOST_UPDATE_INFO lc).
  off (g_dead_host_prune lc tx) (DEAD_HOST_PRUNE lc).
  off (g_host_rebate lc tx) (HOST_REBATE lc).
  off (g_host_transfer lc tx) (HOST_TRANSFER lc).
  off (g_candidate_propose lc tx) (CANDIDATE_PROPOSE lc).
  off (g_candidate_withdraw lc tx) (CANDIDATE_WITHDRAW lc).
  rewrite status_change. reflexivity.
Qed.

End Chain.

(** C9 (the code at the failing input): in the memo generation, a status
    change for a DudHost candidate id hands the 20 bytes at offset 12 of the
    id to [codec.decodeAccountID], the direction from address text to
    bytes.  Whatever the codec does with a buffer, the classifier never
    reports the address text of those bytes as the host: it throws what the
    codec throws, or reports a buffer. *)
Theorem C9_legacy_dud_host_goes_through_decoder (rt : Runtime) (lc : Constants)
    (self : Client) (tx : Tx) :
  g_candidate_status_change lc tx = true ->
  ~ In (CANDIDATE_STATUS_CHANGE lc) (types_ahead_of_status_change lc) ->
  let candidateId := Buf.substr 0 64 (memo_text tx 0) in
  let raw := Buf.slice 12 32 (Buf.from_hex candidateId) in
  is_case (getCandidateType rt candidateId) (CandidateTypes_DudHost lc) = true ->
  extractEvernodeEvent rt lc self tx
  = (host <- decodeAccountID rt (JBuf raw) ;;
     event DudHostRemoved tx
       [ ("candidateId", JStr candidateId); ("host", JBuf host) ])
  /\ (forall ev, extractEvernodeEvent rt lc self tx = Returned (Some ev) ->
        exists host, lookup_field "host" (data ev) = JBuf host)
  /\ extractEvernodeEvent rt lc self tx
     <> event DudHostRemoved tx
          [ ("candidateId", JStr candidateId);
            ("host", JStr (base58_account rt raw)) ].
Proof.
  intros Hg Hahead candidateId raw Hdud.
  rewrite (chain_reaches_status_change rt lc self tx Hg Hahead).
  assert (E : b_candidate_status_change rt lc tx
              = (host <- decodeAccountID rt (JBuf raw) ;;
                 event DudHostRemoved tx
                   [ ("candidateId", JStr candidateId); ("host", JBuf host) ])).
  { unfold b_candidate_status_change. fold candidateId. rewrite Hdud. reflexivity. }
  split; [exact E |]. rewrite E.
  destruct (decodeAccountID rt (JBuf raw)) as [host | e]; cbn [bind]; unfold event.
  - split.
    + intros ev [= <-]. exists host. reflexivity.
    + intros [=].
  - split; [intros ev H | intros H]; discriminate H.
Qed.

Lemma legacy_nothing_ahead :
  ~ In (CANDIDATE_STATUS_CHANGE Examples.legacy_constants)
       (types_ahead_of_status_change Examples.legacy_constants).
Proof.
  intros H. cbn in H.
  repeat (destruct H as [H | H]; [discriminate H |]). exact H.
Qed.

Lemma C9_legacy_dud_host_goes_through_decoder_witness :
  extractEvernodeEvent Reference.runtime Examples.legacy_constants
    Examples.legacy_client Examples.legacy_status_change
  = Thrown TypeError.
Proof.
  rewrite (proj1 (C9_legacy_dud_host_goes_through_decoder Reference.runtime
                    Examples.legacy_constants Examples.legacy_client
                    Examples.legacy_status_change eq_refl legacy_nothing_ahead
                    eq_refl)).
  reflexivity.
Defined.

(** The hook-parameter generation encodes the same 20 bytes. *)
Lemma current_dud_host_is_encoded :
  Classifier.dud_host_address Reference.runtime Examples.dud_host_id
  = Returned (Reference.base58_account Examples.account_id).
Proof. vm_compute. reflexivity. Qed.

End LegacyFacts.

(** ** Moment windows and host activity *)

Module WindowFacts.

Import Moment.

(** The two results for a supplied timestamp other than 0, and the bounds
    of the floor quotient in them. *)
Lemma supplied_timestamp (config : Config) (now t : Z) :
  0 < momentSize config -> t <> 0 ->
  let q := (t - baseIdx (momentBaseInfo config)) / momentSize config in
  getMoment config now (Some t) = baseTransitionMoment (momentBaseInfo config) + q
  /\ getMomentStartIndex config now (Some t)
     = baseIdx (momentBaseInfo config) + q * momentSize config
  /\ q * momentSize config <= t - baseIdx (momentBaseInfo config)
     < (q + 1) * momentSize config.
Proof.
  intros Hm Ht q. unfold getMoment, getMomentStartIndex.
  rewrite (MomentFacts.index_or_now_given t now Ht). fold q.
  split; [reflexivity |]. split; [reflexivity |]. subst q.
  pose proof (Z.mul_div_le (t - baseIdx (momentBaseInfo config)) (momentSize config) Hm).
  pose proof (Z.mul_succ_div_gt (t - baseIdx (momentBaseInfo config)) (momentSize config) Hm).
  lia.
Qed.

(** X1: a timestamp lies in its own moment window. *)
Theorem moment_window_contains (config : Config) (now now' t : Z) :
  0 < momentSize config ->
  t <> 0 ->
  let start := getMomentStartIndex config now (Some t) in
  start <= t < start + momentSize config
  /\ (start <> 0 -> getMoment config now' (Some start) = getMoment config now (Some t)).
Proof.
  intros Hm Ht start.
  pose proof (supplied_timestamp config now t Hm Ht) as [_ [Hs Hq]].
  cbv zeta in Hs, Hq. fold start in Hs.
  split; [lia |].
  intros Hs0. unfold getMoment.
  rewrite (MomentFacts.index_or_now_given start now' Hs0),
          (MomentFacts.index_or_now_given t now Ht).
  rewrite Hs. rewrite MomentFacts.start_of_start by exact Hm. reflexivity.
Qed.

Lemma moment_window_contains_witness :
  getMomentStartIndex Examples.cfg3600 7 (Some 1700005000) <= 1700005000
    < getMomentStartIndex Examples.cfg3600 7 (Some 1700005000) + 3600
  /\ getMoment Examples.cfg3600 9 (Some (getMomentStartIndex Examples.cfg3600 7 (Some 1700005000)))
     = getMoment Examples.cfg3600 7 (Some 1700005000).
Proof.
  pose proof (moment_window_contains Examples.cfg3600 7 9 1700005000
                ltac:(reflexivity) ltac:(discriminate)) as [H1 H2].
  split; [exact H1 | apply H2; discriminate].
Defined.

(** X2: moving a timestamp by [k] whole moments moves its moment by [k] and
    its window start by [k * momentSize]. *)
Theorem moment_shift (config : Config) (now now' t k : Z) :
  0 < momentSize config ->
  t <> 0 -> t + k * momentSize config <> 0 ->
  getMoment config now' (Some (t + k * momentSize config))
  = getMoment config now (Some t) + k
  /\ getMomentStartIndex config now' (Some (t + k * momentSize config))
     = getMomentStartIndex config now (Some t) + k * momentSize config.
Proof.
  intros Hm Ht Htk. unfold getMoment, getMomentStartIndex.
  rewrite (MomentFacts.index_or_now_given _ now' Htk),
          (MomentFacts.index_or_now_given t now Ht).
  replace (t + k * momentSize config - baseIdx (momentBaseInfo config))
    with (t - baseIdx (momentBaseInfo config) + k * momentSize config) by ring.
  rewrite Z.div_add by lia. split; ring.
Qed.

Lemma moment_shift_witness :
  getMoment Examples.cfg3600 1 (Some (1700005000 + 3 * 3600))
  = getMoment Examples.cfg3600 2 (Some 1700005000) + 3
  /\ getMomentStartIndex Examples.cfg3600 1 (Some (1700005000 + 3 * 3600))
     = getMomentStartIndex Examples.cfg3600 2 (Some 1700005000) + 3 * 3600.
Proof.
  exact (moment_shift Examples.cfg3600 2 1 1700005000 3
           ltac:(reflexivity) ltac:(discriminate) ltac:(discriminate)).
Defined.

(** X3: two supplied timestamps have the same moment exactly when they have
    the same window start, and then they are less than a moment apart. *)
Theorem same_moment_same_window (config : Config) (now now' t t' : Z) :
  0 < momentSize config ->
  t <> 0 -> t' <> 0 ->
  (getMoment config now (Some t) = getMoment config now' (Some t')
   <-> getMomentStartIndex config now (Some t) = getMomentStartIndex config now' (Some t'))
  /\ (getMoment config now (Some t) = getMoment config now' (Some t') ->
      Z.abs (t - t') < momentSize config).
Proof.
  intros Hm Ht Ht'.
  pose proof (supplied_timestamp config now t Hm Ht) as [H1 [H2 H3]].
  pose proof (supplied_timestamp config now' t' Hm Ht') as [H1' [H2' H3']].
  cbv zeta in *. rewrite H1, H2, H1', H2'.
  set (q := (t - baseIdx (momentBaseInfo config)) / momentSize config) in *.
  set (q' := (t' - baseIdx (momentBaseInfo config)) / momentSize config) in *.
  split; [split |].
  - intros E. assert (q = q') as -> by lia. reflexivity.
  - intros E. assert (q * momentSize config = q' * momentSize config) as E' by lia.
    apply Z.mul_cancel_r in E'; lia.
  - intros E. assert (q = q') as Eq by lia. rewrite Eq in H3. lia.
Qed.

Lemma same_moment_same_window_witness :
  getMoment Examples.cfg10 1 (Some 21) = getMoment Examples.cfg10 2 (Some 29)
  /\ getMomentStartIndex Examples.cfg10 1 (Some 21) = getMomentStartIndex Examples.cfg10 2 (Some 29)
  /\ Z.abs (21 - 29) < 10.
Proof.
  pose proof (same_moment_same_window Examples.cfg10 1 2 21 29
                ltac:(reflexivity) ltac:(discriminate) ltac:(discriminate)) as [[H1 _] H2].
  split; [reflexivity |]. split; [apply H1; reflexivity | apply H2; reflexivity].
Defined.

Import HostActivity.

(** The start of the current moment is at most a moment behind the clock. *)
Lemma current_start_bounds (config : Config) (now : Z) :
  0 < momentSize config ->
  getMomentStartIndex config now None <= now
    < getMomentStartIndex config now None + momentSize config.
Proof.
  intros Hm. unfold getMomentStartIndex, index_or_now.
  pose proof (Z.mul_div_le (now - baseIdx (momentBaseInfo config)) (momentSize config) Hm).
  pose proof (Z.mul_succ_div_gt (now - baseIdx (momentBaseInfo config)) (momentSize config) Hm).
  lia.
Qed.

(** X4: with [momentSize > 0] and [hostHeartbeatFreq >= 0], a host whose
    last heartbeat is later than [hostHeartbeatFreq * momentSize] counts as
    active when the heartbeat is at most [hostHeartbeatFreq] moments behind
    the clock, and as inactive when it is more than [hostHeartbeatFreq + 1]
    moments behind; in between, the answer is that of the window start. *)
Theorem host_active_window (config : Config) (freq now last : Z) :
  0 < momentSize config -> 0 <= freq ->
  freq * momentSize config < last ->
  (now - freq * momentSize config <= last -> host_active config freq now last = true)
  /\ (last < now - (freq + 1) * momentSize config ->
      host_active config freq now last = false)
  /\ (host_active config freq now last = true
      <-> getMomentStartIndex config now None - freq * momentSize config <= last).
Proof.
  intros Hm Hf Hlast.
  pose proof (current_start_bounds config now Hm) as Hb.
  unfold host_active, active.
  destruct (Z.gtb_spec last (freq * momentSize config)) as [_ | Hn]; [| lia].
  repeat split.
  - intros H. apply Z.geb_le. lia.
  - intros H. destruct (Z.geb_spec last (getMomentStartIndex config now None - freq * momentSize config)); [| reflexivity].
    nia.
  - intros H. apply Z.geb_le in H. lia.
  - intros H. apply Z.geb_le. lia.
Qed.

Lemma host_active_window_witness :
  host_active Examples.cfg3600 3 1700020000 1700010000 = true
  /\ (host_active Examples.cfg3600 3 1700020000 1700010000 = true
      <-> getMomentStartIndex Examples.cfg3600 1700020000 None - 3 * 3600 <= 1700010000).
Proof.
  pose proof (host_active_window Examples.cfg3600 3 1700020000 1700010000
                ltac:(reflexivity) ltac:(discriminate) ltac:(reflexivity)) as [H1 [_ H3]].
  split; [apply H1; discriminate | exact H3].
Defined.

(** X5: the other branch of the flag: with [momentSize > 0] and
    [hostHeartbeatFreq >= 0], a host that never sent a heartbeat (index 0 or
    below) is inactive, and a host whose last heartbeat index is positive
    but not above [hostHeartbeatFreq * momentSize] is active whatever the
    clock reads. *)
Theorem host_active_early_heartbeat (config : Config) (freq now last : Z) :
  0 < momentSize config -> 0 <= freq ->
  (last <= 0 -> host_active config freq now last = false)
  /\ (0 < last <= freq * momentSize config -> host_active config freq now last = true).
Proof.
  intros Hm Hf. unfold host_active, active. split; intros H.
  - destruct (Z.gtb_spec last (freq * momentSize config)) as [Hgt | _]; [nia |].
    destruct (Z.gtb_spec last 0); [lia | reflexivity].
  - destruct (Z.gtb_spec last (freq * momentSize config)) as [Hgt | _]; [lia |].
    destruct (Z.gtb_spec last 0); [reflexivity | lia].
Qed.

Lemma host_active_early_heartbeat_witness :
  host_active Examples.cfg3600 3 1700020000 0 = false
  /\ host_active Examples.cfg3600 3 1700020000 5000 = true
  /\ host_active Examples.cfg3600 3 1700020000 10801 = false.
Proof.
  pose proof (host_active_early_heartbeat Examples.cfg3600 3 1700020000 0
                ltac:(reflexivity) ltac:(discriminate)) as [H1 _].
  pose proof (host_active_early_heartbeat Examples.cfg3600 3 1700020000 5000
                ltac:(reflexivity) ltac:(discriminate)) as [_ H2].
  split; [apply H1; discriminate |].
  split; [apply H2; split; [reflexivity | discriminate] | reflexivity].
Defined.

End WindowFacts.

(** ** More on the classifier of the hook-parameter generation *)

Module ClassifierFacts.

Import Classifier.
Import DispatchFacts.
Import ClassifierTables.

(** A guard that asks for an event type is off without one. *)
Lemma no_type_no_rule (rt : Runtime) (self : Client) (tx : Tx) (r : Rule) :
  eventType_of tx = None -> In r (rules rt self) -> rule_guard r tx = false.
Proof.
  intros Hnone Hin.
  destruct (rule_guard r tx) eqn:Hg; [| reflexivity].
  pose proof (guard_asks_type rt self tx) as HF. rewrite Forall_forall in HF.
  pose proof (HF r Hin Hg) as Ht. unfold is_type in Ht. rewrite Hnone in Ht.
  discriminate Ht.
Qed.

(** X6: a transaction that names no event type (no hook parameters at all,
    no event-type parameter, or one without a value) is never classified:
    the result is null, and nothing is thrown, whatever its memos hold. *)
Theorem no_event_type_no_event (rt : Runtime) (self : Client) (tx : Tx) :
  eventType_of tx = None ->
  extractEvernodeEvent rt self tx = Returned None.
Proof.
  intros Hnone. apply extract_no_rule.
  intros r Hin. exact (no_type_no_rule rt self tx r Hnone Hin).
Qed.

Lemma no_event_type_no_event_witness :
  extractEvernodeEvent Reference.runtime Reference.host_client
    (Examples.with_params Examples.acquire_lease_tx [])
  = Returned None.
Proof.
  exact (no_event_type_no_event Reference.runtime Reference.host_client
           (Examples.with_params Examples.acquire_lease_tx []) eq_refl).
Defined.

(** What a returned event says about the outcome of a bind. *)
Lemma bind_returned {A B} (m : Outcome A) (k : A -> Outcome B) (b : B) :
  bind m k = Returned b -> exists a, m = Returned a /\ k a = Returned b.
Proof. destruct m as [a | e]; simpl; [eauto | discriminate]. Qed.

Ltac open_event H :=
  repeat match type of H with
         | bind _ _ = Returned _ =>
             let a := fresh "a" in let Ha := fresh "Ha" in
             apply bind_returned in H; destruct H as [a [Ha H]]
         | (if ?c then _ else _) = Returned _ => destruct c
         | event _ _ _ = Returned (Some _) => unfold event in H
         | Returned _ = Returned _ => injection H as H
         end;
  try discriminate H.

(** Every branch puts its transaction and its own name into the event. *)
Lemma rule_event (rt : Runtime) (self : Client) (tx : Tx) (r : Rule) (ev : EvernodeEvent) :
  In r (rules rt self) -> rule_body r tx = Returned (Some ev) ->
  transaction ev = tx /\ In (name ev) (names_of (rule_type r) names_by_type).
Proof.
  intros Hin Hb. unfold rules in Hin.
  repeat (destruct Hin as [<- | Hin];
          [ cbn [rule_type rule_body] in Hb |- *;
            unfold b_acquire_lease, b_acquire_success, b_acquire_error, b_host_reg,
              b_host_dereg, b_heartbeat, b_extend_lease, b_terminate_lease,
              b_extend_success, b_extend_error, b_init, b_host_update_info,
              b_dead_host_prune, b_host_rebate, b_host_transfer, b_candidate_propose,
              b_candidate_withdraw, b_candidate_status_change,
              b_linked_candidate_remove, b_hook_update_res, b_governance_mode_change,
              b_candidate_vote, b_dud_host_report, b_host_update_reputation in Hb;
            open_event Hb; subst ev;
            (split;
             [ reflexivity
             | cbn [name];
               repeat match goal with
                      | |- context [if ?c then _ else _] => destruct c
                      end;
               vm_compute; tauto ])
          | ]).
  contradiction.
Qed.

(** X7: whatever [#handleEvernodeEvent] emits for a transaction is the event
    the classifier returned for it, its name is one of the watched names and
    one of the names of the transaction's event type, and it carries the
    transaction itself. *)
Theorem emitted_event_is_watched_and_typed (rt : Runtime) (self : Client)
    (watchEvents : list EvernodeEvents) (tx : Tx) (ev : EvernodeEvent) :
  handleEvernodeEvent rt self watchEvents tx = Some ev ->
  extractEvernodeEvent rt self tx = Returned (Some ev)
  /\ In (name ev) watchEvents
  /\ transaction ev = tx
  /\ exists ty, eventType_of tx = Some ty
                /\ In (name ev) (names_of ty names_by_type).
Proof.
  unfold handleEvernodeEvent. intros H.
  destruct (extractEvernodeEvent rt self tx) as [[ev' |] | e] eqn:E; try discriminate H.
  destruct (existsb _ _) eqn:Ex; [| discriminate H].
  injection H as ->.
  split; [reflexivity |]. split.
  - apply existsb_exists in Ex as [x [Hin Hx]].
    unfold EvernodeEvents_eqb in Hx.
    destruct (EvernodeEvents_eq_dec (name ev) x) as [-> | ]; [exact Hin | discriminate Hx].
  - rewrite extract_dispatch in E.
    destruct (find _ _) as [r |] eqn:F; [| discriminate E].
    apply find_some in F as [Hin Hg].
    pose proof (rule_event rt self tx r ev Hin E) as [Htx Hname].
    split; [exact Htx |].
    exists (rule_type r). split; [| exact Hname].
    pose proof (guard_asks_type rt self tx) as HF. rewrite Forall_forall in HF.
    pose proof (HF r Hin Hg) as Ht. unfold is_type in Ht.
    destruct (eventType_of tx) as [t |]; [| discriminate Ht].
    simpl in Ht. apply String.eqb_eq in Ht. now subst t.
Qed.

Lemma emitted_event_is_watched_and_typed_witness :
  extractEvernodeEvent Reference.runtime Reference.host_client Examples.status_change_elected
  = Returned (Some {| name := DudHostRemoved;
                      transaction := Examples.status_change_elected;
                      data := [ ("candidateId", JStr "0000000003000000000000000102030405060708090a0b0c0d0e0f1011121314");
                                ("host", JStr (Reference.base58_account Examples.account_id)) ] |})
  /\ In DudHostRemoved [DudHostRemoved; Heartbeat].
Proof.
  pose proof (emitted_event_is_watched_and_typed Reference.runtime Reference.host_client
                [DudHostRemoved; Heartbeat] Examples.status_change_elected _
                ltac:(vm_compute; reflexivity)) as [H1 [H2 _]].
  split; [exact H1 | exact H2].
Defined.

End ClassifierFacts.

(** ** What the decoding branches read *)

Module BranchFacts.

Import Classifier.
Import DispatchFacts.

Lemma byteZ_range (b : byte) : 0 <= Buf.byteZ b < 256.
Proof. unfold Buf.byteZ. pose proof (Byte.to_N_bounded b). lia. Qed.

Lemma le_value_range (l : list byte) :
  0 <= Buf.le_value l < 256 ^ Z.of_nat (List.length l).
Proof.
  induction l as [| b l IH]; [simpl; lia |].
  cbn [Buf.le_value List.length]. rewrite Nat2Z.inj_succ, Z.pow_succ_r by lia.
  pose proof (byteZ_range b). lia.
Qed.

Lemma be_value_range (l : list byte) :
  0 <= Buf.be_value l < 256 ^ Z.of_nat (List.length l).
Proof.
  unfold Buf.be_value. rewrite <- (length_rev l). apply le_value_range.
Qed.

(** Reading the only byte of a one-byte slice is reading the byte. *)
Lemma readUInt8_slice_one (l : list byte) (i : nat) :
  Buf.readUInt8 (Buf.slice i (S i) l) 0 = Buf.readUInt8 l i.
Proof.
  unfold Buf.readUInt8, Buf.slice.
  replace (S i - i)%nat with 1%nat by lia.
  rewrite <- (Nat.add_0_r i) at 2. rewrite <- nth_error_skipn.
  destruct (skipn i l) as [| b l']; reflexivity.
Qed.

(** With an event type there are hook parameters, and the event data is a
    text. *)
Lemma typed_has_data (tx : Tx) (ty : string) :
  is_type tx ty = true -> eventData_of tx = Some (eventData_text tx).
Proof.
  unfold is_type, eventType_of, eventData_text, eventData_of.
  destruct (HookParameters tx) as [| p ps]; [discriminate |].
  intros _.
  destruct (find_param HookParamKeys.PARAM_EVENT_DATA_KEY (p :: ps)) as [q |];
    [destruct (hp_value q) |]; reflexivity.
Qed.

Lemma with_data_type (tx : Tx) (ty : string) :
  is_type_with_data tx ty = true -> is_type tx ty = true.
Proof. unfold is_type_with_data. intros H. apply andb_true_iff in H. tauto. Qed.

Lemma from_hex_empty_text : Buf.from_hex "" = [].
Proof. reflexivity. Qed.

Ltac branch rt self tx R Hg :=
  rewrite (extract_of_rule rt self tx R); [| EventFacts.in_rules | exact Hg];
  cbn [rule_body].

(** X8: a heartbeat without event data gives the Heartbeat event with the
    host alone; with event data of at least 33 bytes it also gives the vote:
    the first 64 characters as candidate id and byte 32 as the vote; with
    event data of 1 to 32 bytes the read of the vote throws. *)
Theorem heartbeat_vote_info (rt : Runtime) (self : Client) (tx : Tx) :
  g_heartbeat tx = true ->
  let eventData := eventData_text tx in
  let buf := Buf.from_hex eventData in
  (eventData = "" ->
   extractEvernodeEvent rt self tx = event Heartbeat tx [ ("host", Account tx) ])
  /\ ((33 <= List.length buf)%nat ->
      extractEvernodeEvent rt self tx
      = event Heartbeat tx
          [ ("host", Account tx);
            ("voteInfo",
             JObj [ ("candidateId", JStr (Buf.substr 0 64 eventData));
                    ("vote", JNum (Buf.byteZ (nth 32 buf x00))) ]) ])
  /\ (eventData <> "" -> (List.length buf < 33)%nat ->
      extractEvernodeEvent rt self tx = Thrown RangeError).
Proof.
  intros Hg eventData buf.
  branch rt self tx
    {| rule_type := EventTypes.HEARTBEAT; rule_guard := g_heartbeat;
       rule_body := b_heartbeat |} Hg.
  unfold b_heartbeat. rewrite (typed_has_data tx _ Hg). fold eventData. fold buf.
  cbn [truthy_str].
  assert (Hne : eventData <> "" ->
                negb (String.eqb eventData "") && negb (String.length eventData =? 0)%nat = true).
  { intros Hne. destruct eventData; [contradiction | reflexivity]. }
  repeat split.
  - intros ->. reflexivity.
  - intros Hlen. rewrite Hne.
    + rewrite readUInt8_slice_one, EventFacts.readUInt8_in_range by lia. reflexivity.
    + intros E. subst buf. rewrite E in Hlen. simpl in Hlen. lia.
  - intros Hn Hlen. rewrite (Hne Hn).
    rewrite readUInt8_slice_one, EventFacts.readUInt8_out_of_range by lia. reflexivity.
Qed.

Lemma heartbeat_vote_info_witness :
  extractEvernodeEvent Reference.runtime Reference.host_client
    (Examples.hook_tx EventTypes.HEARTBEAT (Examples.dud_host_id ++ "01"))
  = event Heartbeat (Examples.hook_tx EventTypes.HEARTBEAT (Examples.dud_host_id ++ "01"))
      [ ("host", JStr "rSender");
        ("voteInfo",
         JObj [ ("candidateId", JStr Examples.dud_host_id); ("vote", JNum 1) ]) ].
Proof.
  rewrite (proj1 (proj2 (heartbeat_vote_info Reference.runtime Reference.host_client
                           (Examples.hook_tx EventTypes.HEARTBEAT (Examples.dud_host_id ++ "01"))
                           eq_refl))
                 ltac:(apply Nat.leb_le; vm_compute; reflexivity)).
  vm_compute. reflexivity.
Defined.




(** X10: a lease-extension success reports, as expiry moment, the first
    four bytes of its hex memo read as a big-endian integer, a number below
    2^32, together with the event data as reference; a memo of fewer than
    four bytes makes the read throw. *)
Theorem extend_success_expiry (rt : Runtime) (self : Client) (tx : Tx) :
  g_extend_success tx = true ->
  let buf := Buf.from_hex (memo0_data tx) in
  ((4 <= List.length buf)%nat ->
   extractEvernodeEvent rt self tx
   = event ExtendSuccess tx
       [ ("extendRefId", JStr (eventData_text tx));
         ("expiryMoment", JNum (Buf.be_value (firstn 4 buf))) ]
   /\ 0 <= Buf.be_value (firstn 4 buf) < 2 ^ 32)
  /\ ((List.length buf < 4)%nat ->
      extractEvernodeEvent rt self tx = Thrown RangeError).
Proof.
  intros Hg buf.
  branch rt self tx
    {| rule_type := EventTypes.EXTEND_SUCCESS; rule_guard := g_extend_success;
       rule_body := b_extend_success |} Hg.
  unfold b_extend_success, Buf.readUInt32BE. fold buf. split; intros Hlen.
  - rewrite ReputationFacts.read_bytes_in_range by (simpl; lia).
    unfold Buf.slice. simpl skipn. split; [reflexivity |].
    pose proof (be_value_range (firstn 4 buf)) as Hr.
    rewrite length_firstn in Hr.
    replace (Nat.min 4 (List.length buf)) with 4%nat in Hr by lia.
    exact Hr.
  - rewrite ReputationFacts.read_bytes_out_of_range by (simpl; lia). reflexivity.
Qed.

Lemma extend_success_expiry_witness :
  extractEvernodeEvent Reference.runtime Reference.host_client MoreExamples.extend_success_tx
  = event ExtendSuccess MoreExamples.extend_success_tx
      [ ("extendRefId", JStr "ABCD"); ("expiryMoment", JNum 300) ].
Proof.
  rewrite (proj1 (proj1 (extend_success_expiry Reference.runtime Reference.host_client
                           MoreExamples.extend_success_tx eq_refl)
                        ltac:(apply Nat.leb_le; vm_compute; reflexivity))).
  vm_compute. reflexivity.
Defined.

(** X11: the removal of a linked candidate gives an event for a DudHost id
    only: with at least 32 bytes of event data the
    LinkedDudHostCandidateRemoved event carries the id and the address
    encoded from its bytes 12..32, with fewer the address codec refuses the
    bytes; for an id of any other kind the result is null although the
    predicate held. *)
Theorem linked_candidate_remove (rt : Runtime) (self : Client) (tx : Tx) :
  g_linked_candidate_remove tx = true ->
  let eventDataBuf := Buf.from_hex (eventData_text tx) in
  let candidate := Buf.slice 0 32 eventDataBuf in
  let candidateId := Buf.to_hex candidate in
  let kind := getCandidateType rt candidateId in
  (kind <> EvernodeConstants.CandidateTypes.DudHost ->
   extractEvernodeEvent rt self tx = Returned None)
  /\ (kind = EvernodeConstants.CandidateTypes.DudHost ->
      (32 <= List.length eventDataBuf)%nat ->
      extractEvernodeEvent rt self tx
      = event LinkedDudHostCandidateRemoved tx
          [ ("candidateId", JStr candidateId);
            ("host", JStr (base58_account rt
                             (Buf.slice DUD_HOST_CANDID_ADDRESS_OFFSET 32 candidate))) ])
  /\ (kind = EvernodeConstants.CandidateTypes.DudHost ->
      (List.length eventDataBuf < 32)%nat ->
      extractEvernodeEvent rt self tx = Thrown CodecError).
Proof.
  intros Hg eventDataBuf candidate candidateId kind.
  branch rt self tx
    {| rule_type := EventTypes.LINKED_CANDIDATE_REMOVE;
       rule_guard := g_linked_candidate_remove;
       rule_body := b_linked_candidate_remove rt |} Hg.
  unfold b_linked_candidate_remove.
  fold eventDataBuf. fold candidate. fold candidateId. fold kind.
  assert (Hcand : List.length candidate = Nat.min 32 (List.length eventDataBuf)).
  { unfold candidate, Buf.slice. rewrite length_firstn. simpl skipn. lia. }
  repeat split.
  - intros Hk. destruct (Z.eqb_spec kind EvernodeConstants.CandidateTypes.DudHost);
      [contradiction | reflexivity].
  - intros Hk Hlen. rewrite Hk.
    change (EvernodeConstants.CandidateTypes.DudHost =? EvernodeConstants.CandidateTypes.DudHost)
      with true. cbn iota.
    unfold dud_host_address, candidateId. rewrite BufFacts.from_hex_to_hex.
    unfold encodeAccountID.
    rewrite BufFacts.slice_length by lia. reflexivity.
  - intros Hk Hlen. rewrite Hk.
    change (EvernodeConstants.CandidateTypes.DudHost =? EvernodeConstants.CandidateTypes.DudHost)
      with true. cbn iota.
    unfold dud_host_address, candidateId. rewrite BufFacts.from_hex_to_hex.
    unfold encodeAccountID, Buf.slice, DUD_HOST_CANDID_ADDRESS_OFFSET.
    rewrite length_firstn, length_skipn. fold (Buf.slice 0 32 eventDataBuf). fold candidate.
    destruct (Nat.eqb_spec (Nat.min (32 - 12) (List.length candidate - 12)) 20);
      [lia | reflexivity].
Qed.

Lemma linked_candidate_remove_witness :
  extractEvernodeEvent Reference.runtime Reference.host_client MoreExamples.linked_remove_new_hook
  = Returned None
  /\ extractEvernodeEvent Reference.runtime Reference.host_client MoreExamples.linked_remove_dud_host
     = event LinkedDudHostCandidateRemoved MoreExamples.linked_remove_dud_host
         [ ("candidateId", JStr "0000000003000000000000000102030405060708090a0b0c0d0e0f1011121314");
           ("host", JStr (Reference.base58_account Examples.account_id)) ].
Proof.
  split.
  - apply (proj1 (linked_candidate_remove Reference.runtime Reference.host_client
                    MoreExamples.linked_remove_new_hook eq_refl)).
    vm_compute. discriminate.
  - rewrite (proj1 (proj2 (linked_candidate_remove Reference.runtime Reference.host_client
                             MoreExamples.linked_remove_dud_host eq_refl))
                   ltac:(vm_compute; reflexivity)
                   ltac:(apply Nat.leb_le; vm_compute; reflexivity)).
    vm_compute. reflexivity.
Defined.

(** X12: a reputation update of at least 21 bytes reports the address
    encoded from bytes 0..20 and byte 20 as the reputation, a number below
    256; event data of fewer than 20 bytes is refused by the address codec,
    and event data of exactly 20 bytes makes the read of the reputation
    throw. *)
Theorem host_reputation_updated (rt : Runtime) (self : Client) (tx : Tx) :
  g_host_update_reputation tx = true ->
  let dataBuf := Buf.from_hex (eventData_text tx) in
  ((21 <= List.length dataBuf)%nat ->
   extractEvernodeEvent rt self tx
   = event HostReputationUpdated tx
       [ ("host", JStr (base58_account rt (firstn 20 dataBuf)));
         ("reputation", JNum (Buf.byteZ (nth 20 dataBuf x00))) ]
   /\ 0 <= Buf.byteZ (nth 20 dataBuf x00) < 256)
  /\ ((List.length dataBuf < 20)%nat ->
      extractEvernodeEvent rt self tx = Thrown CodecError)
  /\ (List.length dataBuf = 20%nat ->
      extractEvernodeEvent rt self tx = Thrown RangeError).
Proof.
  intros Hg dataBuf.
  branch rt self tx
    {| rule_type := EventTypes.HOST_UPDATE_REPUTATION;
       rule_guard := g_host_update_reputation;
       rule_body := b_host_update_reputation rt |} Hg.
  unfold b_host_update_reputation, encodeAccountID, Buf.slice,
    REPUTATION_HOST_ADDRESS_PARAM_OFFSET, REPUTATION_VALUE_PARAM_OFFSET.
  fold dataBuf. simpl skipn. rewrite Nat.sub_0_r, length_firstn.
  repeat split.
  - replace (Nat.min 20 (List.length dataBuf)) with 20%nat by lia.
    cbn [Nat.eqb bind]. rewrite EventFacts.readUInt8_in_range by lia. reflexivity.
  - apply byteZ_range.
  - apply byteZ_range.
  - intros Hlen.
    destruct (Nat.eqb_spec (Nat.min 20 (List.length dataBuf)) 20); [lia | reflexivity].
  - intros Hlen. rewrite Hlen. cbn [Nat.min Nat.eqb bind].
    rewrite EventFacts.readUInt8_out_of_range by lia. reflexivity.
Qed.

Lemma host_reputation_updated_witness :
  extractEvernodeEvent Reference.runtime Reference.host_client MoreExamples.reputation_update_tx
  = event HostReputationUpdated MoreExamples.reputation_update_tx
      [ ("host", JStr (Reference.base58_account Examples.account_id));
        ("reputation", JNum 100) ].
Proof.
  rewrite (proj1 (proj1 (host_reputation_updated Reference.runtime Reference.host_client
                           MoreExamples.reputation_update_tx eq_refl)
                        ltac:(apply Nat.leb_le; vm_compute; reflexivity))).
  vm_compute. reflexivity.
Defined.

(** X13: a dead-host prune and a host transfer report the address encoded
    from the whole event data, which has to be exactly 20 bytes: any other
    length is refused by the address codec and no event is returned. *)
Theorem address_events_need_20_bytes (rt : Runtime) (self : Client) (tx : Tx) :
  let addrsBuf := Buf.from_hex (eventData_text tx) in
  (g_dead_host_prune tx = true ->
   (List.length addrsBuf = 20%nat ->
    extractEvernodeEvent rt self tx
    = event DeadHostPrune tx [ ("host", JStr (base58_account rt addrsBuf)) ])
   /\ (List.length addrsBuf <> 20%nat ->
       extractEvernodeEvent rt self tx = Thrown CodecError))
  /\ (g_host_transfer tx = true ->
      (List.length addrsBuf = 20%nat ->
       extractEvernodeEvent rt self tx
       = event HostTransfer tx [ ("transferee", JStr (base58_account rt addrsBuf)) ])
      /\ (List.length addrsBuf <> 20%nat ->
          extractEvernodeEvent rt self tx = Thrown CodecError)).
Proof.
  intros addrsBuf. split; intros Hg.
  - branch rt self tx
      {| rule_type := EventTypes.DEAD_HOST_PRUNE; rule_guard := g_dead_host_prune;
         rule_body := b_dead_host_prune rt |} Hg.
    unfold b_dead_host_prune, encodeAccountID. fold addrsBuf.
    split; intros Hlen.
    + rewrite Hlen. reflexivity.
    + destruct (Nat.eqb_spec (List.length addrsBuf) 20); [contradiction | reflexivity].
  - branch rt self tx
      {| rule_type := EventTypes.HOST_TRANSFER; rule_guard := g_host_transfer;
         rule_body := b_host_transfer rt |} Hg.
    unfold b_host_transfer, encodeAccountID. fold addrsBuf.
    split; intros Hlen.
    + rewrite Hlen. reflexivity.
    + destruct (Nat.eqb_spec (List.length addrsBuf) 20); [contradiction | reflexivity].
Qed.

End BranchFacts.

(** ** Senders and the classifier *)

Module SenderFacts.

Import Classifier.
Import DispatchFacts.
Import Senders.

Ltac branch rt self tx R Hg :=
  rewrite (extract_of_rule rt self tx R); [| EventFacts.in_rules | exact Hg];
  cbn [rule_body].

(** A transaction whose event type has its rule off is not classified. *)
Lemma typed_rule_off (rt : Runtime) (self : Client) (tx : Tx) (r : Rule) :
  In r (rules rt self) -> is_type tx (rule_type r) = true ->
  rule_guard r tx = false ->
  extractEvernodeEvent rt self tx = Returned None.
Proof.
  intros Hin Hty Hoff. apply extract_no_rule. intros r' Hin'.
  destruct (rule_guard r' tx) eqn:Hg; [| reflexivity].
  pose proof (guard_asks_type rt self tx) as HF. rewrite Forall_forall in HF.
  pose proof (HF r' Hin' Hg) as Hty'.
  assert (r' = r) as ->.
  { apply (NoDup_map_eq rule_type (rules rt self)); auto.
    - apply rule_types_distinct.
    - unfold is_type in Hty, Hty'. eapply opt_eq_str_inj; eassumption. }
  congruence.
Qed.

(** X14: the transaction that [_withdraw] sends is classified as
    CandidateWithdrawn with the sender as owner and, as candidate id, the
    first 64 characters of the upper-case hex text of the id; for an id of
    32 bytes that text decodes to the id again.  An id whose text holds no
    leading hex byte gives empty event data, and the classifier returns null
    for that transaction. *)
Theorem withdraw_is_classified (rt : Runtime) (self : Client)
    (candidateId : string) (tx : Tx) :
  let candidateIdBuf := Buf.from_hex candidateId in
  let sent := Examples.with_params tx (_withdraw candidateId) in
  let reported := Buf.substr 0 64 (Buf.toUpperCase (Buf.to_hex candidateIdBuf)) in
  (candidateIdBuf = [] -> extractEvernodeEvent rt self sent = Returned None)
  /\ (candidateIdBuf <> [] ->
      extractEvernodeEvent rt self sent
      = event CandidateWithdrawn sent
          [ ("owner", Account tx); ("candidateId", JStr reported) ])
  /\ (List.length candidateIdBuf = 32%nat -> Buf.from_hex reported = candidateIdBuf).
Proof.
  intros candidateIdBuf sent reported.
  assert (Hty : eventType_of sent = Some EventTypes.CANDIDATE_WITHDRAW) by reflexivity.
  assert (Hdata : eventData_of sent = Some (Buf.toUpperCase (Buf.to_hex candidateIdBuf)))
    by reflexivity.
  assert (Hlen : String.length (Buf.toUpperCase (Buf.to_hex candidateIdBuf))
                 = (2 * List.length candidateIdBuf)%nat)
    by (rewrite BufFacts.toUpperCase_length; apply BufFacts.to_hex_length).
  repeat split.
  - intros Hnil.
    apply (typed_rule_off rt self sent
             {| rule_type := EventTypes.CANDIDATE_WITHDRAW;
                rule_guard := g_candidate_withdraw;
                rule_body := b_candidate_withdraw |}); [EventFacts.in_rules | reflexivity |].
    cbn [rule_guard]. unfold g_candidate_withdraw, is_type_with_data.
    rewrite Hdata, Hnil. reflexivity.
  - intros Hne.
    assert (Hg : g_candidate_withdraw sent = true).
    { unfold g_candidate_withdraw.
      apply (EventFacts.is_type_with_data_intro sent _ _ Hty Hdata).
      rewrite Hlen. destruct candidateIdBuf; [contradiction | simpl; lia]. }
    branch rt self sent
      {| rule_type := EventTypes.CANDIDATE_WITHDRAW; rule_guard := g_candidate_withdraw;
         rule_body := b_candidate_withdraw |} Hg.
    unfold b_candidate_withdraw, eventData_text. rewrite Hdata. reflexivity.
  - intros H32. unfold reported, Buf.substr.
    replace 64%nat with (String.length (Buf.toUpperCase (Buf.to_hex candidateIdBuf)))
      by (rewrite Hlen, H32; reflexivity).
    assert (Hpre : forall s, String.substring 0 (String.length s) s = s).
    { induction s as [| c s IH]; simpl; [reflexivity | now rewrite IH]. }
    rewrite Hpre. apply BufFacts.from_hex_to_hex_upper.
Qed.

(** X15: the transaction that [pruneDeadHost] sends is always accepted by
    the classifier: its event data is 20 bytes whatever the codec decoded
    (a shorter decoding is padded with zero bytes, a longer one cut), and
    the DeadHostPrune event reports the address encoded from them; when the
    codec decoded 20 bytes that encode to the host address again, the
    reported host is the host address. *)
Theorem prune_is_classified (rt : Runtime) (self : Client)
    (address registryAddress hostAddress : string) (hostInfo : jsval)
    (uriTokens : list URIToken) (params : list HookParameter) (tx : Tx) :
  pruneDeadHost rt address registryAddress hostAddress hostInfo uriTokens
  = Returned params ->
  exists decoded,
    decodeAccountID rt (JStr hostAddress) = Returned decoded
    /\ address <> registryAddress
    /\ List.length (Buf.copy decoded (Buf.alloc 20) 0) = 20%nat
    /\ extractEvernodeEvent rt self (Examples.with_params tx params)
       = event DeadHostPrune (Examples.with_params tx params)
           [ ("host", JStr (base58_account rt (Buf.copy decoded (Buf.alloc 20) 0))) ]
    /\ (List.length decoded = 20%nat -> base58_account rt decoded = hostAddress ->
        extractEvernodeEvent rt self (Examples.with_params tx params)
        = event DeadHostPrune (Examples.with_params tx params)
            [ ("host", JStr hostAddress) ]).
Proof.
  unfold pruneDeadHost. intros H.
  destruct (String.eqb_spec address registryAddress) as [| Hne]; [discriminate H |].
  destruct (decodeAccountID rt (JStr hostAddress)) as [decoded | e]; [| discriminate H].
  cbn [bind] in H.
  destruct (prop hostInfo "isATransferer") as [isATransferer | e]; [| discriminate H].
  cbn [bind] in H.
  match type of H with (if ?c then _ else _) = _ => destruct c end; [| discriminate H].
  injection H as <-.
  set (paramData := Buf.copy decoded (Buf.alloc 20) 0).
  assert (Hlen : List.length paramData = 20%nat)
    by (unfold paramData; rewrite BufFacts.copy_length; apply BufFacts.alloc_length).
  set (sent := Examples.with_params tx _).
  assert (Hty : eventType_of sent = Some EventTypes.DEAD_HOST_PRUNE) by reflexivity.
  assert (Hdata : eventData_of sent = Some (Buf.to_hex paramData)) by reflexivity.
  assert (Hg : g_dead_host_prune sent = true).
  { unfold g_dead_host_prune.
    apply (EventFacts.is_type_with_data_intro sent _ _ Hty Hdata).
    rewrite BufFacts.to_hex_length, Hlen. simpl. lia. }
  assert (Hev : extractEvernodeEvent rt self sent
                = event DeadHostPrune sent [ ("host", JStr (base58_account rt paramData)) ]).
  { branch rt self sent
      {| rule_type := EventTypes.DEAD_HOST_PRUNE; rule_guard := g_dead_host_prune;
         rule_body := b_dead_host_prune rt |} Hg.
    unfold b_dead_host_prune, eventData_text. rewrite Hdata.
    rewrite BufFacts.from_hex_to_hex. unfold encodeAccountID. rewrite Hlen. reflexivity. }
  exists decoded. repeat split; try assumption.
  intros H20 Hround. rewrite Hev. do 4 f_equal.
  rewrite <- Hround. f_equal. unfold paramData.
  change (Buf.alloc 20) with ([] ++ Buf.alloc 20).
  rewrite (BufFacts.copy_at decoded [] (Buf.alloc 20) 0);
    [| reflexivity | rewrite BufFacts.alloc_length; lia].
  rewrite H20. simpl. apply app_nil_r.
Qed.

Lemma prune_is_classified_witness :
  pruneDeadHost Reference.runtime "rHostAccount" "rRegistry"
    MoreExamples.account_address MoreExamples.transferer_info []
  = Returned (Examples.event_params EventTypes.DEAD_HOST_PRUNE
                (Buf.to_hex Examples.account_id))
  /\ exists decoded,
       decodeAccountID Reference.runtime (JStr MoreExamples.account_address)
       = Returned decoded
       /\ extractEvernodeEvent Reference.runtime Reference.host_client
            (Examples.with_params (Reference.empty_tx "Payment")
               (Examples.event_params EventTypes.DEAD_HOST_PRUNE
                  (Buf.to_hex Examples.account_id)))
          = event DeadHostPrune
              (Examples.with_params (Reference.empty_tx "Payment")
                 (Examples.event_params EventTypes.DEAD_HOST_PRUNE
                    (Buf.to_hex Examples.account_id)))
              [ ("host", JStr (base58_account Reference.runtime
                                 (Buf.copy decoded (Buf.alloc 20) 0))) ].
Proof.
  split; [vm_compute; reflexivity |].
  destruct (prune_is_classified Reference.runtime Reference.host_client
              "rHostAccount" "rRegistry" MoreExamples.account_address
              MoreExamples.transferer_info []
              (Examples.event_params EventTypes.DEAD_HOST_PRUNE
                 (Buf.to_hex Examples.account_id))
              (Reference.empty_tx "Payment") eq_refl)
    as [decoded [Hd [_ [_ [Hev _]]]]].
  exists decoded. split; [exact Hd | exact Hev].
Defined.

(** X16: [pruneDeadHost] sends nothing when the caller is the registry
    account itself (it throws its message before anything is decoded), for
    a host that is not registered ([getHostInfo] gave null: the read of
    [isATransferer] is a TypeError), and for a host that is not a
    transferer and owns no URI token with the registration prefix issued by
    the registry; a transferer is pruned whatever tokens it owns. *)
Theorem prune_refusals (rt : Runtime) (address registryAddress hostAddress : string)
    (hostInfo : jsval) (uriTokens : list URIToken) (decoded : list byte) :
  (address = registryAddress ->
   pruneDeadHost rt address registryAddress hostAddress hostInfo uriTokens
   = Thrown (Message "Invalid function call"))
  /\ (address <> registryAddress ->
      decodeAccountID rt (JStr hostAddress) = Returned decoded ->
      (hostInfo = JNull ->
       pruneDeadHost rt address registryAddress hostAddress hostInfo uriTokens
       = Thrown TypeError)
      /\ (forall fields,
            hostInfo = JObj fields ->
            truthy (lookup_field "isATransferer" fields) = true ->
            pruneDeadHost rt address registryAddress hostAddress hostInfo uriTokens
            = Returned (Examples.event_params EventTypes.DEAD_HOST_PRUNE
                          (Buf.to_hex (Buf.copy decoded (Buf.alloc 20) 0))))
      /\ (forall fields,
            hostInfo = JObj fields ->
            truthy (lookup_field "isATransferer" fields) = false ->
            (forall n, In n uriTokens ->
                       String.prefix TOKEN_PREFIX_HEX (URI n) = false
                       \/ Issuer n <> registryAddress) ->
            pruneDeadHost rt address registryAddress hostAddress hostInfo uriTokens
            = Thrown (Message "No Registration URI token was found for the Host account."))).
Proof.
  unfold pruneDeadHost. split.
  - intros ->. rewrite String.eqb_refl. reflexivity.
  - intros Hne Hdec.
    destruct (String.eqb_spec address registryAddress) as [| _]; [contradiction |].
    rewrite Hdec. cbn [bind]. repeat split.
    + intros ->. reflexivity.
    + intros fields -> Ht. unfold prop. cbn [bind]. rewrite Ht. reflexivity.
    + intros fields -> Ht Hno. unfold prop. cbn [bind]. rewrite Ht. cbn [negb].
      destruct (find _ uriTokens) as [n |] eqn:F; [| reflexivity].
      exfalso. apply find_some in F as [Hin Hn].
      apply andb_true_iff in Hn as [Hp Hi]. apply String.eqb_eq in Hi.
      destruct (Hno n Hin) as [Hp' | Hi']; [congruence | contradiction].
Qed.

End SenderFacts.

(** ** The chain of the memo generation *)

Module LegacyDispatch.

Import Legacy.
Import LegacyTable.
Import LegacySenders.

Ltac in_rules := unfold rules; repeat first [left; reflexivity | right].

Ltac unfold_guards :=
  unfold g_acquire_lease, g_host_post_dereg, g_acquire_success, g_acquire_error,
    g_host_reg, g_host_dereg, g_heartbeat, g_extend_lease, g_extend_success,
    g_extend_error, g_init, g_host_update_info, g_dead_host_prune, g_host_rebate,
    g_host_transfer, g_candidate_propose, g_candidate_withdraw,
    g_candidate_status_change, g_hook_update_res, g_governance_mode_change,
    g_candidate_vote, g_dud_host_report, hex_memo.

Ltac split_guard :=
  repeat match goal with
         | H : (_ && _)%bool = true |- _ => apply andb_true_iff in H; destruct H
         end.

(** Every predicate of the chain asks the first memo for its own type, and
    asks for at least one memo. *)
Lemma legacy_guard_asks_type (rt : Runtime) (lc : Constants) (self : Client) (tx : Tx) :
  Forall (fun r => rule_guard r tx = true ->
                   memo_is tx 0 (rule_type r) = true /\ Memos tx <> [])
         (rules rt lc self).
Proof.
  unfold rules.
  repeat (apply Forall_cons;
          [ cbn [rule_guard rule_type]; unfold_guards; intros H; split_guard;
            split; [assumption |];
            match goal with
            | Hm : memos_ge tx _ = true |- _ =>
                unfold memos_ge in Hm; apply Nat.leb_le in Hm;
                destruct (Memos tx); [simpl in Hm; lia | discriminate]
            end
          | ]).
  apply Forall_nil.
Qed.

(** The if / else-if chain runs the branch of the first rule of the table
    whose predicate holds, and returns null when there is none. *)
Lemma legacy_extract_dispatch (rt : Runtime) (lc : Constants) (self : Client) (tx : Tx) :
  extractEvernodeEvent rt lc self tx
  = match find (fun r => rule_guard r tx) (rules rt lc self) with
    | Some r => rule_body r tx
    | None => Returned None
    end.
Proof.
  unfold extractEvernodeEvent, rules. cbn [find rule_guard rule_body].
  repeat match goal with
         | |- context [if ?g lc tx then _ else _] => destruct (g lc tx); [reflexivity |]
         end.
  reflexivity.
Qed.

Lemma legacy_extract_no_rule (rt : Runtime) (lc : Constants) (self : Client) (tx : Tx) :
  (forall r, In r (rules rt lc self) -> rule_guard r tx = false) ->
  extractEvernodeEvent rt lc self tx = Returned None.
Proof.
  intros Hno. rewrite legacy_extract_dispatch.
  destruct (find _ _) as [r |] eqn:E; [| reflexivity].
  apply find_some in E as [Hin Hg]. rewrite (Hno r Hin) in Hg. discriminate.
Qed.

Section Distinct.

Variable rt : Runtime.
Variable lc : Constants.
Variable self : Client.

Hypothesis types_distinct : Classifier.distinct (memo_types lc) = true.

Lemma legacy_rule_types_distinct : NoDup (map rule_type (rules rt lc self)).
Proof.
  change (map rule_type (rules rt lc self)) with (memo_types lc).
  apply DispatchFacts.distinct_NoDup. exact types_distinct.
Qed.

Lemma legacy_rules_exclusive (tx : Tx) (r1 r2 : Rule) :
  In r1 (rules rt lc self) -> In r2 (rules rt lc self) ->
  rule_guard r1 tx = true -> rule_guard r2 tx = true -> r1 = r2.
Proof.
  intros In1 In2 G1 G2.
  pose proof (legacy_guard_asks_type rt lc self tx) as HF. rewrite Forall_forall in HF.
  destruct (HF r1 In1 G1) as [T1 _]. destruct (HF r2 In2 G2) as [T2 _].
  apply (DispatchFacts.NoDup_map_eq rule_type (rules rt lc self)); auto.
  - apply legacy_rule_types_distinct.
  - exact (LegacyFacts.memo_is_unique tx 0 _ _ T1 T2).
Qed.

Lemma legacy_extract_of_rule (tx : Tx) (r : Rule) :
  In r (rules rt lc self) -> rule_guard r tx = true ->
  extractEvernodeEvent rt lc self tx = rule_body r tx.
Proof.
  intros Hin Hg. rewrite legacy_extract_dispatch.
  rewrite (DispatchFacts.find_exclusive (fun r => rule_guard r tx) (rules rt lc self) r); auto.
  intros a b. apply legacy_rules_exclusive.
Qed.

Lemma legacy_matching_at_most_one (tx : Tx) :
  (List.length (matching rt lc self tx) <= 1)%nat.
Proof.
  unfold matching.
  destruct (filter _ _) as [| a [| b l]] eqn:E; simpl; try lia.
  exfalso.
  assert (Ha : In a (filter (fun r => rule_guard r tx) (rules rt lc self)))
    by (rewrite E; now left).
  assert (Hb : In b (filter (fun r => rule_guard r tx) (rules rt lc self)))
    by (rewrite E; right; now left).
  apply filter_In in Ha as [Ha1 Ha2]. apply filter_In in Hb as [Hb1 Hb2].
  pose proof (legacy_rules_exclusive tx a b Ha1 Hb1 Ha2 Hb2) as ->.
  assert (Hnd : NoDup (filter (fun r => rule_guard r tx) (rules rt lc self))).
  { apply NoDup_filter.
    apply (NoDup_map_inv rule_type). apply legacy_rule_types_distinct. }
  rewrite E in Hnd. inversion Hnd as [| ? ? Hnot _]; subst.
  apply Hnot. now left.
Qed.

End Distinct.

(** X17: in the memo generation, when the 22 memo types that the chain asks
    of the first memo are pairwise different, no transaction satisfies two
    of its predicates, the branch of the one that holds decides the outcome,
    and the result is null when none holds; a transaction without memos is
    never classified, whatever the memo types are. *)
Theorem legacy_chain_single_outcome (rt : Runtime) (lc : Constants) (self : Client)
    (tx : Tx) :
  Classifier.distinct (memo_types lc) = true ->
  (List.length (matching rt lc self tx) <= 1)%nat
  /\ (forall r, In r (rules rt lc self) -> rule_guard r tx = true ->
        extractEvernodeEvent rt lc self tx = rule_body r tx)
  /\ ((forall r, In r (rules rt lc self) -> rule_guard r tx = false) ->
        extractEvernodeEvent rt lc self tx = Returned None)
  /\ (Memos tx = [] -> extractEvernodeEvent rt lc self tx = Returned None).
Proof.
  intros Hd. repeat split.
  - apply legacy_matching_at_most_one. exact Hd.
  - intros r. apply legacy_extract_of_rule. exact Hd.
  - apply legacy_extract_no_rule.
  - intros Hnil. apply legacy_extract_no_rule. intros r Hin.
    destruct (rule_guard r tx) eqn:Hg; [| reflexivity].
    pose proof (legacy_guard_asks_type rt lc self tx) as HF. rewrite Forall_forall in HF.
    destruct (HF r Hin Hg) as [_ Hne]. contradiction.
Qed.

Lemma legacy_chain_single_outcome_witness :
  Classifier.distinct (memo_types Examples.legacy_constants) = true
  /\ (List.length (matching Reference.runtime Examples.legacy_constants
                     Examples.legacy_client Examples.legacy_status_change) <= 1)%nat.
Proof.
  split; [vm_compute; reflexivity |].
  exact (proj1 (legacy_chain_single_outcome Reference.runtime Examples.legacy_constants
                  Examples.legacy_client Examples.legacy_status_change eq_refl)).
Defined.

End LegacyDispatch.

(** ** Senders of the memo generation and its chain *)

Module LegacySenderFacts.

Import Legacy.
Import LegacyTable.
Import LegacySenders.
Import LegacyDispatch.

Lemma substring_prefix (a b : string) :
  String.substring 0 (String.length a) (a ++ b) = a.
Proof.
  induction a as [| c a IH]; simpl.
  - destruct b; reflexivity.
  - now rewrite IH.
Qed.

(** The first [2 * k] characters of the hex text are the text of the first
    [k] bytes. *)
Lemma hex_prefix (k : nat) (l : list byte) :
  (k <= List.length l)%nat ->
  Buf.substr 0 (2 * k) (Buf.toUpperCase (Buf.to_hex l))
  = Buf.toUpperCase (Buf.to_hex (firstn k l)).
Proof.
  intros Hk. unfold Buf.substr.
  rewrite <- (firstn_skipn k l) at 1.
  rewrite BufFacts.to_hex_app, BufFacts.toUpperCase_app.
  replace (2 * k)%nat
    with (String.length (Buf.toUpperCase (Buf.to_hex (firstn k l)))).
  - apply substring_prefix.
  - rewrite BufFacts.toUpperCase_length, BufFacts.to_hex_length, length_firstn. lia.
Qed.

(** A copy that lands at [off] leaves the bytes ahead of [off] alone. *)
Lemma firstn_copy_later (k : nat) (src target : list byte) (off : nat) :
  (k <= off)%nat -> firstn k (Buf.copy src target off) = firstn k target.
Proof.
  intros Hk. unfold Buf.copy. rewrite firstn_app, firstn_firstn, length_firstn.
  replace (Nat.min k off) with k by lia.
  destruct (Nat.le_gt_cases off (List.length target)) as [Hin | Hout].
  - replace (k - Nat.min off (List.length target))%nat with 0%nat by lia.
    rewrite firstn_O. apply app_nil_r.
  - replace (Nat.min (List.length src) (List.length target - off)) with 0%nat by lia.
    rewrite skipn_all2 by lia. rewrite firstn_O. simpl.
    rewrite firstn_nil. apply app_nil_r.
Qed.

(** A copy of exactly [n] bytes to the start of a zeroed buffer. *)
Lemma copy_to_front (src : list byte) (n m : nat) :
  List.length src = n -> (n <= m)%nat ->
  Buf.slice 0 n (Buf.copy src (Buf.alloc m) 0) = src.
Proof.
  intros Hn Hm. unfold Buf.slice, Buf.copy. rewrite BufFacts.alloc_length.
  replace (Nat.min (List.length src) (m - 0)) with (List.length src) by lia.
  rewrite firstn_all. simpl. rewrite Nat.sub_0_r.
  rewrite firstn_app. rewrite <- Hn, firstn_all, Nat.sub_diag, firstn_O.
  apply app_nil_r.
Qed.

Lemma byte_of_value (v : Z) (b : byte) :
  0 <= v -> Byte.of_N (Z.to_N v) = Some b -> Buf.byteZ b = v.
Proof.
  intros Hv Hb. unfold Buf.byteZ. apply Byte.to_of_N in Hb. rewrite Hb. lia.
Qed.

Lemma value_has_byte (v : Z) :
  0 <= v <= 255 -> exists b, Byte.of_N (Z.to_N v) = Some b.
Proof.
  intros Hv. destruct (Byte.of_N (Z.to_N v)) as [b |] eqn:E; [eauto |].
  apply Byte.of_N_None_iff in E. lia.
Qed.

Lemma memo_is_first (tx : Tx) (m : Memo) (ms : list Memo) (ty : string) :
  memo_type m = Some ty -> memo_is (with_memos tx (m :: ms)) 0 ty = true.
Proof. intros H. unfold memo_is. simpl. rewrite H. apply String.eqb_refl. Qed.

Ltac branch rt lc self tx R Hd Hg :=
  rewrite (legacy_extract_of_rule rt lc self Hd tx R); [| in_rules | exact Hg];
  cbn [rule_body].

(** X18: in the memo generation, the transaction that [propose] sends is
    classified as CandidateProposed, with the sender as owner and, as
    candidate id, the upper-case hex text of the first 32 bytes of the
    reference memo, which are the unique id computed from the hashes when
    that id is 32 bytes long; [propose] sends only for hashes of 96 bytes.
    The memo types are taken to be pairwise different. *)
Theorem legacy_propose_reports_unique_id (rt : Runtime) (lc : Constants)
    (self : Client) (hashes : string) (keylets : list string) (shortName : string)
    (memos : list Memo) (tx : Tx) :
  Classifier.distinct (memo_types lc) = true ->
  propose rt lc hashes keylets shortName = Returned memos ->
  let uniqueIdBuf := Buf.from_hex (getNewHookCandidateId rt (Buf.from_hex hashes)) in
  let sent := with_memos tx memos in
  List.length (Buf.from_hex hashes) = 96%nat
  /\ extractEvernodeEvent rt lc self sent
     = event CandidateProposed sent
         [ ("owner", Account tx);
           ("candidateId",
            JStr (Buf.toUpperCase
                    (Buf.to_hex (Buf.slice 0 32 (Buf.copy uniqueIdBuf (Buf.alloc 154) 0))))) ]
  /\ (List.length uniqueIdBuf = 32%nat ->
      Buf.slice 0 32 (Buf.copy uniqueIdBuf (Buf.alloc 154) 0) = uniqueIdBuf).
Proof.
  intros Hd Hp uniqueIdBuf sent. unfold propose in Hp.
  destruct (List.length (Buf.from_hex hashes) =? 96)%nat eqn:H96;
    [| discriminate Hp].
  apply Nat.eqb_eq in H96. cbn [negb] in Hp. injection Hp as <-.
  fold uniqueIdBuf in sent.
  set (buf := memoBuf uniqueIdBuf _ _) in sent.
  assert (Hbuf : List.length buf = 154%nat).
  { unfold buf, memoBuf. rewrite !BufFacts.copy_length. apply BufFacts.alloc_length. }
  split; [exact H96 |]. split.
  - assert (Hg : g_candidate_propose lc sent = true).
    { unfold g_candidate_propose, memos_ge, memo_is, memo_fmt, memo_has_data.
      unfold sent, with_memos.
      cbn [Memos nth_error memo_type memo_format memo_data List.length Nat.leb
           opt_eq_str truthy_str].
      rewrite !String.eqb_refl.
      rewrite !BufFacts.nonempty_text; [reflexivity | |];
        rewrite BufFacts.toUpperCase_length, BufFacts.to_hex_length; lia. }
    branch rt lc self sent
      {| rule_type := CANDIDATE_PROPOSE lc; rule_guard := g_candidate_propose lc;
         rule_body := b_candidate_propose |} Hd Hg.
    unfold b_candidate_propose, event. do 5 f_equal.
    change (Buf.substr 0 64 (memo_text sent 1))
      with (Buf.substr 0 (2 * 32) (Buf.toUpperCase (Buf.to_hex buf))).
    rewrite (hex_prefix 32 buf) by lia. do 2 f_equal.
    unfold buf, memoBuf, Buf.slice. cbn [skipn Nat.sub].
    unfold CANDIDATE_PROPOSE_KEYLETS_MEMO_OFFSET, CANDIDATE_PROPOSE_SHORT_NAME_MEMO_OFFSET,
      CANDIDATE_PROPOSE_UNIQUE_ID_MEMO_OFFSET, CANDIDATE_PROPOSE_MEMO_SIZE.
    rewrite !firstn_copy_later by lia. reflexivity.
  - intros H32. apply copy_to_front; [exact H32 | lia].
Qed.

Lemma legacy_propose_reports_unique_id_witness :
  Classifier.distinct (memo_types Examples.legacy_constants) = true
  /\ propose Reference.runtime Examples.legacy_constants MoreExamples.three_hashes
       [] "name" = Returned LegacyExamples.proposal_memos
  /\ extractEvernodeEvent Reference.runtime Examples.legacy_constants
       Examples.legacy_client
       (with_memos MoreExamples.legacy_payment LegacyExamples.proposal_memos)
     = event CandidateProposed
         (with_memos MoreExamples.legacy_payment LegacyExamples.proposal_memos)
         [ ("owner", JStr "rSender");
           ("candidateId",
            JStr "0000000001111111111111111111111111111111111111111111111111111111") ].
Proof.
  split; [vm_compute; reflexivity |].
  split; [vm_compute; reflexivity |].
  destruct (legacy_propose_reports_unique_id Reference.runtime Examples.legacy_constants
              Examples.legacy_client MoreExamples.three_hashes [] "name"
              LegacyExamples.proposal_memos MoreExamples.legacy_payment
              ltac:(vm_compute; reflexivity) ltac:(vm_compute; reflexivity))
    as [_ [Hev _]].
  rewrite Hev. vm_compute. reflexivity.
Defined.

(** X19: in the memo generation, [vote] sends nothing for a vote outside
    0..255 (the write into the one-byte field is a RangeError); for a vote
    inside, the transaction it sends is classified as FoundationVoted with
    that vote and, as candidate id, the upper-case hex text of the first 32
    bytes of the vote memo, which are the candidate id when it is 32 bytes
    long.  The memo types are taken to be pairwise different. *)
Theorem legacy_vote_round_trip (rt : Runtime) (lc : Constants) (self : Client)
    (candidateId : string) (v : Z) (tx : Tx) :
  Classifier.distinct (memo_types lc) = true ->
  let idBuf := Buf.from_hex candidateId in
  let voteBuf := Buf.copy idBuf (Buf.alloc 33) 0 in
  (v < 0 \/ 255 < v -> vote lc candidateId v = Thrown RangeError)
  /\ (0 <= v <= 255 ->
      exists memos,
        vote lc candidateId v = Returned memos
        /\ extractEvernodeEvent rt lc self (with_memos tx memos)
           = event FoundationVoted (with_memos tx memos)
               [ ("candidateId",
                  JStr (Buf.toUpperCase (Buf.to_hex (Buf.slice 0 32 voteBuf))));
                 ("vote", JNum v) ])
  /\ (List.length idBuf = 32%nat -> Buf.slice 0 32 voteBuf = idBuf).
Proof.
  intros Hd idBuf voteBuf. repeat split.
  - intros Hout. unfold vote, writeUInt8.
    replace ((v <? 0) || (255 <? v)) with true; [reflexivity |].
    symmetry. apply orb_true_iff. destruct Hout; [left | right]; lia.
  - intros Hin. unfold vote, writeUInt8.
    replace ((v <? 0) || (255 <? v)) with false
      by (symmetry; apply orb_false_iff; split; lia).
    destruct (value_has_byte v Hin) as [b Hb]. rewrite Hb.
    unfold CANDIDATE_VOTE_MEMO_SIZE, CANDIDATE_VOTE_UNIQUE_ID_MEMO_OFFSET,
      CANDIDATE_VOTE_VALUE_MEMO_OFFSET.
    fold idBuf. fold voteBuf.
    assert (Hlen : List.length voteBuf = 33%nat)
      by (unfold voteBuf; rewrite BufFacts.copy_length; apply BufFacts.alloc_length).
    rewrite Hlen. cbn [Nat.leb bind].
    eexists. split; [reflexivity |].
    set (written := firstn 32 voteBuf ++ b :: skipn 33 voteBuf).
    set (sent := with_memos tx _).
    assert (Hw : List.length written = 33%nat).
    { unfold written. rewrite length_app, length_firstn. cbn [List.length].
      rewrite length_skipn. lia. }
    assert (Hg : g_candidate_vote lc sent = true).
    { unfold g_candidate_vote, hex_memo, memos_ge, memo_is, memo_fmt, memo_has_data.
      unfold sent, with_memos.
      cbn [Memos nth_error memo_type memo_format memo_data List.length Nat.leb
           opt_eq_str truthy_str].
      rewrite !String.eqb_refl.
      rewrite BufFacts.nonempty_text; [reflexivity |].
      rewrite BufFacts.toUpperCase_length, BufFacts.to_hex_length. lia. }
    branch rt lc self sent
      {| rule_type := CANDIDATE_VOTE lc; rule_guard := g_candidate_vote lc;
         rule_body := b_candidate_vote |} Hd Hg.
    unfold b_candidate_vote.
    change (memo_text sent 0) with (Buf.toUpperCase (Buf.to_hex written)).
    rewrite BufFacts.from_hex_to_hex_upper.
    assert (Hs : Buf.slice 32 33 written = [b]).
    { unfold written.
      apply (BufFacts.slice_behind (firstn 32 voteBuf) [b] (skipn 33 voteBuf));
        rewrite length_firstn; cbn [List.length]; lia. }
    rewrite Hs. unfold Buf.readUInt8. cbn [nth_error bind].
    rewrite (byte_of_value v b) by (lia || exact Hb).
    change (Buf.substr 0 64 (Buf.toUpperCase (Buf.to_hex written)))
      with (Buf.substr 0 (2 * 32) (Buf.toUpperCase (Buf.to_hex written))).
    rewrite (hex_prefix 32 written) by lia.
    assert (Hf : firstn 32 written = Buf.slice 0 32 voteBuf).
    { unfold written, Buf.slice. cbn [skipn Nat.sub].
      rewrite firstn_app, firstn_firstn, length_firstn.
      replace (32 - Nat.min 32 (List.length voteBuf))%nat with 0%nat by lia.
      rewrite firstn_O, app_nil_r. reflexivity. }
    rewrite Hf. reflexivity.
  - intros H32. apply copy_to_front; [exact H32 | lia].
Qed.

Lemma legacy_vote_round_trip_witness :
  Classifier.distinct (memo_types Examples.legacy_constants) = true
  /\ vote Examples.legacy_constants MoreExamples.new_hook_id 256 = Thrown RangeError
  /\ (exists memos,
        vote Examples.legacy_constants MoreExamples.new_hook_id 1 = Returned memos
        /\ extractEvernodeEvent Reference.runtime Examples.legacy_constants
             Examples.legacy_client (with_memos MoreExamples.legacy_payment memos)
           = event FoundationVoted (with_memos MoreExamples.legacy_payment memos)
               [ ("candidateId",
                  JStr (Buf.toUpperCase
                          (Buf.to_hex
                             (Buf.slice 0 32
                                (Buf.copy (Buf.from_hex MoreExamples.new_hook_id)
                                   (Buf.alloc 33) 0)))));
                 ("vote", JNum 1) ]).
Proof.
  split; [vm_compute; reflexivity |].
  split.
  - exact (proj1 (legacy_vote_round_trip Reference.runtime Examples.legacy_constants
                    Examples.legacy_client MoreExamples.new_hook_id 256
                    MoreExamples.legacy_payment eq_refl)
             (or_intror eq_refl)).
  - exact (proj1 (proj2 (legacy_vote_round_trip Reference.runtime
                           Examples.legacy_constants Examples.legacy_client
                           MoreExamples.new_hook_id 1 MoreExamples.legacy_payment eq_refl))
             ltac:(lia)).
Defined.

(** X20: in the memo generation, [reportDudHost] puts the candidate id of
    the host into the memo, and the chain of the same file encodes that memo
    as an account id: the transaction is classified as DudHostReported only
    when the id text decodes to exactly 20 bytes; for a non-empty id text
    that decodes to any other number of bytes (a 32-byte candidate id, say)
    the classifier throws, and for an empty text it returns null.  The memo
    types are taken to be pairwise different. *)
Theorem legacy_dud_host_report (rt : Runtime) (lc : Constants) (self : Client)
    (candidateId : string) (tx : Tx) :
  Classifier.distinct (memo_types lc) = true ->
  let sent := with_memos tx (reportDudHost lc candidateId) in
  let bytes := Buf.from_hex candidateId in
  (candidateId = "" -> extractEvernodeEvent rt lc self sent = Returned None)
  /\ (candidateId <> "" -> List.length bytes <> 20%nat ->
      extractEvernodeEvent rt lc self sent = Thrown CodecError)
  /\ (List.length bytes = 20%nat ->
      extractEvernodeEvent rt lc self sent
      = event DudHostReported sent [ ("transferee", JStr (base58_account rt bytes)) ]).
Proof.
  intros Hd sent bytes.
  assert (Hguard : candidateId <> "" -> g_dud_host_report lc sent = true).
  { intros Hne.
    unfold g_dud_host_report, hex_memo, memos_ge, memo_is, memo_fmt, memo_has_data.
    cbn. rewrite !String.eqb_refl. cbn.
    destruct candidateId; [contradiction | reflexivity]. }
  assert (Hbody : candidateId <> "" ->
                  extractEvernodeEvent rt lc self sent
                  = b_dud_host_report rt sent).
  { intros Hne. pose proof (Hguard Hne) as Hg.
    branch rt lc self sent
      {| rule_type := DUD_HOST_REPORT lc; rule_guard := g_dud_host_report lc;
         rule_body := b_dud_host_report rt |} Hd Hg.
    reflexivity. }
  repeat split.
  - intros ->. apply legacy_extract_no_rule. intros r Hin.
    destruct (rule_guard r sent) eqn:Hg; [| reflexivity].
    pose proof (legacy_guard_asks_type rt lc self sent) as HF.
    rewrite Forall_forall in HF. destruct (HF r Hin Hg) as [Hty _].
    assert (r = {| rule_type := DUD_HOST_REPORT lc; rule_guard := g_dud_host_report lc;
                   rule_body := b_dud_host_report rt |}) as ->.
    { apply (DispatchFacts.NoDup_map_eq rule_type (rules rt lc self)); auto.
      - apply legacy_rule_types_distinct. exact Hd.
      - in_rules.
      - cbn [rule_type].
        apply (LegacyFacts.memo_is_unique sent 0 _ _ Hty).
        unfold memo_is. cbn. apply String.eqb_refl. }
    cbn [rule_guard] in Hg.
    unfold g_dud_host_report, hex_memo, memo_has_data in Hg.
    unfold sent, with_memos, reportDudHost in Hg.
    cbn [Memos nth_error memo_data truthy_str String.eqb negb] in Hg.
    rewrite andb_false_r in Hg. discriminate Hg.
  - intros Hne Hlen. rewrite (Hbody Hne). unfold b_dud_host_report, encodeAccountID.
    change (Buf.from_hex (memo_text sent 0)) with bytes.
    apply Nat.eqb_neq in Hlen. rewrite Hlen. reflexivity.
  - intros Hlen.
    assert (Hne : candidateId <> "") by (intros ->; discriminate Hlen).
    rewrite (Hbody Hne). unfold b_dud_host_report, encodeAccountID.
    change (Buf.from_hex (memo_text sent 0)) with bytes.
    rewrite Hlen. reflexivity.
Qed.

Lemma legacy_dud_host_report_witness :
  Classifier.distinct (memo_types Examples.legacy_constants) = true
  /\ extractEvernodeEvent Reference.runtime Examples.legacy_constants
       Examples.legacy_client
       (with_memos MoreExamples.legacy_payment
          (reportDudHost Examples.legacy_constants Examples.dud_host_id))
     = Thrown CodecError.
Proof.
  split; [vm_compute; reflexivity |].
  apply (proj1 (proj2 (legacy_dud_host_report Reference.runtime Examples.legacy_constants
                         Examples.legacy_client Examples.dud_host_id
                         MoreExamples.legacy_payment eq_refl))).
  - vm_compute. discriminate.
  - vm_compute. discriminate.
Defined.

End LegacySenderFacts.

(** ** The defaults and the constructor *)

Module DefaultsFacts.

Import Defaults.







Lemma values_of_complete (defaults : Object) :
  (forall k, In k RequiredInfoKeys -> truthy (lookup_field k defaults) = true) ->
  values defaults = Returned defaults.
Proof.
  intros Hall. unfold values.
  destruct (find _ RequiredInfoKeys) as [k |] eqn:F; [| reflexivity].
  apply find_some in F as [Hin Hk]. rewrite (Hall k Hin) in Hk. discriminate Hk.
Qed.

(** [useNetwork] for a name the table lacks: a name inherited from
    [Object.prototype] leaves the defaults as they are, any other name is
    refused. *)
Lemma useNetwork_outside_table (Definitions : list (string * Object))
    (network : string) (defaults : Object) :
  find (fun e => String.eqb (fst e) network) Definitions = None ->
  (In network ObjectPrototypeNames ->
   useNetwork Definitions network defaults = Returned defaults)
  /\ (~ In network ObjectPrototypeNames ->
      useNetwork Definitions network defaults = Thrown (Message "Invalid network")).
Proof.
  intros Hf. unfold useNetwork. rewrite Hf. split; intros Hin.
  - assert (E : existsb (String.eqb network) ObjectPrototypeNames = true).
    { apply existsb_exists. exists network. split; [exact Hin | apply String.eqb_refl]. }
    rewrite E. reflexivity.
  - destruct (existsb (String.eqb network) ObjectPrototypeNames) eqn:E; [| reflexivity].
    exfalso. apply Hin. apply existsb_exists in E as [x [Hx Hn]].
    apply String.eqb_eq in Hn. now subst x.
Qed.



(** X22: [Defaults.values] returns the defaults exactly when each of the
    four required keys holds a truthy value; otherwise it throws the message
    that names the first required key, in the order governorAddress,
    rippledServer, stateIndexId, networkID, whose value is falsy.  A network
    id of 0 counts as not set. *)
Theorem values_names_first_missing (defaults : Object) :
  (values defaults = Returned defaults
   <-> forall k, In k RequiredInfoKeys -> truthy (lookup_field k defaults) = true)
  /\ (forall pre k post,
        RequiredInfoKeys = pre ++ k :: post ->
        (forall k', In k' pre -> truthy (lookup_field k' defaults) = true) ->
        truthy (lookup_field k defaults) = false ->
        values defaults = Thrown (Message ("Value for " ++ k ++ " is not set.")))
  /\ (truthy (lookup_field "governorAddress" defaults) = true ->
      truthy (lookup_field "rippledServer" defaults) = true ->
      truthy (lookup_field "stateIndexId" defaults) = true ->
      lookup_field "networkID" defaults = JNum 0 ->
      values defaults = Thrown (Message "Value for networkID is not set.")).
Proof.
  assert (Hfirst : forall pre k post,
            RequiredInfoKeys = pre ++ k :: post ->
            (forall k', In k' pre -> truthy (lookup_field k' defaults) = true) ->
            truthy (lookup_field k defaults) = false ->
            values defaults = Thrown (Message ("Value for " ++ k ++ " is not set."))).
  { intros pre k post Hsplit Hpre Hk. unfold values. rewrite Hsplit.
    clear Hsplit. induction pre as [| p pre IH]; simpl.
    - rewrite Hk. reflexivity.
    - rewrite (Hpre p) by now left. simpl. apply IH.
      intros k' Hin. apply Hpre. now right. }
  split; [| split].
  - split.
    + intros Hv k Hin. unfold values in Hv.
      destruct (find _ RequiredInfoKeys) as [k0 |] eqn:F; [discriminate Hv |].
      pose proof (find_none _ _ F k Hin) as Hk. simpl in Hk.
      now apply negb_false_iff in Hk.
    + apply values_of_complete.
  - exact Hfirst.
  - intros Hg Hr Hs Hn.
    apply (Hfirst [ "governorAddress"; "rippledServer"; "stateIndexId" ] "networkID" []);
      [reflexivity | | rewrite Hn; reflexivity].
    intros k' Hin. simpl in Hin.
    repeat (destruct Hin as [<- | Hin]; [assumption |]). contradiction.
Qed.

End DefaultsFacts.

Module ConstructionFacts.

Import Construction.

(** A text of 66 hex digits decodes to 33 bytes. *)
Lemma from_hex_all_hex (n : nat) (s : string) :
  String.length s = (2 * n)%nat ->
  forallb is_hex_digit (list_ascii_of_string s) = true ->
  List.length (Buf.from_hex s) = n.
Proof.
  revert s. induction n as [| n IH]; intros s Hlen Hall.
  - destruct s; [reflexivity | discriminate Hlen].
  - destruct s as [| c1 [| c2 s]]; try (simpl in Hlen; lia).
    cbn [list_ascii_of_string forallb] in Hall.
    apply andb_true_iff in Hall as [H1 Hall].
    apply andb_true_iff in Hall as [H2 Hall].
    unfold is_hex_digit in H1, H2. cbn [Buf.from_hex].
    destruct (Buf.unhex c1); [| discriminate H1].
    destruct (Buf.unhex c2); [| discriminate H2].
    cbn [List.length]. f_equal. apply IH; [simpl in Hlen; lia | exact Hall].
Qed.

Lemma hex_key_bytes (s : string) :
  PublicPrivateKey s = true ->
  String.length s = 66%nat /\ List.length (Buf.from_hex s) = 33%nat.
Proof.
  unfold PublicPrivateKey. intros H. apply andb_true_iff in H as [Hl Hd].
  apply Nat.eqb_eq in Hl. split; [exact Hl |].
  apply from_hex_all_hex; [rewrite Hl; reflexivity | exact Hd].
Qed.

(** Without an API object in the options the defaults are read, and what
    they throw is what the constructor throws. *)
Lemma construct_reads_defaults (rt : Runtime)
    (newXrplApi : jsval -> Outcome jsval)
    (newXrplAccount : jsval -> jsval -> jsval -> Outcome jsval)
    (deriveKeypair : jsval -> Outcome jsval)
    (defaults options : Defaults.Object) (xrpAddress xrpSecret : jsval) (e : JsError) :
  truthy (lookup_field "xrplApi" options) = false ->
  Defaults.values defaults = Thrown e ->
  construct rt newXrplApi newXrplAccount deriveKeypair
    defaults xrpAddress xrpSecret options = Thrown e.
Proof.
  intros Hapi Hv. unfold construct. rewrite Hapi, Hv.
  destruct (truthy (lookup_field "governorAddress" options)); reflexivity.
Qed.

(** With a governor address and an API object in the options the defaults
    are not read. *)
Lemma construct_ignores_defaults (rt : Runtime)
    (newXrplApi : jsval -> Outcome jsval)
    (newXrplAccount : jsval -> jsval -> jsval -> Outcome jsval)
    (deriveKeypair : jsval -> Outcome jsval)
    (defaults defaults' options : Defaults.Object) (xrpAddress xrpSecret : jsval) :
  truthy (lookup_field "governorAddress" options) = true ->
  truthy (lookup_field "xrplApi" options) = true ->
  construct rt newXrplApi newXrplAccount deriveKeypair
    defaults xrpAddress xrpSecret options
  = construct rt newXrplApi newXrplAccount deriveKeypair
      defaults' xrpAddress xrpSecret options.
Proof.
  intros Hg Hapi. unfold construct. rewrite Hg, Hapi. reflexivity.
Qed.

(** X23: the constructor reads the defaults whenever the options carry no
    API object, so it throws what [Defaults.values] throws for incomplete
    defaults even when the options name the governor address; with both a
    governor address and an API object in the options the defaults play no
    part, the client takes both from the options and does not own the API
    object. *)
Theorem constructor_and_defaults (rt : Runtime)
    (newXrplApi : jsval -> Outcome jsval)
    (newXrplAccount : jsval -> jsval -> jsval -> Outcome jsval)
    (deriveKeypair : jsval -> Outcome jsval)
    (defaults options : Defaults.Object) (xrpAddress xrpSecret : jsval) :
  (forall e, truthy (lookup_field "xrplApi" options) = false ->
             Defaults.values defaults = Thrown e ->
             construct rt newXrplApi newXrplAccount deriveKeypair
               defaults xrpAddress xrpSecret options = Thrown e)
  /\ (truthy (lookup_field "governorAddress" options) = true ->
      truthy (lookup_field "xrplApi" options) = true ->
      (forall defaults',
         construct rt newXrplApi newXrplAccount deriveKeypair
           defaults xrpAddress xrpSecret options
         = construct rt newXrplApi newXrplAccount deriveKeypair
             defaults' xrpAddress xrpSecret options)
      /\ forall c,
           construct rt newXrplApi newXrplAccount deriveKeypair
             defaults xrpAddress xrpSecret options = Returned c ->
           governorAddress c = lookup_field "governorAddress" options
           /\ xrplApi c = lookup_field "xrplApi" options
           /\ ownsXrplApi c = false).
Proof.
  split.
  - intros e. apply construct_reads_defaults.
  - intros Hg Hapi. split.
    + intros defaults'. now apply construct_ignores_defaults.
    + intros c H. unfold construct in H. rewrite Hg, Hapi in H.
      cbn [bind negb] in H.
      repeat match type of H with
             | bind _ _ = Returned _ =>
                 let a := fresh "a" in let Ha := fresh "Ha" in
                 apply ClassifierFacts.bind_returned in H; destruct H as [a [Ha H]]
             end.
      match type of H with
      | (if ?cnd then _ else _) = _ => destruct cnd; [discriminate H |]
      end.
      injection H as <-. repeat split.
Qed.

(** X24: a client that the constructor returns holds no message key (a
    falsy value), or one that is 66 hex digits, a text that decodes to 33
    bytes; a key in the options is the one it holds (the key derived from
    the secret is not looked at), and without a key in the options and
    without a secret it holds null. *)
Theorem constructed_message_key (rt : Runtime)
    (newXrplApi : jsval -> Outcome jsval)
    (newXrplAccount : jsval -> jsval -> jsval -> Outcome jsval)
    (deriveKeypair : jsval -> Outcome jsval)
    (defaults options : Defaults.Object) (xrpAddress xrpSecret : jsval) (c : Built) :
  construct rt newXrplApi newXrplAccount deriveKeypair
    defaults xrpAddress xrpSecret options = Returned c ->
  (truthy (messagePrivateKey c) = false \/ test_key rt (messagePrivateKey c) = true)
  /\ (truthy (lookup_field "messagePrivateKey" options) = true ->
      messagePrivateKey c = lookup_field "messagePrivateKey" options)
  /\ (truthy (lookup_field "messagePrivateKey" options) = false ->
      truthy xrpSecret = false -> messagePrivateKey c = JNull)
  /\ (forall s, messagePrivateKey c = JStr s ->
                 s = ""
                 \/ (String.length s = 66%nat /\ List.length (Buf.from_hex s) = 33%nat)).
Proof.
  unfold construct. intros H.
  repeat match type of H with
         | bind _ _ = Returned _ =>
             let a := fresh "a" in let Ha := fresh "Ha" in
             apply ClassifierFacts.bind_returned in H; destruct H as [a [Ha H]]
         end.
  match type of H with
  | (if ?cnd then _ else _) = _ => destruct cnd eqn:Hc; [discriminate H |]
  end.
  injection H as <-. cbn [messagePrivateKey].
  assert (Hkey : truthy a4 = false \/ test_key rt a4 = true).
  { apply andb_false_iff in Hc as [Hc | Hc]; [now left | right].
    now apply negb_false_iff in Hc. }
  split; [exact Hkey |]. split; [| split].
  - intros Ho. rewrite Ho in *. now injection Ha4 as <-.
  - intros Ho Hs. rewrite Ho in *. rewrite Hs in Ha3.
    injection Ha3 as <-. rewrite Hs in Ha4. now injection Ha4 as <-.
  - intros s ->. destruct Hkey as [Hf | Ht].
    + left. cbn [truthy] in Hf. apply negb_false_iff in Hf.
      now apply String.eqb_eq in Hf.
    + right. cbn [test_key] in Ht. now apply hex_key_bytes.
Qed.

Lemma constructed_message_key_witness :
  exists c,
    construct Reference.runtime ConstructionExamples.newXrplApi
      ConstructionExamples.newXrplAccount ConstructionExamples.deriveKeypair
      (Defaults.set Defaults.DefaultValues ConstructionExamples.network_defaults)
      (JStr "rHostAccount") (JStr "secret") []
    = Returned c
    /\ messagePrivateKey c = JStr ConstructionExamples.derived_key
    /\ (truthy (messagePrivateKey c) = false
        \/ test_key Reference.runtime (messagePrivateKey c) = true).
Proof.
  eexists. split; [vm_compute; reflexivity |]. split; [reflexivity |].
  exact (proj1 (constructed_message_key Reference.runtime
                  ConstructionExamples.newXrplApi ConstructionExamples.newXrplAccount
                  ConstructionExamples.deriveKeypair
                  (Defaults.set Defaults.DefaultValues ConstructionExamples.network_defaults)
                  [] (JStr "rHostAccount") (JStr "secret") _
                  ltac:(vm_compute; reflexivity))).
Defined.

End ConstructionFacts.

(** ** Reading all pages *)

Module PagingFacts.

Import Paging.

(** The loop collects the pages of a chain, in order, behind what it
    already holds. *)
Lemma drain_chain {A} (handler : jsval -> jsval -> jsval -> Outcome (Answer A))
    (tok : jsval) (pages : list (list A)) :
  Chain handler tok pages -> truthy tok = true ->
  forall fuel full, (List.length pages <= fuel)%nat ->
  drain handler fuel tok full = Some (Returned (full ++ map Row (List.concat pages))).
Proof.
  induction 1 as [tok rows Hh | tok tok' data rest Hh Ht' Hc IH];
    intros Ht fuel full Hfuel.
  - destruct fuel as [| fuel]; [simpl in Hfuel; lia |].
    cbn [drain]. rewrite Ht, Hh. cbn [negb token_of concat_answer].
    destruct fuel; cbn [drain truthy negb List.concat]; rewrite app_nil_r; reflexivity.
  - destruct fuel as [| fuel]; [simpl in Hfuel; lia |].
    cbn [drain]. rewrite Ht, Hh. cbn [negb token_of concat_answer]. rewrite Ht'.
    rewrite (IH Ht' fuel) by (simpl in Hfuel; lia).
    cbn [List.concat]. rewrite map_app, app_assoc. reflexivity.
Qed.

(** A store that always names a next page keeps the loop going. *)
Lemma drain_without_end {A} (handler : jsval -> jsval -> jsval -> Outcome (Answer A)) :
  (forall tok, truthy tok = true ->
               exists data tok', handler JNull (JNum 50) tok = Returned (Page data tok')
                                 /\ truthy tok' = true) ->
  forall fuel tok full, truthy tok = true -> drain handler fuel tok full = None.
Proof.
  intros Hmore. induction fuel as [| fuel IH]; intros tok full Ht.
  - cbn [drain]. rewrite Ht. reflexivity.
  - cbn [drain]. rewrite Ht. cbn [negb].
    destruct (Hmore tok Ht) as [data [tok' [Hh Ht']]]. rewrite Hh.
    cbn [token_of]. now apply IH.
Qed.

(** X25: [getAllHosts], [getAllConfigs] and [getAllCandidates] return the
    rows of the first answer when it names no next page, and otherwise the
    rows of the first page followed by the rows of every page of the chain
    of next-page tokens, in order, each once; an exception of the store is
    the exception of the call. *)
Theorem all_pages_collected {A}
    (handler : jsval -> jsval -> jsval -> Outcome (Answer A)) (fuel : nat) :
  (forall rows,
     handler JUndefined JUndefined JUndefined = Returned (Rows rows) ->
     getAll handler fuel = Some (Returned (map Row rows)))
  /\ (forall data tok pages,
        handler JUndefined JUndefined JUndefined = Returned (Page data tok) ->
        truthy tok = true -> Chain handler tok pages ->
        (List.length pages <= fuel)%nat ->
        getAll handler fuel = Some (Returned (map Row (data ++ List.concat pages))))
  /\ (forall e,
        handler JUndefined JUndefined JUndefined = Thrown e ->
        getAll handler fuel = Some (Thrown e)).
Proof.
  unfold getAll. repeat split.
  - intros rows ->. reflexivity.
  - intros data tok pages -> Ht Hc Hfuel. rewrite Ht.
    rewrite (drain_chain handler tok pages Hc Ht fuel _ Hfuel).
    rewrite map_app. reflexivity.
  - intros e ->. reflexivity.
Qed.

Lemma all_pages_collected_witness :
  getAll PagingExamples.three_pages 2
  = Some (Returned (map Row [ "a"; "b"; "c"; "d"; "e" ])).
Proof.
  apply (proj1 (proj2 (all_pages_collected PagingExamples.three_pages 2))
           [ "a"; "b" ] (JStr "p2") [ [ "c"; "d" ]; [ "e" ] ]).
  - reflexivity.
  - reflexivity.
  - apply (chain_more _ _ (JStr "p2") (JStr "p3")); [reflexivity | reflexivity |].
    apply chain_last. reflexivity.
  - simpl. lia.
Defined.

(** X26: the loop of [getAllHosts], [getAllConfigs] and [getAllCandidates]
    has no bound of its own: for a store that names a next page in every
    answer, no number of rounds lets the call return. *)
Theorem pages_without_end_never_return {A}
    (handler : jsval -> jsval -> jsval -> Outcome (Answer A))
    (data : list A) (tok : jsval) :
  handler JUndefined JUndefined JUndefined = Returned (Page data tok) ->
  truthy tok = true ->
  (forall tok, truthy tok = true ->
               exists data tok', handler JNull (JNum 50) tok = Returned (Page data tok')
                                 /\ truthy tok' = true) ->
  forall fuel, getAll handler fuel = None.
Proof.
  intros Hfirst Ht Hmore fuel. unfold getAll. rewrite Hfirst, Ht.
  now apply drain_without_end.
Qed.

Lemma pages_without_end_never_return_witness :
  getAll PagingExamples.same_page 1000 = None.
Proof.
  apply (pages_without_end_never_return PagingExamples.same_page [ "a" ] (JStr "p1")).
  - reflexivity.
  - reflexivity.
  - intros tok _. exists [ "a" ], (JStr "p1"). split; reflexivity.
Defined.

End PagingFacts.

(** ** The hook client of the first generation *)

Module OldHookFacts.

Import OldHook.

Lemma slice_from_start (n : nat) (l : list byte) : Buf.slice 0 (0 + n) l = firstn n l.
Proof. unfold Buf.slice. simpl. now rewrite Nat.sub_0_r. Qed.

Lemma read_at_start (l : list byte) (n : nat) :
  ((n <= List.length l)%nat -> Buf.read_bytes l 0 n = Returned (firstn n l))
  /\ ((List.length l < n)%nat -> Buf.read_bytes l 0 n = Thrown RangeError).
Proof.
  split; intros H.
  - rewrite ReputationFacts.read_bytes_in_range by (simpl; lia).
    now rewrite slice_from_start.
  - apply ReputationFacts.read_bytes_out_of_range. simpl. lia.
Qed.

Lemma value_range (isBE : bool) (n : nat) (l : list byte) :
  (n <= List.length l)%nat ->
  0 <= (if isBE then Buf.be_value (firstn n l) else Buf.le_value (firstn n l))
    < 256 ^ Z.of_nat n.
Proof.
  intros Hn.
  pose proof (BranchFacts.be_value_range (firstn n l)) as Hb.
  pose proof (BranchFacts.le_value_range (firstn n l)) as Hl.
  rewrite length_firstn in Hb, Hl.
  replace (Nat.min n (List.length l)) with n in Hb, Hl by lia.
  destruct isBE; assumption.
Qed.

(** The bases 8, 16 and 32: the first bytes in the byte order asked for. *)
Lemma readUInt_width (buf : list byte) (isBE : bool) (base : Z) (n : nat) :
  In (base, n) [ (8, 1%nat); (16, 2%nat); (32, 4%nat) ] ->
  let value := if isBE then Buf.be_value (firstn n buf) else Buf.le_value (firstn n buf) in
  ((n <= List.length buf)%nat ->
   readUInt buf base isBE = Returned value /\ 0 <= value < 2 ^ base)
  /\ ((List.length buf < n)%nat -> readUInt buf base isBE = Thrown RangeError).
Proof.
  intros Hin value. simpl in Hin.
  destruct Hin as [E | [E | [E | []]]]; injection E as <- <-; split.
  - intros Hn. split.
    + unfold readUInt, value. cbn [Z.eqb Pos.eqb].
      destruct buf as [| b buf]; [simpl in Hn; lia |].
      unfold Buf.readUInt8, Buf.be_value. cbn.
      destruct isBE; f_equal; lia.
    + pose proof (value_range isBE 1 buf Hn). unfold value. simpl in *. lia.
  - intros Hn. destruct buf; [reflexivity | simpl in Hn; lia].
  - intros Hn. split.
    + unfold readUInt, value, readUInt16BE, Buf.readUInt16LE. cbn [Z.eqb Pos.eqb].
      rewrite (proj1 (read_at_start buf 2) Hn). destruct isBE; reflexivity.
    + pose proof (value_range isBE 2 buf Hn). unfold value. simpl in *. lia.
  - intros Hn. unfold readUInt, readUInt16BE, Buf.readUInt16LE. cbn [Z.eqb Pos.eqb].
    rewrite (proj2 (read_at_start buf 2) Hn). destruct isBE; reflexivity.
  - intros Hn. split.
    + unfold readUInt, value, Buf.readUInt32BE, readUInt32LE. cbn [Z.eqb Pos.eqb].
      rewrite (proj1 (read_at_start buf 4) Hn). destruct isBE; reflexivity.
    + pose proof (value_range isBE 4 buf Hn). unfold value. simpl in *. lia.
  - intros Hn. unfold readUInt, Buf.readUInt32BE, readUInt32LE. cbn [Z.eqb Pos.eqb].
    rewrite (proj2 (read_at_start buf 4) Hn). destruct isBE; reflexivity.
Qed.

Lemma readUInt_64 (buf : list byte) (isBE : bool) :
  let value := if isBE then Buf.be_value (firstn 8 buf) else Buf.le_value (firstn 8 buf) in
  ((8 <= List.length buf)%nat ->
   readUInt buf 64 isBE = Returned (Buf.Number_of_BigInt value))
  /\ ((List.length buf < 8)%nat -> readUInt buf 64 isBE = Thrown RangeError).
Proof.
  intros value. split; intros Hn;
    unfold readUInt, value, readBigUInt64BE, Buf.readBigUInt64LE; cbn [Z.eqb Pos.eqb].
  - rewrite (proj1 (read_at_start buf 8) Hn). destruct isBE; reflexivity.
  - rewrite (proj2 (read_at_start buf 8) Hn). destruct isBE; reflexivity.
Qed.

(** X27: [readUInt] reads the first 1, 2 or 4 bytes of the buffer for the
    bases 8, 16 and 32, in the byte order asked for, and returns a number
    below 2^base; for base 64 it reads 8 bytes and returns their value as a
    number, exact below 2^53; a buffer shorter than the field is a
    RangeError, and any other base throws 'Invalid base value' whatever the
    buffer holds. *)
Theorem readUInt_decodes (buf : list byte) (isBE : bool) :
  let value (n : nat) :=
    if isBE then Buf.be_value (firstn n buf) else Buf.le_value (firstn n buf) in
  (forall base n, In (base, n) [ (8, 1%nat); (16, 2%nat); (32, 4%nat) ] ->
     ((n <= List.length buf)%nat ->
      readUInt buf base isBE = Returned (value n) /\ 0 <= value n < 2 ^ base)
     /\ ((List.length buf < n)%nat -> readUInt buf base isBE = Thrown RangeError))
  /\ ((8 <= List.length buf)%nat ->
      readUInt buf 64 isBE = Returned (Buf.Number_of_BigInt (value 8%nat))
      /\ (value 8%nat < 2 ^ 53 -> Buf.Number_of_BigInt (value 8%nat) = value 8%nat))
  /\ ((List.length buf < 8)%nat -> readUInt buf 64 isBE = Thrown RangeError)
  /\ (forall base, ~ In base [ 8; 16; 32; 64 ] ->
        readUInt buf base isBE = Thrown (Message "Invalid base value")).
Proof.
  intros value. split; [| split; [| split]].
  - intros base n Hin. exact (readUInt_width buf isBE base n Hin).
  - intros Hn. split.
    + exact (proj1 (readUInt_64 buf isBE) Hn).
    + intros Hsmall. unfold Buf.Number_of_BigInt.
      destruct (Z.ltb_spec (value 8%nat) (2 ^ 53)); [reflexivity | lia].
  - exact (proj2 (readUInt_64 buf isBE)).
  - intros base Hbase. unfold readUInt. simpl in Hbase.
    destruct (Z.eqb_spec base 8); [exfalso; apply Hbase; subst; intuition |].
    destruct (Z.eqb_spec base 16); [exfalso; apply Hbase; subst; intuition |].
    destruct (Z.eqb_spec base 32); [exfalso; apply Hbase; subst; intuition |].
    destruct (Z.eqb_spec base 64); [exfalso; apply Hbase; subst; intuition |].
    reflexivity.
Qed.

Lemma read_or_default_returned (buf : option (list byte)) (base : Z)
    (dflt got : jsval) :
  read_or_default buf base dflt = Returned got ->
  match buf with
  | None => got = dflt
  | Some b => exists v, readUInt b base true = Returned v /\ got = JNum v
  end.
Proof.
  unfold read_or_default. destruct buf as [b |].
  - intros H. apply ClassifierFacts.bind_returned in H as [v [Hv H]].
    injection H as <-. eauto.
  - intros H. now injection H as <-.
Qed.

Lemma read_16_returned (b : list byte) (v : Z) :
  readUInt b 16 true = Returned v ->
  (2 <= List.length b)%nat /\ v = Buf.be_value (firstn 2 b) /\ 0 <= v < 65536.
Proof.
  intros H.
  destruct (Nat.le_gt_cases 2 (List.length b)) as [Hn | Hn].
  - destruct (readUInt_width b true 16 2%nat ltac:(simpl; tauto)) as [Hok _].
    destruct (Hok Hn) as [Hv Hr]. rewrite Hv in H. injection H as <-.
    repeat split; try lia; apply Hr.
  - destruct (readUInt_width b true 16 2%nat ltac:(simpl; tauto)) as [_ Hshort].
    rewrite (Hshort Hn) in H. discriminate H.
Qed.

Lemma read_64_returned (b : list byte) (v : Z) :
  readUInt b 64 true = Returned v ->
  (8 <= List.length b)%nat /\ v = Buf.Number_of_BigInt (Buf.be_value (firstn 8 b)).
Proof.
  intros H.
  destruct (Nat.le_gt_cases 8 (List.length b)) as [Hn | Hn].
  - rewrite (proj1 (readUInt_64 b true) Hn) in H. injection H as <-. tauto.
  - rewrite (proj2 (readUInt_64 b true) Hn) in H. discriminate H.
Qed.

Lemma readBigInt64BE_throws (b : list byte) (e : JsError) :
  readBigInt64BE b 0 = Thrown e -> e = RangeError.
Proof.
  unfold readBigInt64BE, Buf.read_bytes.
  destruct (0 + 8 <=? List.length b)%nat; simpl; intros H; [discriminate H |].
  now injection H as <-.
Qed.

(** X28: in a config that [getConfig] returns, the moment size and the
    redeem window are the defaults when no state has their key, and
    otherwise the first two bytes of the first state with the key, read
    big-endian, a number below 65536; likewise the moment base index with
    eight bytes.  A state that has the key but fewer bytes than the field
    does not fall back to the default: [getConfig] throws a RangeError.
    With none of the four keys among the states the config is the
    defaults. *)
Theorem old_config_fields (keys : HookStateKeys) (defaults : Config)
    (XflHelpers_toString : Z -> jsval) (states : list HookState)
    (decoded : list (option string * list byte)) :
  decode_states states = Returned decoded ->
  let uint16 (k : string) (dflt got : jsval) :=
    match getStateData decoded k with
    | None => got = dflt
    | Some b => (2 <= List.length b)%nat
                /\ got = JNum (Buf.be_value (firstn 2 b))
                /\ 0 <= Buf.be_value (firstn 2 b) < 65536
    end in
  (forall c,
     getConfig keys defaults XflHelpers_toString states = Returned c ->
     uint16 (MOMENT_SIZE keys) (momentSize defaults) (momentSize c)
     /\ uint16 (REDEEM_WINDOW keys) (redeemWindow defaults) (redeemWindow c)
     /\ match getStateData decoded (MOMENT_BASE_IDX keys) with
        | None => momentBaseIdx c = momentBaseIdx defaults
        | Some b => (8 <= List.length b)%nat
                    /\ momentBaseIdx c
                       = JNum (Buf.Number_of_BigInt (Buf.be_value (firstn 8 b)))
        end)
  /\ (forall b,
        getStateData decoded (MOMENT_SIZE keys) = Some b -> (List.length b < 2)%nat ->
        getConfig keys defaults XflHelpers_toString states = Thrown RangeError)
  /\ (getStateData decoded (HOST_REG_FEE keys) = None ->
      getStateData decoded (MOMENT_SIZE keys) = None ->
      getStateData decoded (REDEEM_WINDOW keys) = None ->
      getStateData decoded (MOMENT_BASE_IDX keys) = None ->
      getConfig keys defaults XflHelpers_toString states = Returned defaults).
Proof.
  intros Hdec uint16. unfold getConfig. rewrite Hdec. cbn [bind].
  split; [| split].
  - intros c H.
    repeat match type of H with
           | bind _ _ = Returned _ =>
               let a := fresh "a" in let Ha := fresh "Ha" in
               apply ClassifierFacts.bind_returned in H; destruct H as [a [Ha H]]
           end.
    injection H as <-. cbn [momentSize redeemWindow momentBaseIdx].
    apply read_or_default_returned in Ha0, Ha1, Ha2.
    unfold uint16. repeat split.
    + destruct (getStateData decoded (MOMENT_SIZE keys)) as [b |]; [| exact Ha0].
      destruct Ha0 as [v [Hv ->]]. apply read_16_returned in Hv as [Hn [-> Hr]].
      repeat split; tauto || lia.
    + destruct (getStateData decoded (REDEEM_WINDOW keys)) as [b |]; [| exact Ha1].
      destruct Ha1 as [v [Hv ->]]. apply read_16_returned in Hv as [Hn [-> Hr]].
      repeat split; tauto || lia.
    + destruct (getStateData decoded (MOMENT_BASE_IDX keys)) as [b |]; [| exact Ha2].
      destruct Ha2 as [v [Hv ->]]. apply read_64_returned in Hv as [Hn ->].
      split; [exact Hn | reflexivity].
  - intros b Hb Hshort. rewrite Hb.
    assert (Hfee : forall m : Outcome jsval,
              (forall e, m = Thrown e -> e = RangeError) ->
              bind m (fun hostRegFee =>
                bind (read_or_default (Some b) 16 (momentSize defaults)) (fun momentSize =>
                bind (read_or_default (getStateData decoded (REDEEM_WINDOW keys)) 16
                        (redeemWindow defaults)) (fun redeemWindow =>
                bind (read_or_default (getStateData decoded (MOMENT_BASE_IDX keys)) 64
                        (momentBaseIdx defaults)) (fun momentBaseIdx =>
                Returned {| hostRegFee := hostRegFee; momentSize := momentSize;
                            redeemWindow := redeemWindow;
                            momentBaseIdx := momentBaseIdx |}))))
              = Thrown RangeError).
    { intros m Hm. destruct m as [fee | e].
      - cbn [bind read_or_default].
        destruct (readUInt_width b true 16 2%nat ltac:(simpl; tauto)) as [_ Hs].
        rewrite (Hs Hshort). reflexivity.
      - cbn [bind]. now rewrite (Hm e eq_refl). }
    apply Hfee.
    destruct (getStateData decoded (HOST_REG_FEE keys)) as [fb |].
    + intros e He. destruct (readBigInt64BE fb 0) as [x | e'] eqn:Er.
      * discriminate He.
      * cbn [bind] in He. injection He as <-. now apply (readBigInt64BE_throws fb).
    + intros e He. discriminate He.
  - intros -> -> -> ->. cbn [bind read_or_default]. destruct defaults. reflexivity.
Qed.

Lemma old_config_fields_witness :
  decode_states [ OldHookExamples.moment_size_state ]
  = Returned [ (Some "45565202", [ x01; x04 ]) ]
  /\ getConfig OldHookExamples.keys OldHookExamples.defaults
       OldHookExamples.XflHelpers_toString [ OldHookExamples.moment_size_state ]
     = Returned {| hostRegFee := JNum 5; momentSize := JNum 260;
                   redeemWindow := JNum 12; momentBaseIdx := JNum 0 |}
  /\ getConfig OldHookExamples.keys OldHookExamples.defaults
       OldHookExamples.XflHelpers_toString [ OldHookExamples.short_moment_size_state ]
     = Thrown RangeError.
Proof.
  split; [reflexivity |]. split; [vm_compute; reflexivity |].
  apply (proj1 (proj2 (old_config_fields OldHookExamples.keys OldHookExamples.defaults
                         OldHookExamples.XflHelpers_toString
                         [ OldHookExamples.short_moment_size_state ]
                         [ (Some "45565202", [ x01 ]) ] eq_refl))
           [ x01 ]).
  - reflexivity.
  - simpl. lia.
Defined.

End OldHookFacts.

(** ** Error events and dud-host reports *)

Module ReportFacts.

Import Classifier.
Import DispatchFacts.
Import Senders.

Ltac branch rt self tx R Hg :=
  rewrite (extract_of_rule rt self tx R); [| EventFacts.in_rules | exact Hg];
  cbn [rule_body].

(** The reason of an error event: the memo text, or the [reason] of the
    parsed memo when its format is JSON. *)
Lemma error_reason_cases (rt : Runtime) (tx : Tx) :
  let text := memo0_data tx in
  let isJson := opt_eq_str (memo0_format tx) MemoFormats.JSON in
  (isJson = false -> error_reason rt tx = Returned (JStr text))
  /\ (isJson = true ->
      (forall fs, JSON_parse rt text = Returned (JObj fs) ->
                  error_reason rt tx = Returned (lookup_field "reason" fs))
      /\ (JSON_parse rt text = Returned JNull -> error_reason rt tx = Thrown TypeError)
      /\ (forall e, JSON_parse rt text = Thrown e -> error_reason rt tx = Thrown e)).
Proof.
  intros text isJson. unfold error_reason. fold text. fold isJson. split.
  - intros ->. reflexivity.
  - intros ->. repeat split.
    + intros fs ->. reflexivity.
    + intros ->. reflexivity.
    + intros e ->. reflexivity.
Qed.

(** X29: an AcquireError and an ExtendError event report the event data as
    reference id and, as reason, the text of the first memo when its format
    is not JSON and the [reason] field of the parsed memo when it is; a JSON
    memo that does not parse makes the classifier throw what the parser
    throws, and one that parses to null makes it throw a TypeError. *)
Theorem error_events_reason (rt : Runtime) (self : Client) (tx : Tx) :
  let text := memo0_data tx in
  let isJson := opt_eq_str (memo0_format tx) MemoFormats.JSON in
  let outcome (n : EvernodeEvents) (ref : string) :=
    (isJson = false ->
     extractEvernodeEvent rt self tx
     = event n tx [ (ref, JStr (eventData_text tx)); ("reason", JStr text) ])
    /\ (isJson = true ->
        (forall fs, JSON_parse rt text = Returned (JObj fs) ->
           extractEvernodeEvent rt self tx
           = event n tx [ (ref, JStr (eventData_text tx));
                          ("reason", lookup_field "reason" fs) ])
        /\ (JSON_parse rt text = Returned JNull ->
            extractEvernodeEvent rt self tx = Thrown TypeError)
        /\ (forall e, JSON_parse rt text = Thrown e ->
              extractEvernodeEvent rt self tx = Thrown e)) in
  (g_acquire_error tx = true -> outcome AcquireError "acquireRefId")
  /\ (g_extend_error tx = true -> outcome ExtendError "extendRefId").
Proof.
  intros text isJson outcome.
  destruct (error_reason_cases rt tx) as [Hplain Hjson].
  fold text in Hplain, Hjson. fold isJson in Hplain, Hjson.
  split; intros Hg; unfold outcome.
  - branch rt self tx
      {| rule_type := EventTypes.ACQUIRE_ERROR; rule_guard := g_acquire_error;
         rule_body := b_acquire_error rt |} Hg.
    unfold b_acquire_error. split.
    + intros Hf. rewrite (Hplain Hf). reflexivity.
    + intros Ht. destruct (Hjson Ht) as [Hobj [Hnull Hthrow]]. repeat split.
      * intros fs Hp. rewrite (Hobj fs Hp). reflexivity.
      * intros Hp. rewrite (Hnull Hp). reflexivity.
      * intros e Hp. rewrite (Hthrow e Hp). reflexivity.
  - branch rt self tx
      {| rule_type := EventTypes.EXTEND_ERROR; rule_guard := g_extend_error;
         rule_body := b_extend_error rt |} Hg.
    unfold b_extend_error. split.
    + intros Hf. rewrite (Hplain Hf). reflexivity.
    + intros Ht. destruct (Hjson Ht) as [Hobj [Hnull Hthrow]]. repeat split.
      * intros fs Hp. rewrite (Hobj fs Hp). reflexivity.
      * intros Hp. rewrite (Hnull Hp). reflexivity.
      * intros e Hp. rewrite (Hthrow e Hp). reflexivity.
Qed.

(** X30: the payment that [_reportDudHost] sends carries the candidate id
    as event data, and the classifier reports DudHostReported with the
    first 64 characters as candidate id and the address encoded from bytes
    12..32 of that id; when those characters decode to fewer than 32 bytes
    the address codec throws, and for an empty id the result is null. *)
Theorem report_dud_host_is_classified (rt : Runtime) (self : Client)
    (candidateId : string) (tx : Tx) :
  let sent := Examples.with_params tx (_reportDudHost candidateId) in
  let id := Buf.substr 0 64 candidateId in
  let bytes := Buf.from_hex id in
  (candidateId = "" -> extractEvernodeEvent rt self sent = Returned None)
  /\ (candidateId <> "" -> (32 <= List.length bytes)%nat ->
      extractEvernodeEvent rt self sent
      = event DudHostReported sent
          [ ("candidateId", JStr id);
            ("host", JStr (base58_account rt
                             (Buf.slice DUD_HOST_CANDID_ADDRESS_OFFSET 32 bytes))) ])
  /\ (candidateId <> "" -> (List.length bytes < 32)%nat ->
      extractEvernodeEvent rt self sent = Thrown CodecError).
Proof.
  intros sent id bytes.
  assert (Hty : eventType_of sent = Some EventTypes.DUD_HOST_REPORT) by reflexivity.
  assert (Hdata : eventData_of sent = Some candidateId) by reflexivity.
  assert (Hbody : candidateId <> "" ->
                  extractEvernodeEvent rt self sent = b_dud_host_report rt sent).
  { intros Hne.
    assert (Hg : g_dud_host_report sent = true).
    { unfold g_dud_host_report.
      apply (EventFacts.is_type_with_data_intro sent _ _ Hty Hdata).
      destruct candidateId; [contradiction | simpl; lia]. }
    branch rt self sent
      {| rule_type := EventTypes.DUD_HOST_REPORT; rule_guard := g_dud_host_report;
         rule_body := b_dud_host_report rt |} Hg.
    reflexivity. }
  assert (Hid : Buf.substr 0 64 (eventData_text sent) = id).
  { unfold eventData_text. rewrite Hdata. reflexivity. }
  repeat split.
  - intros Hnil.
    apply (SenderFacts.typed_rule_off rt self sent
             {| rule_type := EventTypes.DUD_HOST_REPORT;
                rule_guard := g_dud_host_report;
                rule_body := b_dud_host_report rt |}); [EventFacts.in_rules | reflexivity |].
    cbn [rule_guard]. unfold g_dud_host_report, is_type_with_data.
    rewrite Hdata, Hnil. reflexivity.
  - intros Hne H32. rewrite (Hbody Hne). unfold b_dud_host_report.
    rewrite Hid. unfold dud_host_address, encodeAccountID. fold bytes.
    unfold Buf.slice, DUD_HOST_CANDID_ADDRESS_OFFSET.
    rewrite length_firstn, length_skipn.
    replace (Nat.min (32 - 12) (List.length bytes - 12)) with 20%nat by lia.
    reflexivity.
  - intros Hne H32. rewrite (Hbody Hne). unfold b_dud_host_report.
    rewrite Hid. unfold dud_host_address, encodeAccountID. fold bytes.
    unfold Buf.slice, DUD_HOST_CANDID_ADDRESS_OFFSET.
    rewrite length_firstn, length_skipn.
    destruct (Nat.eqb_spec (Nat.min (32 - 12) (List.length bytes - 12)) 20);
      [lia | reflexivity].
Qed.

End ReportFacts.
